(** * LinkedIn automation tool: campaign engine and human-behaviour generators

    A shallow embedding of the Go sources
    - [stealth/timing.go]      (RandomDelay),
    - [navigation/patterns.go] (RandomDelay, and package search: FindPeople),
    - [stealth/mouse.go]       (MoveMouseHuman),
    - [connect/request.go]     (SendRequests, findConnectButton),
    - [messaging/followup.go]  (SendFollowUps),
    together with the properties of the design document that can be
    decided on them.  Part I is the model, Part II the properties.

    Part I also embeds the pauses and the typing generator
    ([stealth/timing.go], [stealth/typing.go]), smooth scrolling, the tab
    navigation ([navigation/navigate.go], [navigation/patterns.go]), the
    configuration and the driver ([config/config.go], [auth/session.go])
    and the state store on disk (package storage); Part III holds
    further properties of the code. *)

From Stdlib Require Import ZArith Floats String Ascii List Lia.
From stdpp Require Import gmap strings list pretty.

Set Warnings "-inexact-float".

Open Scope Z_scope.

(* ===================================================================== *)
(** * Machine integers *)
(* ===================================================================== *)

(** Go's [int], [int64] and [time.Duration] are 64-bit two's complement on
    the platforms the tool is built for; arithmetic wraps silently. *)

Definition min_int64 : Z := - 2 ^ 63.
Definition max_int64 : Z := 2 ^ 63 - 1.

Definition in_int64 (z : Z) : Prop := min_int64 <= z <= max_int64.

Definition wrap64 (z : Z) : Z := (z + 2 ^ 63) mod 2 ^ 64 - 2 ^ 63.

(** [time.Millisecond] and [time.Second], in nanoseconds. *)
Definition Millisecond : Z := 1000000.
Definition Second : Z := 1000000000.

(** [a + b], [a - b], [a * b] on [int]. *)
Definition add64 (a b : Z) : Z := wrap64 (a + b).
Definition sub64 (a b : Z) : Z := wrap64 (a - b).
Definition mul64 (a b : Z) : Z := wrap64 (a * b).

(** The package-local helper [max(a, b int) int]. *)
Definition max (a b : Z) : Z := if b <? a then a else b.

(* ===================================================================== *)
(** * Delay generator *)
(* ===================================================================== *)

(** [Intn(n)] of a [rand.Rand] panics when [n <= 0]; otherwise it returns the
    generator's draw, which the library promises to lie in [[0, n)].  The
    draw of a generator freshly seeded from the clock is the parameter
    [draw]; [None] stands for the panic. *)
Definition Intn (draw : Z -> Z) (n : Z) : option Z :=
  if n <=? 0 then None else Some (draw n).

(** The contract of the library's generator. *)
Definition draw_in_range (draw : Z -> Z) : Prop :=
  forall n, 0 < n -> 0 <= draw n < n.

Module stealth.

(** stealth/timing.go, [RandomDelay]; the result is a [time.Duration]
    in nanoseconds. *)
Definition RandomDelay (draw : Z -> Z) (minMs maxMs : Z) : option Z :=
  let minMs := if minMs <? 0 then 0 else minMs in
  let maxMs := if maxMs <? minMs then minMs else maxMs in
  match Intn draw (add64 (sub64 maxMs minMs) 1) with
  | None => None
  | Some r => let n := add64 r minMs in Some (mul64 n Millisecond)
  end.

(* --------------------------------------------------------------------- *)
(** ** Motion generator (stealth/mouse.go) *)

(** [float64(n)] for an [int] [n]: the nearest binary64 value. *)
Definition float64 (z : Z) : float :=
  SF2Prim (binary_normalize 53 1024 z 0 false).

(** [int(f)] for a [float64] [f]: truncation toward zero.  Outside the
    range of [int] the result is implementation-specific; the value the
    amd64 port produces is used. *)
Definition int_of_float64 (f : float) : Z :=
  match Prim2SF f with
  | S754_zero _ => 0
  | S754_finite s m e =>
      let v := if 0 <=? e then Z.pos m * 2 ^ e else Z.quot (Z.pos m) (2 ^ (- e)) in
      let v := if s then - v else v in
      if (min_int64 <=? v) && (v <=? max_int64) then v else min_int64
  | _ => min_int64
  end.

(** [math.Hypot], after the portable implementation of the library. *)
Definition Hypot (p q : float) : float :=
  let p := PrimFloat.abs p in
  let q := PrimFloat.abs q in
  if PrimFloat.is_infinity p || PrimFloat.is_infinity q then PrimFloat.infinity
  else if PrimFloat.is_nan p || PrimFloat.is_nan q then PrimFloat.nan
  else
    let '(p, q) := if (p <? q)%float then (q, p) else (p, q) in
    if (p =? 0)%float then 0%float
    else let q := (q / p)%float in (p * PrimFloat.sqrt (1 + q * q))%float.

(** [proto.Point]. *)
Record Point := { X : float; Y : float }.

(** A [rand.Rand]: the stream of values its [Float64] hands out, each in
    [[0, 1)], and the number of values drawn so far. *)
Record Rand := { stream : nat -> float; cursor : nat }.

Definition Float64 (r : Rand) : float * Rand :=
  (stream r (cursor r), {| stream := stream r; cursor := S (cursor r) |}).

Definition randRange (r : Rand) (min max : float) : float * Rand :=
  let '(min, max) := if (max <? min)%float then (max, min) else (min, max) in
  let '(u, r) := Float64 r in
  ((min + u * (max - min))%float, r).

Definition cubicBezier (p0 p1 p2 p3 t : float) : float :=
  let u := (1 - t)%float in
  (u * u * u * p0 + 3 * u * u * t * p1 + 3 * u * t * t * p2 + t * t * t * p3)%float.

(** The mouse of the automation context.  [MoveTo] reports an error or
    [None]; [MoveAlong] is handed the closure over [points] (which yields
    them in order, one per call) and reports the positions it moved
    through and its error, if any. *)
Record Mouse := {
  MoveTo : Point -> option string;
  MoveAlong : list Point -> list Point * option string }.

(** Lines 45-50: the optional overshoot, which updates [toX] and [toY]. *)
Definition overshoot (r : Rand) (toX toY : Z) : Z * Z * Rand :=
  let overshootChance := 0.22%float in
  let '(c, r) := Float64 r in
  if (c <? overshootChance)%float then
    let '(ox, r) := randRange r (-8)%float 14%float in
    let toX := add64 toX (int_of_float64 ox) in
    let '(oy, r) := randRange r (-8)%float 14%float in
    let toY := add64 toY (int_of_float64 oy) in
    (toX, toY, r)
  else (toX, toY, r).

(** Lines 52-62: the sampled, jittered curve; [n] counts the iterations
    that remain of [for i := 1; i <= steps; i++]. *)
Fixpoint curvePoints (n : nat) (i steps : Z) (fromX fromY toX toY : Z)
    (cp1x cp1y cp2x cp2y : float) (r : Rand) : list Point :=
  match n with
  | O => []
  | S n =>
      let t := (float64 i / float64 steps)%float in
      let x := cubicBezier (float64 fromX) cp1x cp2x (float64 toX) t in
      let y := cubicBezier (float64 fromY) cp1y cp2y (float64 toY) t in
      let '(jx, r) := randRange r (-3)%float 3%float in
      let x := (x + jx)%float in
      let '(jy, r) := randRange r (-3)%float 3%float in
      let y := (y + jy)%float in
      {| X := x; Y := y |}
        :: curvePoints n (i + 1) steps fromX fromY toX toY cp1x cp1y cp2x cp2y r
  end.

(** [MoveMouseHuman]: the positions sent to the mouse, in order, and the
    returned error.  The per-point sleeps do not move the pointer and are
    left out. *)
Definition MoveMouseHuman (m : Mouse) (r : Rand) (fromX fromY toX toY : Z)
    : list Point * option string :=
  let dx := float64 (sub64 toX fromX) in
  let dy := float64 (sub64 toY fromY) in
  let dist := Hypot dx dy in
  if (dist <? 2)%float then
    let p := {| X := float64 toX; Y := float64 toY |} in
    ([p], MoveTo m p)
  else
    let steps := add64 (int_of_float64 (dist / 8)%float) 20 in
    let steps := if steps <? 25 then 25 else steps in
    let steps := if 220 <? steps then 220 else steps in
    let '(a, r) := randRange r (- dist * 0.1)%float (dist * 0.1)%float in
    let cp1x := (float64 fromX + dx * 0.3 + a)%float in
    let '(a, r) := randRange r (- dist * 0.1)%float (dist * 0.1)%float in
    let cp1y := (float64 fromY + dy * 0.3 + a)%float in
    let '(a, r) := randRange r (- dist * 0.1)%float (dist * 0.1)%float in
    let cp2x := (float64 fromX + dx * 0.7 + a)%float in
    let '(a, r) := randRange r (- dist * 0.1)%float (dist * 0.1)%float in
    let cp2y := (float64 fromY + dy * 0.7 + a)%float in
    let '(toX, toY, r) := overshoot r toX toY in
    let points :=
      curvePoints (Z.to_nat steps) 1 steps fromX fromY toX toY cp1x cp1y cp2x cp2y r in
    match MoveAlong m points with
    | (visited, Some e) => (visited, Some ("mouse move: " +:+ e))
    | (visited, None) =>
        let p := {| X := float64 toX; Y := float64 toY |} in
        (visited ++ [p], MoveTo m p)
    end.

(** The distance [MoveMouseHuman] measures (lines 22-24), and the number
    of points it samples for a distance (lines 31-37). *)
Definition moveDistance (fromX fromY toX toY : Z) : float :=
  Hypot (float64 (sub64 toX fromX)) (float64 (sub64 toY fromY)).

Definition curveSteps (dist : float) : Z :=
  let steps := add64 (int_of_float64 (dist / 8)%float) 20 in
  let steps := if steps <? 25 then 25 else steps in
  if 220 <? steps then 220 else steps.

(** The generator after [n] more draws. *)
Definition drawn (n : nat) (r : Rand) : Rand :=
  {| stream := stream r; cursor := n + cursor r |}.

(** The point the caller asked for. *)
Definition target (toX toY : Z) : Point := {| X := float64 toX; Y := float64 toY |}.

(** A mouse that accepts every move and replays all the points it is
    handed. *)
Definition replayMouse : Mouse :=
  {| MoveTo := fun _ => None; MoveAlong := fun points => (points, None) |}.

(** A generator whose first draws are the listed ones, then 0.5. *)
Definition scripted (draws : list float) : Rand :=
  {| stream := fun k => nth k draws 0.5%float; cursor := 0 |}.

End stealth.

Module navigation.

(** navigation/patterns.go, [RandomDelay]: the clock reading
    [time.Now().UnixNano()] is the parameter [nano].  [%] is Go's
    truncated remainder; a zero divisor would panic. *)
Definition RandomDelay (nano : Z) (minMs maxMs : Z) : option Z :=
  let minMs := if minMs <? 0 then 0 else minMs in
  let maxMs := if maxMs <? minMs then minMs else maxMs in
  let m := add64 (sub64 maxMs minMs) 1 in
  if m =? 0 then None
  else Some (mul64 (add64 minMs (wrap64 (Z.rem nano m))) Millisecond).

End navigation.

(** The bounds after clamping, as both generators compute them. *)
Definition clamp_min (minMs : Z) : Z := if minMs <? 0 then 0 else minMs.
Definition clamp_max (minMs maxMs : Z) : Z :=
  if maxMs <? clamp_min minMs then clamp_min minMs else maxMs.

(** The largest number of milliseconds a [time.Duration] can hold. *)
Definition max_duration_ms : Z := max_int64 / Millisecond.

(** A duration [d] (nanoseconds) lies between [lo] and [hi] milliseconds. *)
Definition within_ms (lo hi d : Z) : Prop :=
  lo * Millisecond <= d <= hi * Millisecond.


(* ===================================================================== *)
(** * The automation context *)
(* ===================================================================== *)

(** [strings.ToLower] on the ASCII letters; other bytes are kept, which
    does not change whether the ASCII keywords below occur. *)
Definition lower_ascii (c : ascii) : ascii :=
  let n := nat_of_ascii c in
  if (65 <=? n)%nat && (n <=? 90)%nat then ascii_of_nat (n + 32) else c.

Fixpoint ToLower (s : string) : string :=
  match s with
  | EmptyString => EmptyString
  | String c s' => String (lower_ascii c) (ToLower s')
  end.

(** [strings.Contains(s, substr)]. *)
Fixpoint Contains (s substr : string) : bool :=
  if String.prefix substr s then true
  else match s with
       | EmptyString => false
       | String _ s' => Contains s' substr
       end.

(** A [rod.Element] as the code reads it: [Text()] gives a string or an
    error ([None]); [Attribute(name)] gives an error ([None]), a nil
    pointer ([Some None]) or the value. *)
Record Elem := {
  el_text : option string;
  el_attr : string -> option (option string) }.

(** [config.TimingConfig]. *)
Record TimingConfig := { MinDelayMs : Z; MaxDelayMs : Z }.

(** Delays the generator can draw between without a panic: the bounds
    are machine integers, and not both a minimum that is clamped to 0
    and the largest maximum. *)
Definition delays_usable (cfg : TimingConfig) : Prop :=
  in_int64 (MinDelayMs cfg) /\ in_int64 (MaxDelayMs cfg)
  /\ (0 < MinDelayMs cfg \/ MaxDelayMs cfg < max_int64).

(** What the engines reach through the clock, the random source and the
    page.  An error is [Some] of its message, [None] is Go's [nil].
    [Element sel w] is [page.Timeout(..).Element(sel)] on the page
    currently shown in [w]: the element, or [None] when the lookup fails. *)
Class Env (W : Type) := {
  Now_date : W -> string;
  Now_rfc3339 : W -> string;
  Sleep : Z -> W -> W;
  Rand_draw : W -> Z -> Z;
  Navigate : string -> W -> option string * W;
  WaitLoad : W -> option string * W;
  Element : string -> W -> option Elem }.

(** An engine either returns a value or panics. *)
Inductive Go (A : Type) : Type :=
| Returns (a : A)
| Panics.
Arguments Returns {A} a.
Arguments Panics {A}.

(** Control flow of one pass through a [for] body. *)
Inductive Flow (A : Type) : Type :=
| Break (a : A)
| Continue (a : A)
| Panic.
Arguments Break {A} a.
Arguments Continue {A} a.
Arguments Panic {A}.

(* ===================================================================== *)
(** * Campaign engine: connection requests (connect/request.go) *)
(* ===================================================================== *)

Module connect.

Record ConnectionState := {
  Date : string;
  RequestsSentToday : Z;
  AttemptedProfiles : gmap string bool;
  SuccessfulSends : gmap string string;
  FailedAttempts : gmap string string }.

Record RequestConfig := {
  MaxPerDay : Z;
  UsePersonalizedNotes : bool;
  NoteTemplate : string;
  WaitBetweenRequests : Z }.

(** What [store.Load] followed by [json.Unmarshal] can yield for the key
    [connection_state]: no such key, another storage error, bytes that do
    not parse, or a decoded record whose maps may be nil. *)
Inductive Stored :=
| StoredNotFound
| StoredError (e : string)
| StoredUnparsable
| StoredState (date : string) (sent : Z) (attempted : option (gmap string bool))
    (succeeded failed : option (gmap string string)).

(** The two ways [saveConnectionState] fails. *)
Inductive SaveError :=
| MarshalError (e : string)
| StoreError (e : string).

(** The state store behind the engine, and what [sendConnectionRequest]
    asks of the browser beyond the automation context: the wheel of the
    mouse ([page.Mouse.Scroll(0, y, 1)], with its error), the clock
    reading [time.Now().UnixNano()], and everything after the Connect
    button is found (lines 212-256: pointer move, click, note dialogue),
    which yields the error to return, if any. *)
Class Deps (W : Type) := {
  store_load : W -> Stored;
  store_save : ConnectionState -> W -> option SaveError * W;
  MouseScroll : float -> W -> option string * W;
  UnixNano : W -> Z;
  completeRequest : Elem -> RequestConfig -> TimingConfig -> W -> option string * W }.

(** The lines the engine writes to its log, in order. *)
Inductive LogEntry :=
| NoProfilesProvided
| LoadFailedStartingFresh (e : string)
| NewDayDetected (previousDate today : string)
| LimitAlreadyReached (sent limit : Z)
| LimitReachedDuringCampaign (sent limit remaining : Z)
| SkippingAttempted (url : string)
| ProcessingProfile (url : string)
| SendFailed (url e : string)
| SentSuccessfully (url : string) (sentToday : Z)
| SaveFailed (e : string)
| WaitingBeforeNext (duration : Z)
| CampaignCompleted (successful skipped errors totalSentToday limit : Z).

(** The variables of the loop of [SendRequests]. *)
Record Loop (W : Type) := {
  state : ConnectionState;
  successCount : Z;
  skipCount : Z;
  errorCount : Z;
  world : W;
  log : list LogEntry }.
Arguments state {W} _.
Arguments successCount {W} _.
Arguments skipCount {W} _.
Arguments errorCount {W} _.
Arguments world {W} _.
Arguments log {W} _.

(** What a call of [SendRequests] leaves behind: the returned error, the
    in-memory state when the call got as far as loading it, the three
    counters, the world and the log. *)
Record Run (W : Type) := {
  ret : option string;
  final : option ConnectionState;
  successful : Z;
  skipped : Z;
  errors : Z;
  after : W;
  trace : list LogEntry }.
Arguments ret {W} _.
Arguments final {W} _.
Arguments successful {W} _.
Arguments skipped {W} _.
Arguments errors {W} _.
Arguments after {W} _.
Arguments trace {W} _.

Definition connectSelectors : list string :=
  [ "button[aria-label*='Invite'][aria-label*='connect']";
    "button[aria-label^='Invite']";
    "button:has-text('Connect')";
    "button.pvs-profile-actions__action:has-text('Connect')";
    "button.artdeco-button--secondary:has-text('Connect')";
    "button.pvs-profile-actions__action";
    "button[aria-label*='Connect']" ]%string.

Definition unavailableReasons : list (string * string) :=
  [ ("button:has-text('Following')", "already following");
    ("button:has-text('Pending')", "connection request already pending");
    ("button:has-text('Message')", "already connected");
    ("span:has-text('Connection')", "already connected") ]%string.

Definition profileSelectors : list string :=
  [ "div.pv-top-card";
    "section.artdeco-card";
    "h1.text-heading-xlarge";
    "div.ph5.pb5";
    "main.scaffold-layout__main" ]%string.

Definition notFoundMessage : string :=
  "connect button not found - may already be connected or profile restricted".

Section Engine.
Context {W : Type} `{!Env W} `{!Deps W}.

Definition newConnectionState (w : W) : ConnectionState :=
  {| Date := Now_date w;
     RequestsSentToday := 0;
     AttemptedProfiles := ∅;
     SuccessfulSends := ∅;
     FailedAttempts := ∅ |}.

Definition loadConnectionState (w : W) : ConnectionState + string :=
  match store_load w with
  | StoredNotFound => inl (newConnectionState w)
  | StoredError e => inr e
  | StoredUnparsable => inl (newConnectionState w)
  | StoredState date sent attempted succeeded failed =>
      inl {| Date := date;
             RequestsSentToday := sent;
             AttemptedProfiles := default ∅ attempted;
             SuccessfulSends := default ∅ succeeded;
             FailedAttempts := default ∅ failed |}
  end.

Definition saveConnectionState (st : ConnectionState) (w : W) : option string * W :=
  match store_save st w with
  | (Some (MarshalError e), w) => (Some ("marshal connection state: " +:+ e), w)
  | (Some (StoreError e), w) => (Some ("save connection state: " +:+ e), w)
  | (None, w) => (None, w)
  end.

Definition isProfileAvailable (w : W) : bool :=
  existsb (fun sel => bool_decide (is_Some (Element sel w))) profileSelectors.

(** The first loop of [findConnectButton]: the first selector whose
    element says "connect" in its text or its aria-label. *)
Fixpoint scanConnect (sels : list string) (w : W) : option Elem :=
  match sels with
  | [] => None
  | sel :: sels =>
      match Element sel w with
      | None => scanConnect sels w
      | Some btn =>
          if match el_text btn with
             | Some text => Contains (ToLower text) "connect"
             | None => false
             end
          then Some btn
          else if match el_attr btn "aria-label" with
                  | Some (Some ariaLabel) => Contains (ToLower ariaLabel) "connect"
                  | _ => false
                  end
          then Some btn
          else scanConnect sels w
      end
  end.

(** The second loop: the reason attached to the first indicator present. *)
Fixpoint scanUnavailable (checks : list (string * string)) (w : W) : option string :=
  match checks with
  | [] => None
  | (selector, reason) :: checks =>
      match Element selector w with
      | Some _ => Some reason
      | None => scanUnavailable checks w
      end
  end.

Definition findConnectButton (w : W) : Elem + string :=
  match scanConnect connectSelectors w with
  | Some btn => inl btn
  | None =>
      match scanUnavailable unavailableReasons w with
      | Some reason => inr ("connect unavailable: " +:+ reason)
      | None => inr notFoundMessage
      end
  end.

(** The loop of [humanScrollProfile] (lines 567-579), with [n] scrolls
    to go.  The pause after a scroll is drawn between the configured
    delays as they are, so the delay generator may panic here; an error
    of the wheel ends the function. *)
Fixpoint scrollDown (n : nat) (timingCfg : TimingConfig) (w : W)
    : Go (option string * W) :=
  match n with
  | O => Returns (None, w)
  | S n =>
      let scrollDistance := add64 300 (Z.rem (UnixNano w) 300) in
      match MouseScroll (stealth.float64 scrollDistance) w with
      | (Some e, w) => Returns (Some e, w)
      | (None, w) =>
          match stealth.RandomDelay (Rand_draw w) (MinDelayMs timingCfg)
                  (MaxDelayMs timingCfg) with
          | None => Panics
          | Some d => scrollDown n timingCfg (Sleep d w)
          end
      end
  end.

(** [humanScrollProfile]: the returned error and the world, or the panic
    of a delay. *)
Definition humanScrollProfile (timingCfg : TimingConfig) (w : W)
    : Go (option string * W) :=
  let scrolls := add64 2 (Z.rem (UnixNano w) 2) in
  match scrollDown (Z.to_nat scrolls) timingCfg w with
  | Panics => Panics
  | Returns (Some e, w) => Returns (Some e, w)
  | Returns (None, w) =>
      let backScroll := add64 100 (Z.rem (UnixNano w) 100) in
      let '(_, w) := MouseScroll (- stealth.float64 backScroll)%float w in
      match stealth.RandomDelay (Rand_draw w) 500 1000 with
      | None => Panics
      | Some d => Returns (None, Sleep d w)
      end
  end.

(** [sendConnectionRequest]: the returned error and the world, or a
    panic.  The error of [humanScrollProfile] is merely logged. *)
Definition sendConnectionRequest (profileURL : string) (reqCfg : RequestConfig)
    (timingCfg : TimingConfig) (w : W) : Go (option string * W) :=
  match Navigate profileURL w with
  | (Some e, w) => Returns (Some ("navigate to profile: " +:+ e), w)
  | (None, w) =>
      match WaitLoad w with
      | (Some e, w) => Returns (Some ("wait for profile load: " +:+ e), w)
      | (None, w) =>
          let w := Sleep (mul64 3 Second) w in
          if negb (isProfileAvailable w)
          then Returns (Some "profile unavailable or private", w)
          else
            match humanScrollProfile timingCfg w with
            | Panics => Panics
            | Returns (_, w) =>
                match findConnectButton w with
                | inr e => Returns (Some ("find connect button: " +:+ e), w)
                | inl connectBtn =>
                    Returns (completeRequest connectBtn reqCfg timingCfg w)
                end
            end
      end
  end.

(** Lines 147-157: the pause before the next profile. *)
Definition pacing (reqCfg : RequestConfig) (w : W) : Go Z :=
  let waitTime := mul64 (WaitBetweenRequests reqCfg) Millisecond in
  let waitTime := if waitTime <? mul64 5 Second then mul64 5 Second else waitTime in
  match stealth.RandomDelay (Rand_draw w) 2000 5000 with
  | None => Panics
  | Some d => Returns (add64 waitTime d)
  end.

(** [state.AttemptedProfiles[profileURL]]: a missing key reads as false. *)
Definition attempted (st : ConnectionState) (profileURL : string) : bool :=
  default false (AttemptedProfiles st !! profileURL).

(** One pass through the body of the loop (lines 90-159) for
    [profileURL], with [rest] the profiles after it.  The three counters
    are bounded by the length of the slice and cannot wrap.  A panic of
    the step leaves the loop, and the run, at once. *)
Definition iteration (reqCfg : RequestConfig) (timingCfg : TimingConfig)
    (profileURL : string) (rest : list string) (l : Loop W) : Flow (Loop W) :=
  let st := state l in
  if MaxPerDay reqCfg <=? RequestsSentToday st then
    Break {| state := st; successCount := successCount l; skipCount := skipCount l;
             errorCount := errorCount l; world := world l;
             log := log l ++ [LimitReachedDuringCampaign (RequestsSentToday st)
                                (MaxPerDay reqCfg) (Z.of_nat (S (length rest)))] |}
  else if attempted st profileURL then
    Continue {| state := st; successCount := successCount l;
                skipCount := skipCount l + 1; errorCount := errorCount l;
                world := world l; log := log l ++ [SkippingAttempted profileURL] |}
  else
    let lg := log l ++ [ProcessingProfile profileURL] in
    match sendConnectionRequest profileURL reqCfg timingCfg (world l) with
    | Panics => Panic
    | Returns (err, w) =>
    let att := <[profileURL := true]> (AttemptedProfiles st) in
    let l1 :=
      match err with
      | Some e =>
          {| state := {| Date := Date st;
                         RequestsSentToday := RequestsSentToday st;
                         AttemptedProfiles := att;
                         SuccessfulSends := SuccessfulSends st;
                         FailedAttempts := <[profileURL := e]> (FailedAttempts st) |};
             successCount := successCount l; skipCount := skipCount l;
             errorCount := errorCount l + 1; world := w;
             log := lg ++ [SendFailed profileURL e] |}
      | None =>
          let sent := add64 (RequestsSentToday st) 1 in
          {| state := {| Date := Date st;
                         RequestsSentToday := sent;
                         AttemptedProfiles := att;
                         SuccessfulSends :=
                           <[profileURL := Now_rfc3339 w]> (SuccessfulSends st);
                         FailedAttempts := FailedAttempts st |};
             successCount := successCount l + 1; skipCount := skipCount l;
             errorCount := errorCount l; world := w;
             log := lg ++ [SentSuccessfully profileURL sent] |}
      end in
    let '(serr, w) := saveConnectionState (state l1) (world l1) in
    let lg := match serr with
              | Some e => log l1 ++ [SaveFailed e]
              | None => log l1
              end in
    match rest with
    | [] =>
        Continue {| state := state l1; successCount := successCount l1;
                    skipCount := skipCount l1; errorCount := errorCount l1;
                    world := w; log := lg |}
    | _ :: _ =>
        match pacing reqCfg w with
        | Panics => Panic
        | Returns waitTime =>
            Continue {| state := state l1; successCount := successCount l1;
                        skipCount := skipCount l1; errorCount := errorCount l1;
                        world := Sleep waitTime w;
                        log := lg ++ [WaitingBeforeNext waitTime] |}
        end
    end
    end.

(** [for i, profileURL := range profiles]. *)
Fixpoint loop (reqCfg : RequestConfig) (timingCfg : TimingConfig)
    (profiles : list string) (l : Loop W) : Go (Loop W) :=
  match profiles with
  | [] => Returns l
  | profileURL :: rest =>
      match iteration reqCfg timingCfg profileURL rest l with
      | Break l' => Returns l'
      | Continue l' => loop reqCfg timingCfg rest l'
      | Panic => Panics
      end
  end.

(** Lines 62-75: load the state and roll the day over. *)
Definition startState (w : W) : ConnectionState * list LogEntry :=
  let '(st, lg) :=
    match loadConnectionState w with
    | inl st => (st, [])
    | inr e => (newConnectionState w, [LoadFailedStartingFresh e])
    end in
  let today := Now_date w in
  if negb (String.eqb (Date st) today) then
    ({| Date := today;
        RequestsSentToday := 0;
        AttemptedProfiles := AttemptedProfiles st;
        SuccessfulSends := SuccessfulSends st;
        FailedAttempts := FailedAttempts st |},
     lg ++ [NewDayDetected (Date st) today])
  else (st, lg).

Definition limitMessage (sent limit : Z) : string :=
  "daily connection limit reached: " +:+ pretty sent +:+ "/" +:+ pretty limit.

Definition SendRequests (profiles : list string) (reqCfg : RequestConfig)
    (timingCfg : TimingConfig) (w : W) : Go (Run W) :=
  match profiles with
  | [] =>
      Returns {| ret := None; final := None; successful := 0; skipped := 0;
                 errors := 0; after := w; trace := [NoProfilesProvided] |}
  | _ :: _ =>
      let '(st, lg) := startState w in
      if MaxPerDay reqCfg <=? RequestsSentToday st then
        Returns {| ret := Some (limitMessage (RequestsSentToday st) (MaxPerDay reqCfg));
                   final := Some st; successful := 0; skipped := 0; errors := 0;
                   after := w;
                   trace := lg ++ [LimitAlreadyReached (RequestsSentToday st)
                                     (MaxPerDay reqCfg)] |}
      else
        match loop reqCfg timingCfg profiles
                {| state := st; successCount := 0; skipCount := 0; errorCount := 0;
                   world := w; log := lg |} with
        | Panics => Panics
        | Returns l =>
            Returns {| ret := None; final := Some (state l);
                       successful := successCount l; skipped := skipCount l;
                       errors := errorCount l; after := world l;
                       trace := log l ++ [CampaignCompleted (successCount l)
                                  (skipCount l) (errorCount l)
                                  (RequestsSentToday (state l)) (MaxPerDay reqCfg)] |}
        end
  end.

End Engine.

End connect.

(* ===================================================================== *)
(** * Campaign engine: follow-up messages (messaging/followup.go) *)
(* ===================================================================== *)

Module messaging.

Record MessageRecord := {
  ProfileURL : string;
  Timestamp : string;
  MessageSent : string;
  Success : bool }.

Record MessageState := {
  Date : string;
  MessagesSentToday : Z;
  MessagedProfiles : gmap string MessageRecord }.

Record FollowUpConfig := {
  MaxPerDay : Z;
  MessageTemplate : string;
  WaitBetweenMessages : Z;
  Context_ : string }.

(** What [store.Load] and [json.Unmarshal] can yield for [message_state]:
    a storage error (a missing key included), no bytes, bytes that do not
    parse, or a decoded record whose map may be nil. *)
Inductive Stored :=
| StoredError (e : string)
| StoredEmpty
| StoredUnparsable (e : string)
| StoredState (date : string) (sent : Z) (messaged : option (gmap string MessageRecord)).

Inductive SaveError :=
| MarshalError (e : string)
| StoreError (e : string).

(** The state store, and [sendFollowUpMessage], which only drives the
    browser and yields the error to return, if any. *)
Class Deps (W : Type) := {
  store_load : W -> Stored;
  store_save : MessageState -> W -> option SaveError * W;
  sendFollowUpMessage : string -> FollowUpConfig -> TimingConfig -> W -> option string * W }.

Inductive LogEntry :=
| NoProfilesProvided
| LoadFailedStartingFresh (e : string)
| NewDayDetected (previousDate today : string)
| LimitAlreadyReached (sent limit : Z)
| LimitReachedDuringCampaign (sent limit remaining : Z)
| SkippingMessaged (url : string)
| CheckingProfile (url : string)
| CheckFailed (url e : string)
| NotYetConnected (url : string)
| SendFailed (url e : string)
| SentSuccessfully (url : string) (sentToday : Z)
| SaveFailed (e : string)
| WaitingBeforeNext (duration : Z)
| CampaignCompleted (successful skipped notConnected errors totalSentToday limit : Z).

Record Loop (W : Type) := {
  state : MessageState;
  successCount : Z;
  skipCount : Z;
  notConnectedCount : Z;
  errorCount : Z;
  world : W;
  log : list LogEntry }.
Arguments state {W} _.
Arguments successCount {W} _.
Arguments skipCount {W} _.
Arguments notConnectedCount {W} _.
Arguments errorCount {W} _.
Arguments world {W} _.
Arguments log {W} _.

Record Run (W : Type) := {
  ret : option string;
  final : option MessageState;
  after : W;
  trace : list LogEntry }.
Arguments ret {W} _.
Arguments final {W} _.
Arguments after {W} _.
Arguments trace {W} _.

Definition messageButtonSelectors : list string :=
  [ "button[aria-label*='Message']";
    "a[aria-label*='Message']";
    "button:has-text('Message')";
    "a:has-text('Message')";
    "button.pvs-profile-actions__action:has-text('Message')";
    "div.pvs-profile-actions button:has-text('Message')" ]%string.

Section Engine.
Context {W : Type} `{!Env W} `{!Deps W}.

Definition newMessageState (w : W) : MessageState :=
  {| Date := Now_date w; MessagesSentToday := 0; MessagedProfiles := ∅ |}.

Definition loadMessageState (w : W) : MessageState + string :=
  match store_load w with
  | StoredError e => inr ("load state: " +:+ e)
  | StoredEmpty => inl (newMessageState w)
  | StoredUnparsable e => inr ("unmarshal state: " +:+ e)
  | StoredState date sent messaged =>
      inl {| Date := date; MessagesSentToday := sent;
             MessagedProfiles := default ∅ messaged |}
  end.

Definition saveMessageState (st : MessageState) (w : W) : option string * W :=
  match store_save st w with
  | (Some (MarshalError e), w) => (Some ("marshal state: " +:+ e), w)
  | (Some (StoreError e), w) => (Some ("save state: " +:+ e), w)
  | (None, w) => (None, w)
  end.

(** The test applied to each element found by a Message selector; the
    errors of [Text] and [Attribute] are dropped by the code. *)
Definition saysMessage (elem : Elem) : bool :=
  let text := default EmptyString (el_text elem) in
  let ariaLabel := match el_attr elem "aria-label" with
                   | Some p => p
                   | None => None
                   end in
  Contains (ToLower text) "message"
  || match ariaLabel with
     | Some a => Contains (ToLower a) "message"
     | None => false
     end.

(** [checkIfConnected]: the answer, the error and the world.  The second
    scan (Connect, Pending, Follow) answers false whether or not it finds
    anything. *)
Definition checkIfConnected (profileURL : string) (w : W) : bool * option string * W :=
  match Navigate profileURL w with
  | (Some e, w) => (false, Some ("navigate to profile: " +:+ e), w)
  | (None, w) =>
      match WaitLoad w with
      | (Some e, w) => (false, Some ("wait for profile load: " +:+ e), w)
      | (None, w) =>
          let w := Sleep (mul64 3 Second) w in
          (existsb (fun sel => match Element sel w with
                               | Some elem => saysMessage elem
                               | None => false
                               end) messageButtonSelectors,
           None, w)
      end
  end.

Definition pacing (cfg : FollowUpConfig) (w : W) : Go Z :=
  let waitTime := mul64 (WaitBetweenMessages cfg) Millisecond in
  let waitTime := if waitTime <? mul64 10 Second then mul64 10 Second else waitTime in
  match stealth.RandomDelay (Rand_draw w) 2000 5000 with
  | None => Panics
  | Some d => Returns (add64 waitTime d)
  end.

(** [record, exists := state.MessagedProfiles[profileURL]; exists && record.Success]. *)
Definition messaged (st : MessageState) (profileURL : string) : bool :=
  match MessagedProfiles st !! profileURL with
  | Some record => Success record
  | None => false
  end.

(** One pass through the body of the loop (lines 112-210). *)
Definition iteration (cfg : FollowUpConfig) (timingCfg : TimingConfig)
    (profileURL : string) (rest : list string) (l : Loop W) : Flow (Loop W) :=
  let st := state l in
  if MaxPerDay cfg <=? MessagesSentToday st then
    Break {| state := st; successCount := successCount l; skipCount := skipCount l;
             notConnectedCount := notConnectedCount l; errorCount := errorCount l;
             world := world l;
             log := log l ++ [LimitReachedDuringCampaign (MessagesSentToday st)
                                (MaxPerDay cfg) (Z.of_nat (S (length rest)))] |}
  else if messaged st profileURL then
    Continue {| state := st; successCount := successCount l;
                skipCount := skipCount l + 1;
                notConnectedCount := notConnectedCount l; errorCount := errorCount l;
                world := world l; log := log l ++ [SkippingMessaged profileURL] |}
  else
    let lg := log l ++ [CheckingProfile profileURL] in
    match checkIfConnected profileURL (world l) with
    | (_, Some e, w) =>
        Continue {| state := st; successCount := successCount l; skipCount := skipCount l;
                    notConnectedCount := notConnectedCount l;
                    errorCount := errorCount l + 1; world := w;
                    log := lg ++ [CheckFailed profileURL e] |}
    | (false, None, w) =>
        Continue {| state := st; successCount := successCount l; skipCount := skipCount l;
                    notConnectedCount := notConnectedCount l + 1;
                    errorCount := errorCount l; world := w;
                    log := lg ++ [NotYetConnected profileURL] |}
    | (true, None, w) =>
        let '(err, w) := sendFollowUpMessage profileURL cfg timingCfg w in
        let l1 :=
          match err with
          | Some e =>
              {| state := {| Date := Date st;
                             MessagesSentToday := MessagesSentToday st;
                             MessagedProfiles :=
                               <[profileURL := {| ProfileURL := profileURL;
                                                  Timestamp := Now_rfc3339 w;
                                                  MessageSent := EmptyString;
                                                  Success := false |}]>
                                 (MessagedProfiles st) |};
                 successCount := successCount l; skipCount := skipCount l;
                 notConnectedCount := notConnectedCount l;
                 errorCount := errorCount l + 1; world := w;
                 log := lg ++ [SendFailed profileURL e] |}
          | None =>
              let sent := add64 (MessagesSentToday st) 1 in
              {| state := {| Date := Date st;
                             MessagesSentToday := sent;
                             MessagedProfiles :=
                               <[profileURL := {| ProfileURL := profileURL;
                                                  Timestamp := Now_rfc3339 w;
                                                  MessageSent := MessageTemplate cfg;
                                                  Success := true |}]>
                                 (MessagedProfiles st) |};
                 successCount := successCount l + 1; skipCount := skipCount l;
                 notConnectedCount := notConnectedCount l;
                 errorCount := errorCount l; world := w;
                 log := lg ++ [SentSuccessfully profileURL sent] |}
          end in
        let '(serr, w) := saveMessageState (state l1) (world l1) in
        let lg := match serr with
                  | Some e => log l1 ++ [SaveFailed e]
                  | None => log l1
                  end in
        match rest with
        | [] =>
            Continue {| state := state l1; successCount := successCount l1;
                        skipCount := skipCount l1;
                        notConnectedCount := notConnectedCount l1;
                        errorCount := errorCount l1; world := w; log := lg |}
        | _ :: _ =>
            match pacing cfg w with
            | Panics => Panic
            | Returns waitTime =>
                Continue {| state := state l1; successCount := successCount l1;
                            skipCount := skipCount l1;
                            notConnectedCount := notConnectedCount l1;
                            errorCount := errorCount l1;
                            world := Sleep waitTime w;
                            log := lg ++ [WaitingBeforeNext waitTime] |}
            end
        end
    end.

Fixpoint loop (cfg : FollowUpConfig) (timingCfg : TimingConfig)
    (profiles : list string) (l : Loop W) : Go (Loop W) :=
  match profiles with
  | [] => Returns l
  | profileURL :: rest =>
      match iteration cfg timingCfg profileURL rest l with
      | Break l' => Returns l'
      | Continue l' => loop cfg timingCfg rest l'
      | Panic => Panics
      end
  end.

Definition startState (w : W) : MessageState * list LogEntry :=
  let '(st, lg) :=
    match loadMessageState w with
    | inl st => (st, [])
    | inr e => (newMessageState w, [LoadFailedStartingFresh e])
    end in
  let today := Now_date w in
  if negb (String.eqb (Date st) today) then
    ({| Date := today; MessagesSentToday := 0;
        MessagedProfiles := MessagedProfiles st |},
     lg ++ [NewDayDetected (Date st) today])
  else (st, lg).

Definition limitMessage (sent limit : Z) : string :=
  "daily message limit reached: " +:+ pretty sent +:+ "/" +:+ pretty limit.

Definition SendFollowUps (profiles : list string) (cfg : FollowUpConfig)
    (timingCfg : TimingConfig) (w : W) : Go (Run W) :=
  match profiles with
  | [] => Returns {| ret := None; final := None; after := w;
                     trace := [NoProfilesProvided] |}
  | _ :: _ =>
      let '(st, lg) := startState w in
      if MaxPerDay cfg <=? MessagesSentToday st then
        Returns {| ret := Some (limitMessage (MessagesSentToday st) (MaxPerDay cfg));
                   final := Some st; after := w;
                   trace := lg ++ [LimitAlreadyReached (MessagesSentToday st)
                                     (MaxPerDay cfg)] |}
      else
        match loop cfg timingCfg profiles
                {| state := st; successCount := 0; skipCount := 0;
                   notConnectedCount := 0; errorCount := 0; world := w; log := lg |} with
        | Panics => Panics
        | Returns l =>
            Returns {| ret := None; final := Some (state l); after := world l;
                       trace := log l ++ [CampaignCompleted (successCount l)
                                  (skipCount l) (notConnectedCount l) (errorCount l)
                                  (MessagesSentToday (state l)) (MaxPerDay cfg)] |}
        end
  end.

End Engine.

End messaging.

(* ===================================================================== *)
(** * Discovery workflow (package search) *)
(* ===================================================================== *)

Module search.

Record SearchParams := {
  Keywords : string;
  JobTitle : string;
  Company : string;
  Location : string;
  MaxPages : Z }.

(** The helpers of [FindPeople] that only talk to the store, the URL
    library or the browser.  Errors that the caller merely logs are not
    reported ([humanScrollOnce], [humanScrollResults]). *)
Class Deps (W : Type) := {
  loadSeenProfiles : W -> gmap string bool + string;
  saveSeenProfiles : gmap string bool -> W -> option string * W;
  performHumanSearch : SearchParams -> TimingConfig -> W -> option string * W;
  buildSearchURL : SearchParams -> string + string;
  humanScrollOnce : TimingConfig -> W -> W;
  humanScrollResults : TimingConfig -> W -> W;
  extractProfileURLs : W -> (list string + string) * W;
  normalizeProfileURL : string -> string;
  clickNextPage : TimingConfig -> W -> option string * W }.

(** The variables of the pagination loop; [pagesLog] holds, for every
    page processed, its number and the count of new profiles logged. *)
Record Crawl (W : Type) := {
  seenProfiles : gmap string bool;
  allProfiles : list string;
  currentPage : Z;
  pagesLog : list (Z * Z);
  world : W }.
Arguments seenProfiles {W} _.
Arguments allProfiles {W} _.
Arguments currentPage {W} _.
Arguments pagesLog {W} _.
Arguments world {W} _.

(** How the loop is left: by [return nil, err], by falling out of it
    (condition false or [break]), or by a panic of the delay generator. *)
Inductive Exit (W : Type) : Type :=
| ReturnedError (e : string) (c : Crawl W)
| LeftLoop (c : Crawl W)
| Panicked (c : Crawl W).
Arguments ReturnedError {W} e c.
Arguments LeftLoop {W} c.
Arguments Panicked {W} c.

(** The result of [FindPeople]: the returned slice ([None] for nil with
    an error), the error, and the pages that were processed. *)
Record Found (W : Type) := {
  profiles : option (list string);
  err : option string;
  panicked : bool;
  pages : list (Z * Z);
  after : W }.
Arguments profiles {W} _.
Arguments err {W} _.
Arguments panicked {W} _.
Arguments pages {W} _.
Arguments after {W} _.

Definition exitCrawl {W : Type} (e : Exit W) : Crawl W :=
  match e with
  | ReturnedError _ c => c
  | LeftLoop c => c
  | Panicked c => c
  end.

Definition nextButtonSelectors : list string :=
  [ "button[aria-label='Next']";
    "button.artdeco-pagination__button--next";
    "li.artdeco-pagination__indicator--number:not(.selected) + li button";
    "button[data-test-pagination-page-btn='next']" ]%string.

Section Discovery.
Context {W : Type} `{!Env W} `{!Deps W}.

(** The loop of [hasNextPage]: the first selector that resolves decides. *)
Fixpoint scanNext (sels : list string) (w : W) : bool :=
  match sels with
  | [] => false
  | sel :: sels =>
      match Element sel w with
      | None => scanNext sels w
      | Some el =>
          let disabled := match el_attr el "disabled" with
                          | Some p => p
                          | None => None
                          end in
          let ariaDisabled := match el_attr el "aria-disabled" with
                              | Some p => p
                              | None => None
                              end in
          if bool_decide (is_Some disabled)
             || match ariaDisabled with
                | Some v => String.eqb v "true"
                | None => false
                end
          then false
          else true
      end
  end.

Definition hasNextPage (w : W) : bool * option string :=
  (scanNext nextButtonSelectors w, None).

(** Lines 289-306: normalise, drop what was seen, collect the rest. *)
Fixpoint collect (found : list string) (seen : gmap string bool)
    (all : list string) (newCount : Z) : gmap string bool * list string * Z :=
  match found with
  | [] => (seen, all, newCount)
  | profileURL :: found =>
      let normalized := normalizeProfileURL profileURL in
      if String.eqb normalized EmptyString then collect found seen all newCount
      else if default false (seen !! normalized) then collect found seen all newCount
      else collect found (<[normalized := true]> seen) (all ++ [normalized])
             (newCount + 1)
  end.

(** The pagination loop (lines 278-351).  [fuel] bounds the number of
    passes the model follows; [None] means the bound was too small. *)
Fixpoint crawl (fuel : nat) (maxPages : Z) (cfg : TimingConfig) (c : Crawl W)
    : option (Exit W) :=
  match fuel with
  | O => None
  | S fuel =>
      if currentPage c <=? maxPages then
        match extractProfileURLs (world c) with
        | (inr e, w) =>
            Some (ReturnedError
                    ("extract profiles on page " +:+ pretty (currentPage c) +:+ ": " +:+ e)
                    {| seenProfiles := seenProfiles c; allProfiles := allProfiles c;
                       currentPage := currentPage c; pagesLog := pagesLog c;
                       world := w |})
        | (inl found, w) =>
            let '(seen, all, newCount) :=
              collect found (seenProfiles c) (allProfiles c) 0 in
            let plog := pagesLog c ++ [(currentPage c, newCount)] in
            let w := humanScrollResults cfg w in
            let stop w := Some (LeftLoop {| seenProfiles := seen; allProfiles := all;
                                            currentPage := currentPage c;
                                            pagesLog := plog; world := w |}) in
            match hasNextPage w with
            | (_, Some _) => stop w
            | (false, None) => stop w
            | (true, None) =>
                match clickNextPage cfg w with
                | (Some _, w) => stop w
                | (None, w) =>
                    let w := Sleep (mul64 3 Second) w in
                    let w := humanScrollOnce cfg w in
                    let page := add64 (currentPage c) 1 in
                    match stealth.RandomDelay (Rand_draw w)
                            (max 2000 (mul64 (MinDelayMs cfg) 3))
                            (max 5000 (mul64 (MaxDelayMs cfg) 3)) with
                    | None =>
                        Some (Panicked {| seenProfiles := seen; allProfiles := all;
                                          currentPage := page; pagesLog := plog;
                                          world := w |})
                    | Some pauseDuration =>
                        crawl fuel maxPages cfg
                          {| seenProfiles := seen; allProfiles := all;
                             currentPage := page; pagesLog := plog;
                             world := Sleep pauseDuration w |}
                    end
                end
            end
        end
      else Some (LeftLoop c)
  end.

(** Lines 261-364, from the wait for the results on. *)
Definition paginate (fuel : nat) (params : SearchParams) (cfg : TimingConfig)
    (seen : gmap string bool) (w : W) : option (Found W) :=
  let w := Sleep (mul64 3 Second) w in
  let w := humanScrollOnce cfg w in
  let maxPages := MaxPages params in
  let maxPages := if maxPages =? 0 then 10 else maxPages in
  match crawl fuel maxPages cfg
          {| seenProfiles := seen; allProfiles := []; currentPage := 1;
             pagesLog := []; world := w |} with
  | None => None
  | Some (ReturnedError e c) =>
      Some {| profiles := None; err := Some e; panicked := false;
              pages := pagesLog c; after := world c |}
  | Some (Panicked c) =>
      Some {| profiles := None; err := None; panicked := true;
              pages := pagesLog c; after := world c |}
  | Some (LeftLoop c) =>
      let '(_, w) := saveSeenProfiles (seenProfiles c) (world c) in
      Some {| profiles := Some (allProfiles c); err := None; panicked := false;
              pages := pagesLog c; after := w |}
  end.

Definition FindPeople (fuel : nat) (params : SearchParams) (cfg : TimingConfig)
    (w : W) : option (Found W) :=
  let seen := match loadSeenProfiles w with
              | inl seen => seen
              | inr _ => ∅
              end in
  let failed e w := Some {| profiles := None; err := Some e; panicked := false;
                            pages := []; after := w |} in
  match performHumanSearch params cfg w with
  | (None, w) => paginate fuel params cfg seen w
  | (Some _, w) =>
      match buildSearchURL params with
      | inr e => failed ("build search URL: " +:+ e) w
      | inl searchURL =>
          match Navigate searchURL w with
          | (Some e, w) => failed ("navigate to search: " +:+ e) w
          | (None, w) =>
              match WaitLoad w with
              | (Some e, w) => failed ("wait for search page load: " +:+ e) w
              | (None, w) => paginate fuel params cfg seen w
              end
          end
      end
  end.

End Discovery.

End search.

(* ===================================================================== *)
(** * Simulated worlds *)
(* ===================================================================== *)

(** Small, fully determined worlds on which the engines can be run. *)

Definition noAttributes : string -> option (option string) := fun _ => Some None.

Definition labelled (text : string) : Elem :=
  {| el_text := Some text; el_attr := noAttributes |}.

(** A profile page that offers a Connect button. *)
Definition connectablePage (sel : string) : option Elem :=
  if String.eqb sel "div.pv-top-card" then Some (labelled EmptyString)
  else if String.eqb sel "button:has-text('Connect')" then Some (labelled "Connect")
  else None.

(** A profile page that shows Following where Connect would be. *)
Definition followingPage (sel : string) : option Elem :=
  if String.eqb sel "div.pv-top-card" then Some (labelled EmptyString)
  else if String.eqb sel "button:has-text('Following')" then Some (labelled "Following")
  else None.

(** A profile page with neither a Connect button nor an indicator. *)
Definition barePage (sel : string) : option Elem :=
  if String.eqb sel "div.pv-top-card" then Some (labelled EmptyString) else None.

(** A profile page of an accepted connection. *)
Definition messagePage (sel : string) : option Elem :=
  if String.eqb sel "button:has-text('Message')" then Some (labelled "Message") else None.

(** The world of the connection campaign.  The page every profile shows
    and whether the state store accepts writes are fixed for all the
    worlds of one type; a world holds the day and the record in the store. *)
Record ProfileSim (page : string -> option Elem) (store_ok : bool) := {
  sim_today : string;
  sim_store : option connect.ConnectionState }.
Arguments sim_today {page store_ok} _.
Arguments sim_store {page store_ok} _.

#[global] Instance ProfileSim_Env page store_ok : Env (ProfileSim page store_ok) :=
  {| Now_date := sim_today;
     Now_rfc3339 := fun w => sim_today w +:+ "T09:00:00Z";
     Sleep := fun _ w => w;
     Rand_draw := fun _ _ => 0;
     Navigate := fun _ w => (None, w);
     WaitLoad := fun w => (None, w);
     Element := fun sel _ => page sel |}.

#[global] Instance ProfileSim_Deps page store_ok : connect.Deps (ProfileSim page store_ok) :=
  {| connect.store_load := fun w =>
       match sim_store w with
       | None => connect.StoredNotFound
       | Some st =>
           connect.StoredState (connect.Date st) (connect.RequestsSentToday st)
             (Some (connect.AttemptedProfiles st)) (Some (connect.SuccessfulSends st))
             (Some (connect.FailedAttempts st))
       end;
     connect.store_save := fun st w =>
       if store_ok
       then (None, {| sim_today := sim_today w; sim_store := Some st |})
       else (Some (connect.StoreError "disk full"), w);
     connect.MouseScroll := fun _ w => (None, w);
     connect.UnixNano := fun _ => 1714554000000000000;
     connect.completeRequest := fun _ _ _ w => (None, w) |}.

(** The world of the follow-up campaign; every profile shows a Message
    button. *)
Record InboxSim (store_ok : bool) := {
  inbox_today : string;
  inbox_store : option messaging.MessageState }.
Arguments inbox_today {store_ok} _.
Arguments inbox_store {store_ok} _.

#[global] Instance InboxSim_Env store_ok : Env (InboxSim store_ok) :=
  {| Now_date := inbox_today;
     Now_rfc3339 := fun w => inbox_today w +:+ "T09:00:00Z";
     Sleep := fun _ w => w;
     Rand_draw := fun _ _ => 0;
     Navigate := fun _ w => (None, w);
     WaitLoad := fun w => (None, w);
     Element := fun sel _ => messagePage sel |}.

#[global] Instance InboxSim_Deps store_ok : messaging.Deps (InboxSim store_ok) :=
  {| messaging.store_load := fun w =>
       match inbox_store w with
       | None => messaging.StoredEmpty
       | Some st =>
           messaging.StoredState (messaging.Date st) (messaging.MessagesSentToday st)
             (Some (messaging.MessagedProfiles st))
       end;
     messaging.store_save := fun st w =>
       if store_ok
       then (None, {| inbox_today := inbox_today w; inbox_store := Some st |})
       else (Some (messaging.StoreError "disk full"), w);
     messaging.sendFollowUpMessage := fun _ _ _ w => (None, w) |}.

(** The world of the discovery workflow: the result pages still ahead,
    the first being the one shown; each page lists its profile links and
    tells whether it has an enabled Next button. *)
Record ResultsSim := {
  results_pages : list (list string * bool);
  results_seen : gmap string bool }.

Definition shownPage (w : ResultsSim) : list string * bool :=
  match results_pages w with
  | [] => ([], false)
  | p :: _ => p
  end.

#[global] Instance ResultsSim_Env : Env ResultsSim :=
  {| Now_date := fun _ => "2024-05-01";
     Now_rfc3339 := fun _ => "2024-05-01T09:00:00Z";
     Sleep := fun _ w => w;
     Rand_draw := fun _ _ => 0;
     Navigate := fun _ w => (None, w);
     WaitLoad := fun w => (None, w);
     Element := fun sel w =>
       if String.eqb sel "button[aria-label='Next']" && snd (shownPage w)
       then Some (labelled "Next") else None |}.

#[global] Instance ResultsSim_Deps : search.Deps ResultsSim :=
  {| search.loadSeenProfiles := fun w => inl (results_seen w);
     search.saveSeenProfiles := fun seen w =>
       (None, {| results_pages := results_pages w; results_seen := seen |});
     search.performHumanSearch := fun _ _ w => (None, w);
     search.buildSearchURL := fun _ => inl "https://www.linkedin.com/search/results/people/";
     search.humanScrollOnce := fun _ w => w;
     search.humanScrollResults := fun _ w => w;
     search.extractProfileURLs := fun w => (inl (fst (shownPage w)), w);
     search.normalizeProfileURL := fun url => url;
     search.clickNextPage := fun _ w =>
       (None, {| results_pages := tail (results_pages w); results_seen := results_seen w |}) |}.

(** An endless supply of result pages, all listing the same profile; the
    world is the number of the page shown. *)
Record EndlessSim := { page_shown : nat }.

#[global] Instance EndlessSim_Env : Env EndlessSim :=
  {| Now_date := fun _ => "2024-05-01";
     Now_rfc3339 := fun _ => "2024-05-01T09:00:00Z";
     Sleep := fun _ w => w;
     Rand_draw := fun _ _ => 0;
     Navigate := fun _ w => (None, w);
     WaitLoad := fun w => (None, w);
     Element := fun sel _ =>
       if String.eqb sel "button[aria-label='Next']" then Some (labelled "Next") else None |}.

#[global] Instance EndlessSim_Deps : search.Deps EndlessSim :=
  {| search.loadSeenProfiles := fun _ => inl ∅;
     search.saveSeenProfiles := fun _ w => (None, w);
     search.performHumanSearch := fun _ _ w => (None, w);
     search.buildSearchURL := fun _ => inl "https://www.linkedin.com/search/results/people/";
     search.humanScrollOnce := fun _ w => w;
     search.humanScrollResults := fun _ w => w;
     search.extractProfileURLs := fun w => (inl ["/in/same-person"], w);
     search.normalizeProfileURL := fun url => "https://www.linkedin.com" +:+ url;
     search.clickNextPage := fun _ w => (None, {| page_shown := S (page_shown w) |}) |}.

Definition firstPage : EndlessSim := {| page_shown := 1 |}.

(** Three result pages: the second repeats the first, the third has no
    Next button. *)
Definition threePages : ResultsSim :=
  {| results_pages := [ (["/in/ada"], true); (["/in/ada"], true); (["/in/grace"], false) ];
     results_seen := ∅ |}.

Definition timing : TimingConfig := {| MinDelayMs := 800; MaxDelayMs := 2500 |}.

Definition requestConfig (maxPerDay : Z) : connect.RequestConfig :=
  {| connect.MaxPerDay := maxPerDay; connect.UsePersonalizedNotes := false;
     connect.NoteTemplate := EmptyString; connect.WaitBetweenRequests := 8000 |}.

Definition followUpConfig (maxPerDay : Z) : messaging.FollowUpConfig :=
  {| messaging.MaxPerDay := maxPerDay; messaging.MessageTemplate := "Hi {{name}}";
     messaging.WaitBetweenMessages := 15000; messaging.Context_ := EmptyString |}.

Definition searchParams (maxPages : Z) : search.SearchParams :=
  {| search.Keywords := "engineer"; search.JobTitle := EmptyString; search.Company := EmptyString;
     search.Location := EmptyString; search.MaxPages := maxPages |}.

Definition today : string := "2024-05-01".
Definition ada : string := "https://www.linkedin.com/in/ada".
Definition grace : string := "https://www.linkedin.com/in/grace".
Definition linus : string := "https://www.linkedin.com/in/linus".

(** A first run: nothing in the store yet. *)
Definition firstRun (page : string -> option Elem) (store_ok : bool) (today : string)
    : ProfileSim page store_ok :=
  {| sim_today := today; sim_store := None |}.

(** A later run: the store holds [st]. *)
Definition laterRun (page : string -> option Elem) (store_ok : bool) (today : string)
    (st : connect.ConnectionState) : ProfileSim page store_ok :=
  {| sim_today := today; sim_store := Some st |}.

Definition firstFollowUps (store_ok : bool) (today : string) : InboxSim store_ok :=
  {| inbox_today := today; inbox_store := None |}.

(* ===================================================================== *)
(** * Observations *)
(* ===================================================================== *)

(** The profiles for which [sendConnectionRequest] was invoked: the
    engine logs [ProcessingProfile] immediately before each call. *)
Definition processed (lg : list connect.LogEntry) : list string :=
  omap (fun e => match e with
                 | connect.ProcessingProfile url => Some url
                 | _ => None
                 end) lg.

(** The profiles skipped as already attempted. *)
Definition duplicates (lg : list connect.LogEntry) : list string :=
  omap (fun e => match e with
                 | connect.SkippingAttempted url => Some url
                 | _ => None
                 end) lg.

(** The profiles the loop of [SendRequests] got to, processed or skipped. *)
Definition visited (lg : list connect.LogEntry) : list string :=
  omap (fun e => match e with
                 | connect.ProcessingProfile url => Some url
                 | connect.SkippingAttempted url => Some url
                 | _ => None
                 end) lg.

(** The failures to persist that were logged. *)
Definition saveFailures (lg : list connect.LogEntry) : list string :=
  omap (fun e => match e with
                 | connect.SaveFailed e => Some e
                 | _ => None
                 end) lg.

(** The profiles the loop of [SendFollowUps] got to. *)
Definition checked (lg : list messaging.LogEntry) : list string :=
  omap (fun e => match e with
                 | messaging.CheckingProfile url => Some url
                 | messaging.SkippingMessaged url => Some url
                 | _ => None
                 end) lg.

(** The profiles for which [sendFollowUpMessage] was invoked, and the
    failures to persist that [SendFollowUps] logged. *)
Definition messageAttempts (lg : list messaging.LogEntry) : list string :=
  omap (fun e => match e with
                 | messaging.SendFailed url _ => Some url
                 | messaging.SentSuccessfully url _ => Some url
                 | _ => None
                 end) lg.

Definition messageSaveFailures (lg : list messaging.LogEntry) : list string :=
  omap (fun e => match e with
                 | messaging.SaveFailed e => Some e
                 | _ => None
                 end) lg.


(** The state that [SendRequests] starts its quota check with. *)
Definition entryState {W : Type} `{!Env W} `{!connect.Deps W} (w : W)
    : connect.ConnectionState := fst (connect.startState w).

Definition entryMessageState {W : Type} `{!Env W} `{!messaging.Deps W} (w : W)
    : messaging.MessageState := fst (messaging.startState w).

(** The state a run leaves in memory; a run that returns before loading
    one leaves the entry state as it was. *)
Definition stateAfter {W : Type} `{!Env W} `{!connect.Deps W} (w : W)
    (r : connect.Run W) : connect.ConnectionState :=
  default (entryState w) (connect.final r).

(** The state a run ends with, for runs that got as far as loading one. *)
Definition endState {W : Type} (today : string) (r : Go (connect.Run W))
    : connect.ConnectionState :=
  match r with
  | Returns r =>
      default {| connect.Date := today; connect.RequestsSentToday := 0;
                 connect.AttemptedProfiles := ∅; connect.SuccessfulSends := ∅;
                 connect.FailedAttempts := ∅ |} (connect.final r)
  | Panics => {| connect.Date := today; connect.RequestsSentToday := 0;
                 connect.AttemptedProfiles := ∅; connect.SuccessfulSends := ∅;
                 connect.FailedAttempts := ∅ |}
  end.

(* ===================================================================== *)
(** * The effect of one pass of the engines' loops *)
(* ===================================================================== *)

(** The cases of one pass through the loop of [SendRequests], stated on
    the state, the counters and the observations above. *)

Section ConnectPass.
Context {W : Type} `{!Env W} `{!connect.Deps W}.
Import connect.

Inductive pass (reqCfg : RequestConfig) (timingCfg : TimingConfig)
    (url : string) (l : Loop W) : Flow (Loop W) -> Prop :=
| pass_limit l' :
    MaxPerDay reqCfg <= RequestsSentToday (state l) ->
    state l' = state l -> world l' = world l ->
    successCount l' = successCount l -> skipCount l' = skipCount l ->
    errorCount l' = errorCount l ->
    processed (log l') = processed (log l) ->
    visited (log l') = visited (log l) ->
    duplicates (log l') = duplicates (log l) ->
    saveFailures (log l') = saveFailures (log l) ->
    pass reqCfg timingCfg url l (Break l')
| pass_duplicate l' :
    RequestsSentToday (state l) < MaxPerDay reqCfg ->
    attempted (state l) url = true ->
    state l' = state l -> world l' = world l ->
    successCount l' = successCount l -> skipCount l' = skipCount l + 1 ->
    errorCount l' = errorCount l ->
    processed (log l') = processed (log l) ->
    visited (log l') = visited (log l) ++ [url] ->
    duplicates (log l') = duplicates (log l) ++ [url] ->
    saveFailures (log l') = saveFailures (log l) ->
    pass reqCfg timingCfg url l (Continue l')
| pass_failed l' e w :
    RequestsSentToday (state l) < MaxPerDay reqCfg ->
    attempted (state l) url = false ->
    sendConnectionRequest url reqCfg timingCfg (world l) = Returns (Some e, w) ->
    state l' = {| Date := Date (state l);
                  RequestsSentToday := RequestsSentToday (state l);
                  AttemptedProfiles := <[url := true]> (AttemptedProfiles (state l));
                  SuccessfulSends := SuccessfulSends (state l);
                  FailedAttempts := <[url := e]> (FailedAttempts (state l)) |} ->
    successCount l' = successCount l -> skipCount l' = skipCount l ->
    errorCount l' = errorCount l + 1 ->
    processed (log l') = processed (log l) ++ [url] ->
    visited (log l') = visited (log l) ++ [url] ->
    duplicates (log l') = duplicates (log l) ->
    (forall serr w', saveConnectionState (state l') w = (serr, w') ->
       saveFailures (log l') = saveFailures (log l) ++ option_list serr) ->
    pass reqCfg timingCfg url l (Continue l')
| pass_sent l' w :
    RequestsSentToday (state l) < MaxPerDay reqCfg ->
    attempted (state l) url = false ->
    sendConnectionRequest url reqCfg timingCfg (world l) = Returns (None, w) ->
    state l' = {| Date := Date (state l);
                  RequestsSentToday := add64 (RequestsSentToday (state l)) 1;
                  AttemptedProfiles := <[url := true]> (AttemptedProfiles (state l));
                  SuccessfulSends := <[url := Now_rfc3339 w]> (SuccessfulSends (state l));
                  FailedAttempts := FailedAttempts (state l) |} ->
    successCount l' = successCount l + 1 -> skipCount l' = skipCount l ->
    errorCount l' = errorCount l ->
    processed (log l') = processed (log l) ++ [url] ->
    visited (log l') = visited (log l) ++ [url] ->
    duplicates (log l') = duplicates (log l) ->
    (forall serr w', saveConnectionState (state l') w = (serr, w') ->
       saveFailures (log l') = saveFailures (log l) ++ option_list serr) ->
    pass reqCfg timingCfg url l (Continue l')
| pass_panicked :
    RequestsSentToday (state l) < MaxPerDay reqCfg ->
    attempted (state l) url = false ->
    sendConnectionRequest url reqCfg timingCfg (world l) = Panics ->
    pass reqCfg timingCfg url l Panic.

End ConnectPass.

(** The cases of one pass through the loop of [SendFollowUps]. *)

Section FollowUpPass.
Context {W : Type} `{!Env W} `{!messaging.Deps W}.
Import messaging.

Inductive followup_pass (cfg : FollowUpConfig) (url : string) (l : Loop W)
    : Flow (Loop W) -> Prop :=
| followup_limit l' :
    MaxPerDay cfg <= MessagesSentToday (state l) ->
    state l' = state l -> world l' = world l ->
    checked (log l') = checked (log l) ->
    messageAttempts (log l') = messageAttempts (log l) ->
    messageSaveFailures (log l') = messageSaveFailures (log l) ->
    followup_pass cfg url l (Break l')
| followup_passed_over l' :
    MessagesSentToday (state l) < MaxPerDay cfg ->
    state l' = state l ->
    checked (log l') = checked (log l) ++ [url] ->
    messageAttempts (log l') = messageAttempts (log l) ->
    messageSaveFailures (log l') = messageSaveFailures (log l) ->
    followup_pass cfg url l (Continue l')
| followup_attempted l' w :
    MessagesSentToday (state l) < MaxPerDay cfg ->
    messaged (state l) url = false ->
    checked (log l') = checked (log l) ++ [url] ->
    messageAttempts (log l') = messageAttempts (log l) ++ [url] ->
    (forall serr w', saveMessageState (state l') w = (serr, w') ->
       messageSaveFailures (log l')
       = messageSaveFailures (log l) ++ option_list serr) ->
    followup_pass cfg url l (Continue l').

End FollowUpPass.

(* ===================================================================== *)
(** * Further observations on the engines *)
(* ===================================================================== *)

(** The check [findConnectButton] applies to an element before accepting
    it: its text, or else its aria-label, says "connect". *)
Definition saysConnect (btn : Elem) : bool :=
  match el_text btn with
  | Some text => Contains (ToLower text) "connect"
  | None => false
  end
  || match el_attr btn "aria-label" with
     | Some (Some ariaLabel) => Contains (ToLower ariaLabel) "connect"
     | _ => false
     end.

(** The state a run of [SendFollowUps] leaves in memory. *)
Definition messageStateAfter {W : Type} `{!Env W} `{!messaging.Deps W} (w : W)
    (r : messaging.Run W) : messaging.MessageState :=
  default (entryMessageState w) (messaging.final r).

(** A state stored the day before [today], with one success on record. *)
Definition staleState : connect.ConnectionState :=
  {| connect.Date := "2024-04-30"; connect.RequestsSentToday := 7;
     connect.AttemptedProfiles := {[ ada := true ]};
     connect.SuccessfulSends := {[ ada := "2024-04-30T09:00:00Z" ]};
     connect.FailedAttempts := ∅ |}.

(** The profiles a follow-up was sent to: the engine logs
    [SentSuccessfully] after each send that returned no error. *)
Definition sentMessages (lg : list messaging.LogEntry) : list string :=
  omap (fun e => match e with
                 | messaging.SentSuccessfully url _ => Some url
                 | _ => None
                 end) lg.

(** The test [seenProfiles[normalized]] of [FindPeople]: a missing key
    reads as false. *)
Definition isSeen (seen : gmap string bool) (url : string) : bool :=
  default false (seen !! url).

(** The seen set [FindPeople] starts from: what [loadSeenProfiles]
    yields, or an empty map when it fails. *)
Definition seenAtEntry {W : Type} `{!Env W} `{!search.Deps W} (w : W)
    : gmap string bool :=
  match search.loadSeenProfiles w with
  | inl seen => seen
  | inr _ => ∅
  end.

(** The total of the new-profile counts logged for the pages. *)
Definition newLogged (pages : list (Z * Z)) : Z :=
  foldr Z.add 0 (snd <$> pages).

(* ===================================================================== *)
(** * Pauses and typing (stealth/timing.go, stealth/typing.go) *)
(* ===================================================================== *)

Module timing.

(** [ShortPause] and [ThinkPause]: the duration slept, or the panic of
    the delay generator.  [/] on [int] truncates toward zero. *)
Definition ShortPause (draw : Z -> Z) (cfg : TimingConfig) : Go Z :=
  match stealth.RandomDelay draw (max 40 (Z.quot (MinDelayMs cfg) 6))
          (max 80 (Z.quot (MinDelayMs cfg) 4)) with
  | None => Panics
  | Some d => Returns d
  end.

Definition ThinkPause (draw : Z -> Z) (cfg : TimingConfig) : Go Z :=
  let base := max (MinDelayMs cfg) 400 in
  let upper := max (MaxDelayMs cfg) (add64 base 400) in
  match stealth.RandomDelay draw base upper with
  | None => Panics
  | Some d => Returns d
  end.

End timing.

Module typing.

(** What [TypeHuman] does to the page, in order: a key typed, Backspace
    pressed, a sleep (in nanoseconds). *)
Inductive Event :=
| Typed (ch : Z)
| Backspace
| Slept (d : Z).

(** The keyboard of the page: the error of [kb.Type] and of
    [kb.Press(input.Backspace)], which may depend on what went before
    (the context of the element expires after 30 seconds). *)
Record Keyboard := {
  KeyType : list Event -> Z -> option string;
  Press : list Event -> option string }.

(** The element typed into: the errors of [ScrollIntoView] and [Click],
    and the keyboard of its page. *)
Record Target := {
  ScrollIntoView : option string;
  Click : option string;
  kb : Keyboard }.

(** The sources of randomness: the generator [r] of [TypeHuman], whose
    [Float64] values are the stream of [stealth.Rand] and whose [Intn]
    value, when it is the [k]-th draw, is [intn k]; and the draws of the
    generators that the delays seed from the clock, numbered in order. *)
Record Chance := {
  intn : nat -> Z -> Z;
  delays : nat -> Z -> Z }.

(** The loop variables: the generator, the number of delays drawn, and
    the events so far. *)
Record Typing := {
  gen : stealth.Rand;
  slept : nat;
  events : list Event }.

(** How the body of the loop is left: [return err], the end of the body,
    or a panic. *)
Inductive Step :=
| Fails (e : string) (t : Typing)
| Goes (t : Typing)
| Crashes.

Definition neighbors : list Z := [97; 115; 100; 102; 106; 107; 108; 101; 105; 111].

(** [randomNearbyRune]; indexing [neighbors] out of range panics. *)
Definition randomNearbyRune (c : Chance) (r : stealth.Rand) (ch : Z)
    : Go (Z * stealth.Rand) :=
  if (97 <=? ch) && (ch <=? 122) && (0 <? Z.of_nat (length neighbors)) then
    match Intn (intn c (stealth.cursor r)) (Z.of_nat (length neighbors)) with
    | None => Panics
    | Some i =>
        if i <? 0 then Panics
        else match neighbors !! Z.to_nat i with
             | None => Panics
             | Some wrong => Returns (wrong, stealth.drawn 1 r)
             end
    end
  else Returns (120, r).

(** [time.Sleep(RandomDelay(minMs, maxMs))]. *)
Definition pause (c : Chance) (minMs maxMs : Z) (t : Typing) : Step :=
  match stealth.RandomDelay (delays c (slept t)) minMs maxMs with
  | None => Crashes
  | Some d => Goes {| gen := gen t; slept := S (slept t);
                      events := events t ++ [Slept d] |}
  end.

Definition type (k : Keyboard) (ch : Z) (t : Typing) : Step :=
  match KeyType k (events t) ch with
  | Some e => Fails e t
  | None => Goes {| gen := gen t; slept := slept t; events := events t ++ [Typed ch] |}
  end.

Definition backspace (k : Keyboard) (t : Typing) : Step :=
  match Press k (events t) with
  | Some e => Fails e t
  | None => Goes {| gen := gen t; slept := slept t; events := events t ++ [Backspace] |}
  end.

Definition andThen (s : Step) (f : Typing -> Step) : Step :=
  match s with
  | Goes t => f t
  | Fails e t => Fails e t
  | Crashes => Crashes
  end.

(** Lines 34-44: the occasional typo, corrected at once. *)
Definition typo (k : Keyboard) (c : Chance) (cfg : TimingConfig) (ch : Z)
    (t : Typing) : Step :=
  let '(u, r) := stealth.Float64 (gen t) in
  if (u <? 0.05)%float then
    match randomNearbyRune c r ch with
    | Panics => Crashes
    | Returns (wrong, r) =>
        let t := {| gen := r; slept := slept t; events := events t |} in
        andThen (type k wrong t) (fun t =>
        andThen (pause c (max 25 (Z.quot (MinDelayMs cfg) 5))
                   (max 60 (Z.quot (MaxDelayMs cfg) 5)) t) (fun t =>
        andThen (backspace k t) (fun t =>
        pause c (max 25 (Z.quot (MinDelayMs cfg) 5))
          (max 60 (Z.quot (MaxDelayMs cfg) 5)) t)))
    end
  else Goes {| gen := r; slept := slept t; events := events t |}.

(** Lines 53-56: the occasional [ShortPause]. *)
Definition rhythm (c : Chance) (cfg : TimingConfig) (t : Typing) : Step :=
  let '(u, r) := stealth.Float64 (gen t) in
  if (u <? 0.12)%float then
    match timing.ShortPause (delays c (slept t)) cfg with
    | Panics => Crashes
    | Returns d => Goes {| gen := r; slept := S (slept t);
                           events := events t ++ [Slept d] |}
    end
  else Goes {| gen := r; slept := slept t; events := events t |}.

(** One pass through the body of the loop (lines 32-57). *)
Definition keystroke (k : Keyboard) (c : Chance) (cfg : TimingConfig) (ch : Z)
    (t : Typing) : Step :=
  andThen (typo k c cfg ch t) (fun t =>
  andThen (type k ch t) (fun t =>
  andThen (pause c (max 35 (Z.quot (MinDelayMs cfg) 4))
             (max 95 (Z.quot (MaxDelayMs cfg) 4)) t) (fun t =>
  rhythm c cfg t))).

Fixpoint typeAll (k : Keyboard) (c : Chance) (cfg : TimingConfig) (text : list Z)
    (t : Typing) : Step :=
  match text with
  | [] => Goes t
  | ch :: text => andThen (keystroke k c cfg ch t) (typeAll k c cfg text)
  end.

(** [TypeHuman]: the events in order and the returned error; [text] is
    the sequence of runes that [range] yields. *)
Definition TypeHuman (el : Target) (r : stealth.Rand) (c : Chance) (text : list Z)
    (cfg : TimingConfig) : Go (list Event * option string) :=
  match ScrollIntoView el with
  | Some e => Returns ([], Some e)
  | None =>
      match Click el with
      | Some e => Returns ([], Some e)
      | None =>
          match typeAll (kb el) c cfg text {| gen := r; slept := 0; events := [] |} with
          | Crashes => Panics
          | Fails e t => Returns (events t, Some e)
          | Goes t => Returns (events t, None)
          end
      end
  end.

(** The keys among the events, and the text they leave in the field:
    a typed key is appended, Backspace removes the last one. *)
Definition isKey (e : Event) : bool :=
  match e with
  | Slept _ => false
  | _ => true
  end.

Definition strike (field : list Z) (e : Event) : list Z :=
  match e with
  | Typed ch => field ++ [ch]
  | Backspace => removelast field
  | Slept _ => field
  end.

Definition fieldAfter (tr : list Event) : list Z := foldl strike [] tr.

(** The sleeps among the events. *)
Definition sleeps (tr : list Event) : list Z :=
  omap (fun e => match e with
                 | Slept d => Some d
                 | _ => None
                 end) tr.

(** A keyboard that accepts every key, and one that accepts [n] keys and
    then reports [e]. *)
Definition willing : Keyboard :=
  {| KeyType := fun _ _ => None; Press := fun _ => None |}.

Definition failingAfter (n : nat) (e : string) : Keyboard :=
  {| KeyType := fun tr _ => if (length (filter isKey tr) <? n)%nat then None else Some e;
     Press := fun tr => if (length (filter isKey tr) <? n)%nat then None else Some e |}.

Definition field (k : Keyboard) : Target :=
  {| ScrollIntoView := None; Click := None; kb := k |}.

(** Draws that always take the first value of the range. *)
Definition lowest : Chance := {| intn := fun _ _ => 0; delays := fun _ _ => 0 |}.

End typing.

(* ===================================================================== *)
(** * Smooth scrolling (stealth, SmoothScrollDown) *)
(* ===================================================================== *)

Module scrolling.





End scrolling.

(* ===================================================================== *)
(** * Tab navigation (navigation/navigate.go, navigation/patterns.go) *)
(* ===================================================================== *)

Module navigate.

(** [type LinkedInTab string] and its seven constants. *)
Definition LinkedInTab := string.

Definition TabFeed : LinkedInTab := "feed".
Definition TabMyNetwork : LinkedInTab := "mynetwork".
Definition TabJobs : LinkedInTab := "jobs".
Definition TabMessaging : LinkedInTab := "messaging".
Definition TabNotifications : LinkedInTab := "notifications".
Definition TabMe : LinkedInTab := "me".
Definition TabSearch : LinkedInTab := "search".

(** The three tables, read at a key; [None] is a key that is not in
    the map. *)
Definition tabURLs (tab : LinkedInTab) : option string :=
  if String.eqb tab TabFeed then Some "https://www.linkedin.com/feed"
  else if String.eqb tab TabMyNetwork then Some "https://www.linkedin.com/mynetwork"
  else if String.eqb tab TabJobs then Some "https://www.linkedin.com/jobs"
  else if String.eqb tab TabMessaging then Some "https://www.linkedin.com/messaging"
  else if String.eqb tab TabNotifications
  then Some "https://www.linkedin.com/notifications"
  else if String.eqb tab TabMe then Some "https://www.linkedin.com/in/me"
  else None.

Definition tabSelectors (tab : LinkedInTab) : option (list string) :=
  if String.eqb tab TabFeed then
    Some [ "a[href*='/feed']"; "nav a[data-link-to='feed']";
           "a.global-nav__primary-link[href*='feed']" ]
  else if String.eqb tab TabMyNetwork then
    Some [ "a[href*='/mynetwork']"; "nav a[data-link-to='mynetwork']";
           "a.global-nav__primary-link[href*='mynetwork']" ]
  else if String.eqb tab TabJobs then
    Some [ "a[href*='/jobs']"; "nav a[data-link-to='jobs']";
           "a.global-nav__primary-link[href*='jobs']" ]
  else if String.eqb tab TabMessaging then
    Some [ "a[href*='/messaging']"; "nav a[data-link-to='messaging']";
           "a.global-nav__primary-link[href*='messaging']" ]
  else if String.eqb tab TabNotifications then
    Some [ "a[href*='/notifications']"; "button[aria-label*='Notifications']";
           "a.global-nav__primary-link[href*='notifications']" ]
  else None.

Definition tabContentSelectors (tab : LinkedInTab) : option (list string) :=
  if String.eqb tab TabFeed then
    Some [ "main.scaffold-layout__main"; "div.feed-shared-update-v2";
           "div.scaffold-finite-scroll" ]
  else if String.eqb tab TabMyNetwork then
    Some [ "main.scaffold-layout__main"; "div.mn-community-summary";
           "section.artdeco-card" ]
  else if String.eqb tab TabJobs then
    Some [ "main.scaffold-layout__main"; "div.jobs-search-results-list";
           "div.scaffold-layout__list" ]
  else if String.eqb tab TabMessaging then
    Some [ "main.msg-overlay-list-bubble"; "div.msg-conversations-container";
           "aside.msg-overlay-list-bubble__convo-list" ]
  else if String.eqb tab TabNotifications then
    Some [ "main.scaffold-layout__main"; "div.nt-card__stack";
           "section.artdeco-card" ]
  else None.

(** What the navigation asks of the page besides the automation
    context: the URL of [page.Info] ([None] when it fails), the element
    found by a selector made visible and clicked, the polling loop of
    [waitForTabContent], [stealth.ScrollFeedHuman], and the clock reading
    [time.Now().UnixNano()]. *)
Class Deps (W : Type) := {
  pageURL : W -> option string;
  WaitVisible : string -> W -> option string * W;
  Click : string -> W -> option string * W;
  pollContent : list string -> W -> option string * W;
  ScrollFeedHuman : TimingConfig -> Z -> W -> option string * W;
  UnixNano : W -> Z }.

(** Of the log, the entries that tell which tabs were tried and how it
    went. *)
Inductive LogEntry :=
| NavigatingInSequence (tab : LinkedInTab)
| AttemptingNavigation (tab : LinkedInTab)
| NavigationFailed (tab : LinkedInTab) (e : string)
| NavigationSuccessful (tab : LinkedInTab)
| CustomActionFailed (tab : LinkedInTab) (e : string)
| ScrollFailed (tab : LinkedInTab) (e : string)
| ScrollCompleted (tab : LinkedInTab).

(** The result of [NavigateSequence] and of [ExecutePattern]. *)
Record Outcome (W : Type) := {
  err : option string;
  after : W;
  trace : list LogEntry }.
Arguments err {W} _.
Arguments after {W} _.
Arguments trace {W} _.

Section Tabs.
Context {W : Type} `{!Env W} `{!Deps W}.

Definition isOnTab (tab : LinkedInTab) (w : W) : bool :=
  match pageURL w with
  | None => false
  | Some u =>
      let url := ToLower u in
      if String.eqb tab TabMe then Contains url "/in/"
      else Contains url ("/" +:+ tab)
  end.

Definition waitForTabContent (tab : LinkedInTab) (w : W) : option string * W :=
  match tabContentSelectors tab with
  | None => (None, w)
  | Some selectors => pollContent selectors w
  end.

(** The loop of [clickNavigationTab]: whether a selector was clicked. *)
Fixpoint clickFirst (selectors : list string) (w : W) : bool * W :=
  match selectors with
  | [] => (false, w)
  | sel :: selectors =>
      match Element sel w with
      | None => clickFirst selectors w
      | Some _ =>
          match WaitVisible sel w with
          | (Some _, w) => clickFirst selectors w
          | (None, w) =>
              match Click sel w with
              | (Some _, w) => clickFirst selectors w
              | (None, w) => (true, Sleep (mul64 2 Second) w)
              end
          end
      end
  end.

Definition clickNavigationTab (tab : LinkedInTab) (cfg : TimingConfig) (w : W)
    : option string * W :=
  match tabSelectors tab with
  | None => (Some ("no selectors defined for tab: " +:+ tab), w)
  | Some selectors =>
      match clickFirst selectors w with
      | (true, w) => (None, w)
      | (false, w) =>
          (Some ("could not find or click any navigation element for tab: "
                 +:+ tab), w)
      end
  end.

Definition navigateToTabURL (tab : LinkedInTab) (w : W) : option string * W :=
  match tabURLs tab with
  | None => (Some ("no URL defined for tab: " +:+ tab), w)
  | Some url =>
      match Navigate url w with
      | (Some e, w) => (Some ("navigate to " +:+ url +:+ ": " +:+ e), w)
      | (None, w) =>
          match WaitLoad w with
          | (Some e, w) => (Some ("wait for page load: " +:+ e), w)
          | (None, w) => (None, Sleep (mul64 3 Second) w)
          end
      end
  end.

(** Lines 118-135: the wait after a navigation; the outcome of the
    content check and of the final [isOnTab] is only logged. *)
Definition settle (tab : LinkedInTab) (w : W) : option string * W :=
  let w := Sleep (mul64 3 Second) w in
  (None, snd (waitForTabContent tab w)).

Definition NavigateToTab (tab : LinkedInTab) (cfg : TimingConfig) (w : W)
    : option string * W :=
  if isOnTab tab w then (None, snd (waitForTabContent tab w))
  else
    match clickNavigationTab tab cfg w with
    | (None, w) => settle tab w
    | (Some _, w) =>
        match navigateToTabURL tab w with
        | (Some e, w) =>
            (Some ("both click and direct navigation failed for " +:+ tab
                   +:+ ": " +:+ e), w)
        | (None, w) => settle tab w
        end
    end.

Definition ScrollCurrentTab (duration : Z) (cfg : TimingConfig) (w : W)
    : option string * W :=
  ScrollFeedHuman cfg duration w.

(** [NavigateSequence]; [lg] is the log so far. *)
Fixpoint NavigateSequence (tabs : list LinkedInTab) (cfg : TimingConfig) (w : W)
    (lg : list LogEntry) : Go (Outcome W) :=
  match tabs with
  | [] => Returns {| err := None; after := w; trace := lg |}
  | tab :: rest =>
      let lg := lg ++ [NavigatingInSequence tab] in
      match NavigateToTab tab cfg w with
      | (Some e, w) =>
          Returns {| err := Some ("failed to navigate to " +:+ tab
                                  +:+ ": " +:+ e);
                     after := w; trace := lg |}
      | (None, w) =>
          match rest with
          | [] => NavigateSequence rest cfg w lg
          | _ :: _ =>
              match stealth.RandomDelay (Rand_draw w)
                      (max 2000 (mul64 (MinDelayMs cfg) 2))
                      (max 5000 (mul64 (MaxDelayMs cfg) 2)) with
              | None => Panics
              | Some pauseDuration =>
                  NavigateSequence rest cfg (Sleep pauseDuration w) lg
              end
          end
      end
  end.

End Tabs.

End navigate.

Module patterns.

Import navigate.

(** [TabWithAction]; [CustomAction] is [None] for a nil function. *)
Record TabWithAction (W : Type) := {
  Tab : LinkedInTab;
  ScrollTime : Z;
  PauseAfter : Z;
  CustomAction : option (TimingConfig -> W -> option string * W) }.
Arguments Tab {W} _.
Arguments ScrollTime {W} _.
Arguments PauseAfter {W} _.
Arguments CustomAction {W} _.

Record NavigationPattern (W : Type) := {
  Name : string;
  Tabs : list (TabWithAction W);
  Description : string }.
Arguments Name {W} _.
Arguments Tabs {W} _.
Arguments Description {W} _.

(** The variables of the loop of [ExecutePattern]. *)
Record Tour (W : Type) := {
  successCount : Z;
  failCount : Z;
  world : W;
  log : list LogEntry }.
Arguments successCount {W} _.
Arguments failCount {W} _.
Arguments world {W} _.
Arguments log {W} _.

Section Patterns.
Context {W : Type} `{!Env W} `{!Deps W}.

(** Lines 98-121: the custom action and the scroll of a tab reached. *)
Definition interact (tabAction : TabWithAction W) (cfg : TimingConfig) (w : W)
    (lg : list LogEntry) : W * list LogEntry :=
  let '(w, lg) :=
    match CustomAction tabAction with
    | None => (w, lg)
    | Some action =>
        match action cfg w with
        | (Some e, w) => (w, lg ++ [CustomActionFailed (Tab tabAction) e])
        | (None, w) => (w, lg)
        end
    end in
  if 0 <? ScrollTime tabAction then
    match ScrollCurrentTab (ScrollTime tabAction) cfg w with
    | (Some e, w) => (w, lg ++ [ScrollFailed (Tab tabAction) e])
    | (None, w) => (w, lg ++ [ScrollCompleted (Tab tabAction)])
    end
  else (w, lg).

(** The loop of [ExecutePattern] (lines 90-137). *)
Fixpoint tour (tabs : list (TabWithAction W)) (cfg : TimingConfig) (t : Tour W)
    : Go (Tour W) :=
  match tabs with
  | [] => Returns t
  | tabAction :: rest =>
      let lg := log t ++ [AttemptingNavigation (Tab tabAction)] in
      match NavigateToTab (Tab tabAction) cfg (world t) with
      | (Some e, w) =>
          tour rest cfg
            {| successCount := successCount t; failCount := failCount t + 1;
               world := w; log := lg ++ [NavigationFailed (Tab tabAction) e] |}
      | (None, w) =>
          let lg := lg ++ [NavigationSuccessful (Tab tabAction)] in
          let '(w, lg) := interact tabAction cfg w lg in
          match rest with
          | [] =>
              tour rest cfg
                {| successCount := successCount t + 1; failCount := failCount t;
                   world := w; log := lg |}
          | _ :: _ =>
              let pause :=
                if PauseAfter tabAction =? 0 then
                  navigation.RandomDelay (UnixNano w)
                    (max 2000 (mul64 (MinDelayMs cfg) 2))
                    (max 5000 (mul64 (MaxDelayMs cfg) 2))
                else Some (PauseAfter tabAction) in
              match pause with
              | None => Panics
              | Some pauseDuration =>
                  tour rest cfg
                    {| successCount := successCount t + 1; failCount := failCount t;
                       world := Sleep pauseDuration w; log := lg |}
              end
          end
      end
  end.

Definition ExecutePattern (pattern : NavigationPattern W) (cfg : TimingConfig) (w : W)
    : Go (Outcome W) :=
  match tour (Tabs pattern) cfg
          {| successCount := 0; failCount := 0; world := w; log := [] |} with
  | Panics => Panics
  | Returns t =>
      Returns {| err := if (successCount t =? 0) && (0 <? failCount t)
                        then Some "all navigation attempts failed"
                        else None;
                 after := world t; trace := log t |}
  end.

(** [NavigateAndInteract]. *)
Definition NavigateAndInteract (tab : LinkedInTab) (scrollDuration : Z)
    (cfg : TimingConfig) (w : W) : option string * W :=
  match NavigateToTab tab cfg w with
  | (Some e, w) => (Some e, w)
  | (None, w) =>
      if 0 <? scrollDuration then ScrollCurrentTab scrollDuration cfg w
      else (None, w)
  end.

End Patterns.

End patterns.

(** The tabs the log says were tried, and those that were reached. *)
Definition triedTabs (lg : list navigate.LogEntry) : list navigate.LinkedInTab :=
  omap (fun e => match e with
                 | navigate.AttemptingNavigation tab => Some tab
                 | navigate.NavigatingInSequence tab => Some tab
                 | _ => None
                 end) lg.

Definition reachedTabs (lg : list navigate.LogEntry) : list navigate.LinkedInTab :=
  omap (fun e => match e with
                 | navigate.NavigationSuccessful tab => Some tab
                 | _ => None
                 end) lg.

Definition missedTabs (lg : list navigate.LogEntry) : list navigate.LinkedInTab :=
  omap (fun e => match e with
                 | navigate.NavigationFailed tab _ => Some tab
                 | _ => None
                 end) lg.

(** A browser showing [kiosk_url]; the navigation bar is not rendered,
    so no tab can be clicked, and direct navigation works when the
    browser is online. *)
Record KioskSim (online : bool) := { kiosk_url : string }.
Arguments kiosk_url {online} _.

#[global] Instance KioskSim_Env online : Env (KioskSim online) :=
  {| Now_date := fun _ => "2024-05-01";
     Now_rfc3339 := fun _ => "2024-05-01T09:00:00Z";
     Sleep := fun _ w => w;
     Rand_draw := fun _ _ => 0;
     Navigate := fun url w =>
       if online then (None, {| kiosk_url := url |}) else (Some "net::ERR_FAILED", w);
     WaitLoad := fun w => (None, w);
     Element := fun _ _ => None |}.

#[global] Instance KioskSim_Deps online : navigate.Deps (KioskSim online) :=
  {| navigate.pageURL := fun w => Some (kiosk_url w);
     navigate.WaitVisible := fun _ w => (None, w);
     navigate.Click := fun _ w => (None, w);
     navigate.pollContent := fun _ w => (None, w);
     navigate.ScrollFeedHuman := fun _ _ w => (Some "no successful scrolls", w);
     navigate.UnixNano := fun _ => 1714554000000000000 |}.

Definition kiosk (online : bool) : KioskSim online :=
  {| kiosk_url := "https://www.linkedin.com/login" |}.

(* ===================================================================== *)
(** * Configuration and driver (config/config.go, auth/session.go) *)
(* ===================================================================== *)

Module config.

Record BrowserConfig := {
  Headless : bool;
  UserAgents : list string;
  MinViewport : Z;
  MaxViewport : Z;
  Bin : string }.

Record LimitsConfig := { DailyConnections : Z }.

Record LoggingConfig := { Level : string }.

Record Config := {
  Browser : BrowserConfig;
  Timing : TimingConfig;
  Limits : LimitsConfig;
  Logging : LoggingConfig }.

(** [validate]: the error, or the configuration with its logging level
    in lower case. *)
Definition validate (c : Config) : Config + string :=
  if (length (UserAgents (Browser c)) =? 0)%nat then
    inr "browser.user_agents must include at least one value"
  else if MinViewport (Browser c) <=? 0 then
    inr "browser.min_viewport must be greater than zero"
  else if MaxViewport (Browser c) <=? MinViewport (Browser c) then
    inr "browser.max_viewport must be greater than min_viewport"
  else if (MinDelayMs (Timing c) <=? 0) || (MaxDelayMs (Timing c) <=? 0) then
    inr "timing delays must be positive"
  else if MaxDelayMs (Timing c) <? MinDelayMs (Timing c) then
    inr "timing.max_delay_ms must be >= min_delay_ms"
  else if DailyConnections (Limits c) <=? 0 then
    inr "limits.daily_connections must be positive"
  else
    inl {| Browser := Browser c; Timing := Timing c; Limits := Limits c;
           Logging := {| Level := ToLower (Level (Logging c)) |} |}.

End config.

Module session.

(** [randomInt]: [entropy] is the 64-bit number read from the system's
    generator, [None] when the read fails and the library generator,
    seeded from the clock, is asked instead. *)
Definition randomInt (entropy : option Z) (draw : Z -> Z) (limit : Z) : Go Z :=
  if limit <=? 1 then Returns 0
  else
    match entropy with
    | Some n => Returns (wrap64 (n mod limit))
    | None =>
        match Intn draw limit with
        | None => Panics
        | Some i => Returns i
        end
    end.

(** [cfg.Browser.UserAgents[randomInt(len(cfg.Browser.UserAgents))]] of
    [main]; an index out of range panics. *)
Definition userAgent (entropy : option Z) (draw : Z -> Z) (cfg : config.Config)
    : Go string :=
  let agents := config.UserAgents (config.Browser cfg) in
  match randomInt entropy draw (Z.of_nat (length agents)) with
  | Panics => Panics
  | Returns i =>
      if i <? 0 then Panics
      else match agents !! Z.to_nat i with
           | None => Panics
           | Some ua => Returns ua
           end
  end.


Definition msgCfg : messaging.FollowUpConfig :=
  {| messaging.MaxPerDay := 5;
     messaging.MessageTemplate :=
       "Hi {{name}}, thanks for connecting! I came across your profile and thought we might have some interesting synergies. Looking forward to staying in touch!";
     messaging.WaitBetweenMessages := 15000;
     messaging.Context_ := "software engineering" |}.


(** [runFollowUpMessaging]: the run of the engine it starts, if any. *)
Definition runFollowUpMessaging {W : Type} `{!Env W} `{!messaging.Deps W}
    (profiles : list string) (cfg : config.Config) (w : W)
    : option (Go (messaging.Run W)) :=
  match profiles with
  | [] => None
  | _ :: _ => Some (messaging.SendFollowUps profiles msgCfg (config.Timing cfg) w)
  end.

End session.

(** A configuration that asks for three connections a day. *)
Definition cautious : config.Config :=
  {| config.Browser :=
       {| config.Headless := true;
          config.UserAgents := ["Mozilla/5.0 (X11; Linux x86_64)"; "Mozilla/5.0 (Macintosh)"];
          config.MinViewport := 1280; config.MaxViewport := 1600;
          config.Bin := EmptyString |};
     config.Timing := timing;
     config.Limits := {| config.DailyConnections := 3 |};
     config.Logging := {| config.Level := "INFO" |} |}.

(** A configuration whose delays do not fit a [time.Duration]. *)
Definition sluggish : config.Config :=
  {| config.Browser := config.Browser cautious;
     config.Timing := {| MinDelayMs := 10000000000000; MaxDelayMs := 10000000000000 |};
     config.Limits := config.Limits cautious;
     config.Logging := {| config.Level := "info" |} |}.

(** Twelve profiles nobody has contacted yet. *)
Definition dozen : list string :=
  (fun n => "https://www.linkedin.com/in/member-" +:+ pretty n) <$> seq 1 12.

(* ===================================================================== *)
(** * State store on disk (package storage) *)
(* ===================================================================== *)

Module storage.

(** An error of the file system: [os.ErrNotExist], or another one. *)
Inductive FileError :=
| NotExist
| OtherError (e : string).

(** The operating system as the store sees it: [filepath.Base],
    [filepath.Join] on two elements, [os.MkdirAll], [os.WriteFile],
    [os.ReadFile], [os.Remove]. *)
Class FileSystem (D : Type) := {
  Base : string -> string;
  Join : string -> string -> string;
  MkdirAll : string -> D -> option string * D;
  WriteFile : string -> list Z -> D -> option string * D;
  ReadFile : string -> D -> list Z + FileError;
  Remove : string -> D -> option FileError * D }.

(** The errors of the store: the sentinel [ErrNotFound], or another. *)
Inductive StoreError :=
| ErrNotFound
| Failed (e : string).

Record FileStore := { BaseDir : string }.

Section Store.
Context {D : Type} `{!FileSystem D}.

Definition pathFor (f : FileStore) (key : string) : string :=
  let safe := Base key in
  Join (BaseDir f) (safe +:+ ".json").

(** The methods have a pointer receiver: [ensureDir] may set [BaseDir],
    so the store is returned with the result. *)
Definition ensureDir (f : FileStore) (d : D) : option string * FileStore * D :=
  let f := if String.eqb (BaseDir f) EmptyString then {| BaseDir := "data" |} else f in
  let '(e, d) := MkdirAll (BaseDir f) d in
  (e, f, d).

Definition Save (f : FileStore) (key : string) (data : list Z) (d : D)
    : option StoreError * FileStore * D :=
  match ensureDir f d with
  | (Some e, f, d) => (Some (Failed ("ensure dir: " +:+ e)), f, d)
  | (None, f, d) =>
      if String.eqb key EmptyString then (Some (Failed "empty key"), f, d)
      else
        match WriteFile (pathFor f key) data d with
        | (Some e, d) => (Some (Failed e), f, d)
        | (None, d) => (None, f, d)
        end
  end.

Definition Load (f : FileStore) (key : string) (d : D)
    : (list Z + StoreError) * FileStore * D :=
  match ensureDir f d with
  | (Some e, f, d) => (inr (Failed ("ensure dir: " +:+ e)), f, d)
  | (None, f, d) =>
      if String.eqb key EmptyString then (inr (Failed "empty key"), f, d)
      else
        match ReadFile (pathFor f key) d with
        | inr NotExist => (inr ErrNotFound, f, d)
        | inr (OtherError e) => (inr (Failed e), f, d)
        | inl b => (inl b, f, d)
        end
  end.

Definition Delete (f : FileStore) (key : string) (d : D) : option StoreError * D :=
  if String.eqb key EmptyString then (Some (Failed "empty key"), d)
  else
    match Remove (pathFor f key) d with
    | (Some NotExist, d) => (None, d)
    | (Some (OtherError e), d) => (Some (Failed e), d)
    | (None, d) => (None, d)
    end.

End Store.

End storage.

(** A disk held in memory: the files written, the latest first.
    Directories always can be made; a key is its own base name. *)
Definition readDisk (path : string) (d : list (string * list Z))
    : option (list Z) :=
  snd <$> find (fun file => String.eqb (fst file) path) d.

#[global] Instance MemDisk_FileSystem : storage.FileSystem (list (string * list Z)) :=
  {| storage.Base := fun key => key;
     storage.Join := fun dir name => dir +:+ "/" +:+ name;
     storage.MkdirAll := fun _ d => (None, d);
     storage.WriteFile := fun path data d => (None, (path, data) :: d);
     storage.ReadFile := fun path d =>
       match readDisk path d with
       | Some data => inl data
       | None => inr storage.NotExist
       end;
     storage.Remove := fun path d =>
       match readDisk path d with
       | Some _ =>
           (None, filter (fun file => negb (String.eqb (fst file) path)) d)
       | None => (Some storage.NotExist, d)
       end |}.

(** A store that was not given a directory. *)
Definition freshStore : storage.FileStore := {| storage.BaseDir := EmptyString |}.

(* ===================================================================== *)
(** * Part II: properties *)
(* ===================================================================== *)

(* --------------------------------------------------------------------- *)
(** ** Facts about wrapping *)

Lemma wrap64_id z : in_int64 z -> wrap64 z = z.
Proof.
  unfold in_int64, min_int64, max_int64, wrap64. intros H.
  rewrite Z.mod_small by lia. lia.
Qed.

Lemma wrap64_range z : in_int64 (wrap64 z).
Proof.
  unfold in_int64, min_int64, max_int64, wrap64.
  pose proof (Z.mod_pos_bound (z + 2 ^ 63) (2 ^ 64) ltac:(lia)). lia.
Qed.

Lemma max_duration_ms_val : max_duration_ms = 9223372036854.
Proof. reflexivity. Qed.

Lemma clamp_bounds minMs maxMs :
  0 <= clamp_min minMs <= clamp_max minMs maxMs.
Proof.
  unfold clamp_max, clamp_min.
  destruct (minMs <? 0) eqn:E1; [ destruct (maxMs <? 0) eqn:E2
                               | destruct (maxMs <? minMs) eqn:E2 ]; lia.
Qed.

Lemma stealth_RandomDelay_bounded draw minMs maxMs :
  draw_in_range draw ->
  clamp_max minMs maxMs <= max_duration_ms ->
  exists d, stealth.RandomDelay draw minMs maxMs = Some d
            /\ within_ms (clamp_min minMs) (clamp_max minMs maxMs) d.
Proof.
  intros Hdraw Hhi.
  pose proof (clamp_bounds minMs maxMs) as Hb.
  unfold stealth.RandomDelay, Intn, add64, sub64, mul64.
  fold (clamp_min minMs). fold (clamp_max minMs maxMs).
  set (lo := clamp_min minMs) in *. set (hi := clamp_max minMs maxMs) in *.
  rewrite max_duration_ms_val in Hhi.
  assert (Hi : forall z, -9223372036854775808 <= z <= 9223372036854775807 ->
                         wrap64 z = z).
  { intros z Hz. apply wrap64_id. unfold in_int64, min_int64, max_int64. lia. }
  rewrite (Hi (hi - lo)) by lia. rewrite (Hi (hi - lo + 1)) by lia.
  destruct (hi - lo + 1 <=? 0) eqn:E; [lia|].
  specialize (Hdraw (hi - lo + 1) ltac:(lia)).
  eexists; split; [reflexivity|].
  rewrite (Hi (draw (hi - lo + 1) + lo)) by lia.
  unfold within_ms, Millisecond. rewrite Hi by lia. lia.
Qed.

Lemma navigation_RandomDelay_bounded nano minMs maxMs :
  0 <= nano ->
  clamp_max minMs maxMs <= max_duration_ms ->
  exists d, navigation.RandomDelay nano minMs maxMs = Some d
            /\ within_ms (clamp_min minMs) (clamp_max minMs maxMs) d.
Proof.
  intros Hnano Hhi.
  pose proof (clamp_bounds minMs maxMs) as Hb.
  unfold navigation.RandomDelay, add64, sub64, mul64.
  fold (clamp_min minMs). fold (clamp_max minMs maxMs).
  set (lo := clamp_min minMs) in *. set (hi := clamp_max minMs maxMs) in *.
  rewrite max_duration_ms_val in Hhi.
  assert (Hi : forall z, -9223372036854775808 <= z <= 9223372036854775807 ->
                         wrap64 z = z).
  { intros z Hz. apply wrap64_id. unfold in_int64, min_int64, max_int64. lia. }
  rewrite (Hi (hi - lo)) by lia. rewrite (Hi (hi - lo + 1)) by lia.
  destruct (hi - lo + 1 =? 0) eqn:E; [lia|].
  pose proof (Z.rem_bound_pos nano (hi - lo + 1) Hnano ltac:(lia)) as Hr.
  eexists; split; [reflexivity|].
  rewrite (Hi (Z.rem nano (hi - lo + 1))) by lia.
  rewrite (Hi (lo + Z.rem nano (hi - lo + 1))) by lia.
  unfold within_ms, Millisecond. rewrite Hi by lia. lia.
Qed.

(** C8 (as amended).  For all integer bounds whose clamped upper bound is
    a number of milliseconds a [time.Duration] can hold
    ([<= 9223372036854]), both delay generators return normally, and the
    returned duration lies in the closed interval
    [[clamp_min minMs, clamp_max minMs maxMs]] milliseconds, where the
    lower bound is clamped to at least 0 and the upper bound to at least
    the lower one; for [0 <= minMs <= maxMs] that interval is
    [[minMs, maxMs]] itself. *)
Theorem RandomDelay_within_clamped_bounds draw nano minMs maxMs :
  draw_in_range draw ->
  0 <= nano ->
  clamp_max minMs maxMs <= max_duration_ms ->
  (exists d, stealth.RandomDelay draw minMs maxMs = Some d
             /\ within_ms (clamp_min minMs) (clamp_max minMs maxMs) d)
  /\ (exists d, navigation.RandomDelay nano minMs maxMs = Some d
                /\ within_ms (clamp_min minMs) (clamp_max minMs maxMs) d)
  /\ (0 <= minMs <= maxMs ->
      clamp_min minMs = minMs /\ clamp_max minMs maxMs = maxMs).
Proof.
  intros Hd Hn Hhi. split; [|split].
  - by apply stealth_RandomDelay_bounded.
  - by apply navigation_RandomDelay_bounded.
  - intros [H0 H1]. unfold clamp_max, clamp_min.
    destruct (minMs <? 0) eqn:E1; [lia|].
    destruct (maxMs <? minMs) eqn:E2; [lia|]. done.
Qed.

Lemma RandomDelay_within_clamped_bounds_witness :
  (exists d, stealth.RandomDelay (fun _ => 0) 500 200 = Some d
             /\ within_ms 500 500 d)
  /\ (exists d, navigation.RandomDelay 1730000000000000007 (-5) 1200 = Some d
                /\ within_ms 0 1200 d).
Proof.
  split.
  - exact (proj1 (RandomDelay_within_clamped_bounds (fun _ => 0) 0 500 200
             ltac:(intros n Hn; lia) ltac:(lia) ltac:(vm_compute; discriminate))).
  - exact (proj1 (proj2 (RandomDelay_within_clamped_bounds (fun _ => 0)
             1730000000000000007 (-5) 1200
             ltac:(intros n Hn; lia) ltac:(lia) ltac:(vm_compute; discriminate)))).
Defined.

(** C8 fails as stated: with [maxMs] the largest [int], the span
    [maxMs - minMs + 1] wraps to a negative number and [Intn] panics; and
    a lower bound beyond what a [time.Duration] can count in milliseconds
    yields a wrapped (here negative) duration, outside [[minMs, maxMs]]. *)
Lemma RandomDelay_counterexample :
  stealth.RandomDelay (fun _ => 0) 0 9223372036854775807 = None
  /\ (10000000000000 <= 10000000000000
      /\ stealth.RandomDelay (fun _ => 0) 10000000000000 10000000000000
         = Some (-8446744073709551616)
      /\ ~ within_ms 10000000000000 10000000000000 (-8446744073709551616)).
Proof.
  split; [reflexivity|]. split; [lia|]. split; [reflexivity|].
  unfold within_ms, Millisecond. lia.
Qed.

(* --------------------------------------------------------------------- *)
(** ** Motion generator *)

Section Motion.
Import stealth.

Lemma randRange_cursor r a b : snd (randRange r a b) = drawn 1 r.
Proof. unfold randRange. destruct (b <? a)%float; reflexivity. Qed.

(** From a point to itself the generator makes one direct move. *)
Lemma MoveMouseHuman_same_point m r x y :
  MoveMouseHuman m r x y x y = ([target x y], MoveTo m (target x y)).
Proof. unfold MoveMouseHuman, sub64. rewrite !Z.sub_diag. reflexivity. Qed.

(** Whenever the mouse accepts the moves, the last position sent is the
    target as updated by the overshoot, not the one asked for. *)
Lemma MoveMouseHuman_last_position m r fromX fromY toX toY :
  (Hypot (float64 (sub64 toX fromX)) (float64 (sub64 toY fromY)) <? 2)%float = false ->
  (forall points, snd (MoveAlong m points) = None) ->
  last (fst (MoveMouseHuman m r fromX fromY toX toY))
  = Some (target (fst (fst (overshoot (drawn 4 r) toX toY)))
                 (snd (fst (overshoot (drawn 4 r) toX toY)))).
Proof.
  intros Hfar Hok. unfold MoveMouseHuman. rewrite Hfar.
  repeat match goal with
         | |- context [randRange ?g ?a ?b] =>
             let v := fresh "v" in
             let g' := fresh "g" in
             let E := fresh "E" in
             destruct (randRange g a b) as [v g'] eqn:E;
             apply (f_equal snd) in E; rewrite randRange_cursor in E;
             simpl in E; subst g'
         end.
  change (drawn 1 (drawn 1 (drawn 1 (drawn 1 r)))) with (drawn 4 r).
  destruct (overshoot (drawn 4 r) toX toY) as [[tx ty] r5]. simpl fst. simpl snd.
  match goal with
  | |- context [MoveAlong m ?pts] =>
      specialize (Hok pts); destruct (MoveAlong m pts) as [visited [e|]]
  end; [discriminate Hok|].
  simpl fst. apply last_snoc.
Qed.

(** Without an overshoot the last position is the target itself. *)
Lemma overshoot_skipped r toX toY :
  (fst (Float64 r) <? 0.22)%float = false ->
  fst (overshoot r toX toY) = (toX, toY).
Proof. unfold overshoot. simpl. intros ->. reflexivity. Qed.

End Motion.

(** C7, evaluated on the code.  Moving from (0, 0) to (100, 100) with a
    generator whose fifth draw (0.1) triggers the overshoot and whose
    next two draws (0.9 and 0) give the offsets 11 and -8: the mouse
    accepts every move, and the last position sent is (111, 92), which is
    not the requested (100, 100).  The final "correction" goes to the
    overshot point, because the overshoot was added to [toX] and [toY]
    themselves. *)
Theorem overshoot_is_not_corrected :
  snd (stealth.MoveMouseHuman stealth.replayMouse
         (stealth.scripted [0.5; 0.5; 0.5; 0.5; 0.1; 0.9; 0]%float) 0 0 100 100) = None
  /\ last (fst (stealth.MoveMouseHuman stealth.replayMouse
                  (stealth.scripted [0.5; 0.5; 0.5; 0.5; 0.1; 0.9; 0]%float) 0 0 100 100))
     = Some {| stealth.X := 111; stealth.Y := 92 |}
  /\ last (fst (stealth.MoveMouseHuman stealth.replayMouse
                  (stealth.scripted [0.5; 0.5; 0.5; 0.5; 0.1; 0.9; 0]%float) 0 0 100 100))
     <> Some (stealth.target 100 100).
Proof.
  split; [vm_compute; reflexivity|].
  assert (Hlast : last (fst (stealth.MoveMouseHuman stealth.replayMouse
                    (stealth.scripted [0.5; 0.5; 0.5; 0.5; 0.1; 0.9; 0]%float)
                    0 0 100 100))
                  = Some {| stealth.X := 111; stealth.Y := 92 |})
    by (vm_compute; reflexivity).
  split; [exact Hlast|]. rewrite Hlast. intros Heq.
  apply (f_equal (fun o => match o with
                           | Some p => Prim2SF (stealth.X p)
                           | None => S754_zero false
                           end)) in Heq.
  vm_compute in Heq. discriminate Heq.
Qed.

(* --------------------------------------------------------------------- *)
(** ** The loop of SendRequests, one pass at a time *)

Section ConnectLoop.
Context {W : Type} `{!Env W} `{!connect.Deps W}.
Import connect.

Lemma fixed_delay_returns (draw : Z -> Z) :
  stealth.RandomDelay draw 2000 5000
  = Some (mul64 (add64 (draw 3001) 2000) Millisecond).
Proof. reflexivity. Qed.

Lemma pacing_returns reqCfg (w : W) : exists d, pacing reqCfg w = Returns d.
Proof. unfold pacing. rewrite fixed_delay_returns. eauto. Qed.


Ltac log_facts :=
  unfold processed, visited, duplicates, saveFailures;
  rewrite ?omap_app; simpl; rewrite ?app_nil_r; try reflexivity.

Lemma iteration_pass reqCfg timingCfg url rest (l : Loop W) :
  pass reqCfg timingCfg url l (iteration reqCfg timingCfg url rest l).
Proof.
  unfold iteration.
  destruct (MaxPerDay reqCfg <=? RequestsSentToday (state l)) eqn:Hlim.
  { apply pass_limit; simpl; try done; try lia; log_facts. }
  destruct (attempted (state l) url) eqn:Hatt.
  { apply pass_duplicate; simpl; try done; try lia; log_facts. }
  destruct (sendConnectionRequest url reqCfg timingCfg (world l))
    as [[[e|] w]|] eqn:Hsend;
    cbn [state world log successCount skipCount errorCount].
  - destruct (saveConnectionState _ w) as [[serr|] w'] eqn:Hsave;
    (destruct (pacing_returns reqCfg w') as [d Hd];
    destruct rest; rewrite ?Hd;
      (eapply pass_failed; [lia | done | done | reflexivity | ..]; simpl;
       try reflexivity;
       try (intros s0 w0 Hs; rewrite Hsave in Hs; inversion Hs; subst);
       log_facts)).
  - destruct (saveConnectionState _ w) as [[serr|] w'] eqn:Hsave;
    (destruct (pacing_returns reqCfg w') as [d Hd];
    destruct rest; rewrite ?Hd;
      (eapply pass_sent; [lia | done | done | reflexivity | ..]; simpl;
       try reflexivity;
       try (intros s0 w0 Hs; rewrite Hsave in Hs; inversion Hs; subst);
       log_facts)).
  - apply pass_panicked; [lia | done | done].
Qed.

End ConnectLoop.

(* --------------------------------------------------------------------- *)
(** ** The loop of SendRequests as a whole *)

Section ConnectRun.
Context {W : Type} `{!Env W} `{!connect.Deps W}.
Import connect.

Variables (reqCfg : RequestConfig) (timingCfg : TimingConfig).

(** Where no step panics, the loop returns. *)
Lemma loop_returns profiles (l : Loop W) :
  (forall url w, sendConnectionRequest url reqCfg timingCfg w <> Panics) ->
  exists l', loop reqCfg timingCfg profiles l = Returns l'.
Proof.
  intros Hgoes.
  revert l. induction profiles as [|url rest IH]; intros l; simpl; [eauto|].
  pose proof (iteration_pass reqCfg timingCfg url rest l) as Hp.
  destruct (iteration reqCfg timingCfg url rest l); inversion Hp; subst; eauto.
  exfalso. eapply Hgoes. eassumption.
Qed.

Lemma attempted_insert st st' url url' :
  AttemptedProfiles st' = <[url := true]> (AttemptedProfiles st) ->
  attempted st' url' = if decide (url = url') then true else attempted st url'.
Proof.
  intros Heq. unfold attempted. rewrite Heq, lookup_insert.
  destruct (decide (url = url')); done.
Qed.

(** The day is kept and the attempted set only grows. *)
Lemma loop_frame profiles (l l' : Loop W) :
  loop reqCfg timingCfg profiles l = Returns l' ->
  Date (state l') = Date (state l)
  /\ (forall url, attempted (state l) url = true -> attempted (state l') url = true).
Proof.
  revert l. induction profiles as [|url rest IH]; intros l; simpl.
  { intros [= ->]. done. }
  pose proof (iteration_pass reqCfg timingCfg url rest l) as Hp.
  destruct (iteration reqCfg timingCfg url rest l) as [l1|l1|]; inversion Hp; subst;
    intros Hl.
  - injection Hl as <-. rewrite H2. done.
  - destruct (IH _ Hl) as [Hd Ha]. rewrite H3 in Hd, Ha. done.
  - destruct (IH _ Hl) as [Hd Ha]. rewrite H4 in Hd. simpl in Hd. split; [done|].
    intros u Hu. apply Ha. rewrite (attempted_insert (state l) _ url u) by (rewrite H4; done).
    case_decide; done.
  - destruct (IH _ Hl) as [Hd Ha]. rewrite H4 in Hd. simpl in Hd. split; [done|].
    intros u Hu. apply Ha. rewrite (attempted_insert (state l) _ url u) by (rewrite H4; done).
    case_decide; done.
  - done.
Qed.


Lemma in_int64_bounds z : in_int64 z <-> -9223372036854775808 <= z <= 9223372036854775807.
Proof. unfold in_int64, min_int64, max_int64. lia. Qed.

Lemma add64_succ z : min_int64 <= z < max_int64 -> add64 z 1 = z + 1.
Proof.
  unfold min_int64, max_int64. intros Hz. unfold add64.
  apply wrap64_id, in_int64_bounds. lia.
Qed.

(** Between usable delays the generator returns. *)
Lemma RandomDelay_usable draw cfg :
  delays_usable cfg ->
  exists d, stealth.RandomDelay draw (MinDelayMs cfg) (MaxDelayMs cfg) = Some d.
Proof.
  intros (Hlo & Hhi & Hfit).
  pose proof (proj1 (in_int64_bounds _) Hlo) as Hlo'.
  pose proof (proj1 (in_int64_bounds _) Hhi) as Hhi'.
  unfold max_int64 in Hfit.
  unfold stealth.RandomDelay, Intn, add64, sub64.
  assert (Hi : forall z, -9223372036854775808 <= z <= 9223372036854775807 ->
                         wrap64 z = z).
  { intros z Hz. apply wrap64_id, in_int64_bounds. lia. }
  destruct (MinDelayMs cfg <? 0) eqn:E.
  - destruct (MaxDelayMs cfg <? 0) eqn:E'.
    + rewrite Z.sub_diag. rewrite (Hi 0) by lia. simpl. eauto.
    + rewrite Z.sub_0_r. rewrite (Hi (MaxDelayMs cfg)) by lia.
      rewrite (Hi (MaxDelayMs cfg + 1)) by lia.
      destruct (MaxDelayMs cfg + 1 <=? 0) eqn:E''; [lia|]. eauto.
  - destruct (MaxDelayMs cfg <? MinDelayMs cfg) eqn:E'.
    + rewrite Z.sub_diag. rewrite (Hi 0) by lia. simpl. eauto.
    + rewrite (Hi (MaxDelayMs cfg - MinDelayMs cfg)) by lia.
      rewrite (Hi (MaxDelayMs cfg - MinDelayMs cfg + 1)) by lia.
      destruct (MaxDelayMs cfg - MinDelayMs cfg + 1 <=? 0) eqn:E''; [lia|]. eauto.
Qed.

Lemma scrollDown_returns n (w : W) :
  delays_usable timingCfg -> scrollDown n timingCfg w <> Panics.
Proof.
  intros Hfit. revert w. induction n as [|n IH]; intros w; simpl; [done|].
  destruct (MouseScroll _ w) as [[e|] w1]; [done|].
  destruct (RandomDelay_usable (Rand_draw w1) timingCfg Hfit) as [d ->]. apply IH.
Qed.

(** With usable delays [humanScrollProfile] returns. *)
Lemma humanScrollProfile_returns (w : W) :
  delays_usable timingCfg -> humanScrollProfile timingCfg w <> Panics.
Proof.
  intros Hfit. unfold humanScrollProfile.
  pose proof (scrollDown_returns (Z.to_nat (add64 2 (Z.rem (UnixNano w) 2))) w Hfit)
    as Hdown.
  destruct (scrollDown _ timingCfg w) as [[[e|] w1]|]; [done| |done].
  destruct (MouseScroll _ w1) as [serr w2].
  change (stealth.RandomDelay (Rand_draw w2) 500 1000)
    with (Some (mul64 (add64 (Rand_draw w2 501) 500) Millisecond)).
  done.
Qed.

(** With usable delays the step returns, whatever the page does. *)
Lemma sendConnectionRequest_returns url (w : W) :
  delays_usable timingCfg -> sendConnectionRequest url reqCfg timingCfg w <> Panics.
Proof.
  intros Hfit. unfold sendConnectionRequest.
  destruct (Navigate url w) as [[e|] w1]; [done|].
  destruct (WaitLoad w1) as [[e|] w2]; [done|].
  destruct (negb (isProfileAvailable _)); [done|].
  pose proof (humanScrollProfile_returns (Sleep (mul64 3 Second) w2) Hfit) as Hscroll.
  destruct (humanScrollProfile timingCfg _) as [[serr w3]|]; [|done].
  destruct (findConnectButton w3); done.
Qed.


(** A loop that ends below the quota has gone through every profile. *)
Lemma loop_open_end profiles (l l' : Loop W) :
  loop reqCfg timingCfg profiles l = Returns l' ->
  RequestsSentToday (state l') < MaxPerDay reqCfg ->
  forall url, url ∈ profiles -> attempted (state l') url = true.
Proof.
  revert l. induction profiles as [|url rest IH]; intros l Hl Hq u Hu.
  { by apply elem_of_nil in Hu. }
  simpl in Hl.
  pose proof (iteration_pass reqCfg timingCfg url rest l) as Hp.
  destruct (iteration reqCfg timingCfg url rest l) as [l1|l1|]; inversion Hp; subst.
  - injection Hl as <-. rewrite H2 in Hq. lia.
  - apply elem_of_cons in Hu as [->|Hu]; [|by eapply IH].
    apply (loop_frame _ _ _ Hl). by rewrite H3.
  - apply elem_of_cons in Hu as [->|Hu]; [|by eapply IH].
    apply (loop_frame _ _ _ Hl).
    rewrite (attempted_insert (state l) _ url url) by (rewrite H4; done).
    case_decide; done.
  - apply elem_of_cons in Hu as [->|Hu]; [|by eapply IH].
    apply (loop_frame _ _ _ Hl).
    rewrite (attempted_insert (state l) _ url url) by (rewrite H4; done).
    case_decide; done.
  - done.
Qed.

(** Below the quota, a list of attempted profiles is skipped one by one. *)
Lemma loop_skips_attempted profiles (l : Loop W) :
  (forall url, url ∈ profiles -> attempted (state l) url = true) ->
  RequestsSentToday (state l) < MaxPerDay reqCfg ->
  exists l',
    loop reqCfg timingCfg profiles l = Returns l'
    /\ state l' = state l /\ world l' = world l
    /\ successCount l' = successCount l /\ errorCount l' = errorCount l
    /\ skipCount l' = skipCount l + Z.of_nat (length profiles)
    /\ processed (log l') = processed (log l)
    /\ duplicates (log l') = duplicates (log l) ++ profiles.
Proof.
  revert l. induction profiles as [|url rest IH]; intros l Hall Hq.
  { exists l. simpl. rewrite app_nil_r. repeat split; try done; lia. }
  simpl loop.
  pose proof (iteration_pass reqCfg timingCfg url rest l) as Hp.
  destruct (iteration reqCfg timingCfg url rest l) as [l1|l1|]; inversion Hp; subst;
    try (rewrite Hall in * by apply list_elem_of_here; done); try lia.
  destruct (IH l1) as (l' & Hl & Hst & Hw & Hsc & Hec & Hsk & Hpr & Hdup).
  { intros u Hu. rewrite H3. apply Hall. by apply list_elem_of_further. }
  { by rewrite H3. }
  exists l'. split; [done|]. rewrite Hst, Hw, Hsc, Hec, Hsk, Hpr, Hdup.
  rewrite H3, H4, H5, H6, H7, H8, H10, <- app_assoc. simpl length.
  repeat split; try done. lia.
Qed.

(** The loop goes through the profiles in order and stops before the end
    only when the quota is reached. *)
Lemma loop_stops_on_quota_only profiles (l l' : Loop W) :
  loop reqCfg timingCfg profiles l = Returns l' ->
  exists k, (k <= length profiles)%nat
            /\ visited (log l') = visited (log l) ++ take k profiles
            /\ ((k < length profiles)%nat ->
                MaxPerDay reqCfg <= RequestsSentToday (state l')).
Proof.
  revert l. induction profiles as [|url rest IH]; intros l Hl; simpl in Hl.
  { injection Hl as <-. exists 0%nat. simpl. rewrite app_nil_r. split; [lia|split; [done|lia]]. }
  pose proof (iteration_pass reqCfg timingCfg url rest l) as Hp.
  destruct (iteration reqCfg timingCfg url rest l) as [l1|l1|]; inversion Hp; subst.
  - injection Hl as <-. exists 0%nat. simpl. rewrite app_nil_r, H2.
    split; [lia|split; [done|done]].
  - destruct (IH _ Hl) as (k & Hk & Hv & Hq). exists (S k). simpl.
    rewrite Hv, H9, <- app_assoc. split; [lia|split; [done|]]. intros ?. apply Hq. lia.
  - destruct (IH _ Hl) as (k & Hk & Hv & Hq). exists (S k). simpl.
    rewrite Hv, H9, <- app_assoc. split; [lia|split; [done|]]. intros ?. apply Hq. lia.
  - destruct (IH _ Hl) as (k & Hk & Hv & Hq). exists (S k). simpl.
    rewrite Hv, H9, <- app_assoc. split; [lia|split; [done|]]. intros ?. apply Hq. lia.
  - done.
Qed.

(** When no write to the store succeeds, each processed profile leaves
    one logged failure, and the loop goes on. *)
Lemma loop_logs_save_failures profiles (l l' : Loop W) :
  (forall st w, fst (store_save st w) <> None) ->
  loop reqCfg timingCfg profiles l = Returns l' ->
  exists ps fs, processed (log l') = processed (log l) ++ ps
                /\ saveFailures (log l') = saveFailures (log l) ++ fs
                /\ length fs = length ps.
Proof.
  intros Hbroken.
  assert (Hsave : forall st w, exists e w', saveConnectionState st w = (Some e, w')).
  { intros st w. unfold saveConnectionState. specialize (Hbroken st w).
    destruct (store_save st w) as [[[e|e]|] w']; simpl in Hbroken; [eauto..|done]. }
  revert l. induction profiles as [|url rest IH]; intros l Hl; simpl in Hl.
  { injection Hl as <-. exists [], []. rewrite !app_nil_r. done. }
  pose proof (iteration_pass reqCfg timingCfg url rest l) as Hp.
  destruct (iteration reqCfg timingCfg url rest l) as [l1|l1|]; inversion Hp; subst.
  - injection Hl as <-. exists [], []. rewrite !app_nil_r. done.
  - destruct (IH _ Hl) as (ps & fs & Hps & Hfs & Hlen). exists ps, fs.
    rewrite Hps, Hfs, H8, H11. done.
  - destruct (IH _ Hl) as (ps & fs & Hps & Hfs & Hlen).
    destruct (Hsave (state l1) w) as (e' & w' & He).
    exists (url :: ps), (e' :: fs). rewrite Hps, Hfs, H8, (H11 _ _ He), <- !app_assoc.
    simpl. auto.
  - destruct (IH _ Hl) as (ps & fs & Hps & Hfs & Hlen).
    destruct (Hsave (state l1) w) as (e' & w' & He).
    exists (url :: ps), (e' :: fs). rewrite Hps, Hfs, H8, (H11 _ _ He), <- !app_assoc.
    simpl. auto.
  - done.
Qed.

Lemma startState_date (w : W) : Date (fst (startState w)) = Now_date w.
Proof.
  unfold startState.
  destruct (loadConnectionState w) as [st|e];
    (destruct (String.eqb (Date _) (Now_date w)) eqn:E; simpl; [|done];
     by apply String.eqb_eq in E).
Qed.

Lemma startState_loaded (w : W) st :
  loadConnectionState w = inl st -> Date st = Now_date w -> startState w = (st, []).
Proof.
  intros Hload Hdate. unfold startState. rewrite Hload, Hdate, String.eqb_refl. done.
Qed.

Lemma startState_observations (w : W) :
  processed (snd (startState w)) = [] /\ visited (snd (startState w)) = []
  /\ duplicates (snd (startState w)) = [] /\ saveFailures (snd (startState w)) = [].
Proof.
  unfold startState.
  destruct (loadConnectionState w) as [st|e];
    destruct (negb (String.eqb (Date _) (Now_date w))); done.
Qed.

End ConnectRun.

(* --------------------------------------------------------------------- *)
(** ** The loop of SendFollowUps *)

Section MessagingRun.
Context {W : Type} `{!Env W} `{!messaging.Deps W}.
Import messaging.

Variables (cfg : FollowUpConfig) (timingCfg : TimingConfig).

Lemma followup_pacing_returns (w : W) : exists d, pacing cfg w = Returns d.
Proof. unfold pacing. rewrite fixed_delay_returns. eauto. Qed.

Ltac followup_log_facts :=
  unfold checked, messageAttempts, messageSaveFailures;
  rewrite ?omap_app; simpl; rewrite ?app_nil_r; try reflexivity.

Lemma iteration_followup_pass url rest (l : Loop W) :
  followup_pass cfg url l (iteration cfg timingCfg url rest l).
Proof.
  unfold iteration.
  destruct (MaxPerDay cfg <=? MessagesSentToday (state l)) eqn:Hlim.
  { apply followup_limit; simpl; try done; try lia; followup_log_facts. }
  destruct (messaged (state l) url) eqn:Hm.
  { apply followup_passed_over; simpl; try done; try lia; followup_log_facts. }
  destruct (checkIfConnected url (world l)) as [[b [e|]] w] eqn:Hcheck.
  { destruct b; apply followup_passed_over; simpl; try done; try lia;
      followup_log_facts. }
  destruct b.
  2: { apply followup_passed_over; simpl; try done; try lia; followup_log_facts. }
  destruct (sendFollowUpMessage url cfg timingCfg w) as [[e|] w1] eqn:Hsend;
    cbn [state world log successCount skipCount notConnectedCount errorCount];
    destruct (saveMessageState _ w1) as [[serr|] w2] eqn:Hsave;
    destruct (followup_pacing_returns w2) as [d Hd];
    destruct rest; rewrite ?Hd;
    (eapply followup_attempted; [lia | done | ..]; simpl;
     try (intros s0 w0 Hs; rewrite Hsave in Hs; inversion Hs; subst);
     followup_log_facts).
Qed.

Lemma followup_loop_returns profiles (l : Loop W) :
  exists l', loop cfg timingCfg profiles l = Returns l'.
Proof.
  revert l. induction profiles as [|url rest IH]; intros l; simpl; [eauto|].
  pose proof (iteration_followup_pass url rest l) as Hp.
  destruct (iteration cfg timingCfg url rest l); inversion Hp; eauto.
Qed.

Lemma followup_loop_stops_on_quota_only profiles (l l' : Loop W) :
  loop cfg timingCfg profiles l = Returns l' ->
  exists k, (k <= length profiles)%nat
            /\ checked (log l') = checked (log l) ++ take k profiles
            /\ ((k < length profiles)%nat ->
                MaxPerDay cfg <= MessagesSentToday (state l')).
Proof.
  revert l. induction profiles as [|url rest IH]; intros l Hl; simpl in Hl.
  { injection Hl as <-. exists 0%nat. simpl. rewrite app_nil_r.
    split; [lia|split; [done|lia]]. }
  pose proof (iteration_followup_pass url rest l) as Hp.
  destruct (iteration cfg timingCfg url rest l) as [l1|l1|];
    inversion Hp as [l0 Hq Hst Hw Hch Hma Hsf
                    |l0 Hq Hst Hch Hma Hsf
                    |l0 w Hq Hm Hch Hma Hsf]; subst.
  - injection Hl as <-. exists 0%nat. simpl. rewrite app_nil_r, Hst.
    split; [lia|split; [done|done]].
  - destruct (IH _ Hl) as (k & Hk & Hv & Hlim). exists (S k). simpl.
    rewrite Hv, Hch, <- app_assoc. split; [lia|split; [done|]].
    intros ?. apply Hlim. lia.
  - destruct (IH _ Hl) as (k & Hk & Hv & Hlim). exists (S k). simpl.
    rewrite Hv, Hch, <- app_assoc. split; [lia|split; [done|]].
    intros ?. apply Hlim. lia.
Qed.

Lemma followup_loop_logs_save_failures profiles (l l' : Loop W) :
  (forall st w, fst (store_save st w) <> None) ->
  loop cfg timingCfg profiles l = Returns l' ->
  exists ps fs, messageAttempts (log l') = messageAttempts (log l) ++ ps
                /\ messageSaveFailures (log l') = messageSaveFailures (log l) ++ fs
                /\ length fs = length ps.
Proof.
  intros Hbroken.
  assert (Hsave : forall st w, exists e w', saveMessageState st w = (Some e, w')).
  { intros st w. unfold saveMessageState. specialize (Hbroken st w).
    destruct (store_save st w) as [[[e|e]|] w']; simpl in Hbroken; [eauto..|done]. }
  revert l. induction profiles as [|url rest IH]; intros l Hl; simpl in Hl.
  { injection Hl as <-. exists [], []. rewrite !app_nil_r. done. }
  pose proof (iteration_followup_pass url rest l) as Hp.
  destruct (iteration cfg timingCfg url rest l) as [l1|l1|];
    inversion Hp as [l0 Hq Hst Hw Hch Hma Hsf
                    |l0 Hq Hst Hch Hma Hsf
                    |l0 w Hq Hm Hch Hma Hsf]; subst.
  - injection Hl as <-. exists [], []. rewrite !app_nil_r. done.
  - destruct (IH _ Hl) as (ps & fs & Hps & Hfs & Hlen). exists ps, fs.
    rewrite Hps, Hfs, Hma, Hsf. done.
  - destruct (IH _ Hl) as (ps & fs & Hps & Hfs & Hlen).
    destruct (Hsave (state l1) w) as (e' & w' & He).
    exists (url :: ps), (e' :: fs). rewrite Hps, Hfs, Hma, (Hsf _ _ He), <- !app_assoc.
    simpl. auto.
Qed.

Lemma followup_startState_observations (w : W) :
  checked (snd (startState w)) = [] /\ messageAttempts (snd (startState w)) = []
  /\ messageSaveFailures (snd (startState w)) = [].
Proof.
  unfold startState.
  destruct (loadMessageState w) as [st|e];
    destruct (negb (String.eqb (Date _) (Now_date w))); done.
Qed.

End MessagingRun.

(* --------------------------------------------------------------------- *)
(** ** Quota, replay and invariant of the connection campaign *)

Section ConnectClaims.
Context {W : Type} `{!Env W} `{!connect.Deps W}.
Import connect.

Variables (reqCfg : RequestConfig) (timingCfg : TimingConfig).


(** C5 (as amended).  Replaying a run on the same day, with the store
    holding the state the earlier run ended with, sends nothing: no
    profile is processed, and the state (counter, attempted, succeeded
    and failed records) and the world are left as they were.  If the
    earlier run ended below the quota, every profile of the list is
    skipped as already attempted; if it ended at the quota, the replay
    stops at the entry check with the limit error and skips none. *)
Theorem replay_sends_nothing profiles (w1 w2 : W) r1 s1 :
  SendRequests profiles reqCfg timingCfg w1 = Returns r1 ->
  final r1 = Some s1 ->
  loadConnectionState w2 = inl s1 ->
  Now_date w2 = Now_date w1 ->
  exists r2,
    SendRequests profiles reqCfg timingCfg w2 = Returns r2
    /\ final r2 = Some s1
    /\ after r2 = w2
    /\ successful r2 = 0
    /\ processed (trace r2) = []
    /\ (RequestsSentToday s1 < MaxPerDay reqCfg ->
        ret r2 = None /\ duplicates (trace r2) = profiles
        /\ skipped r2 = Z.of_nat (length profiles))
    /\ (MaxPerDay reqCfg <= RequestsSentToday s1 ->
        ret r2 = Some (limitMessage (RequestsSentToday s1) (MaxPerDay reqCfg))
        /\ duplicates (trace r2) = [] /\ skipped r2 = 0).
Proof.
  intros Hrun1 Hfin1 Hload Hday.
  unfold SendRequests in Hrun1 |- *. destruct profiles as [|url rest].
  { injection Hrun1 as <-. done. }
  pose proof (startState_date w1) as Hd1.
  destruct (startState w1) as [st1 lg1] eqn:Hst1. simpl in Hd1.
  assert (Hs1 : Date s1 = Now_date w1
                /\ (RequestsSentToday s1 < MaxPerDay reqCfg ->
                    forall u, u ∈ url :: rest -> attempted s1 u = true)).
  { destruct (MaxPerDay reqCfg <=? RequestsSentToday st1) eqn:Hq.
    - injection Hrun1 as <-. simpl in Hfin1. injection Hfin1 as <-. split; [done|lia].
    - destruct (loop reqCfg timingCfg (url :: rest) _) as [l1|] eqn:Hl1; [|done].
      injection Hrun1 as <-. simpl in Hfin1. injection Hfin1 as <-.
      destruct (loop_frame _ _ _ _ _ Hl1) as [Hdate _]. split; [by rewrite Hdate|].
      intros Hlt. by apply (loop_open_end _ _ _ _ _ Hl1). }
  destruct Hs1 as [Hdate Hall].
  rewrite (startState_loaded w2 s1 Hload) by congruence.
  destruct (MaxPerDay reqCfg <=? RequestsSentToday s1) eqn:Hq.
  { eexists. split; [reflexivity|]. simpl. repeat split; try done; lia. }
  destruct (loop_skips_attempted reqCfg timingCfg (url :: rest)
              {| state := s1; successCount := 0; skipCount := 0; errorCount := 0;
                 world := w2; log := [] |})
    as (l' & Hl & Hst & Hw & Hsc & Hec & Hsk & Hpr & Hdup);
    [simpl; apply Hall; lia | simpl; lia | ].
  rewrite Hl. eexists. split; [reflexivity|]. simpl in *.
  assert (Htrace : forall lg a b c d e,
            processed (lg ++ [CampaignCompleted a b c d e]) = processed lg
            /\ duplicates (lg ++ [CampaignCompleted a b c d e]) = duplicates lg).
  { intros. unfold processed, duplicates. rewrite !omap_app. simpl.
    by rewrite !app_nil_r. }
  destruct (Htrace (log l') (successCount l') (skipCount l') (errorCount l')
              (RequestsSentToday (state l')) (MaxPerDay reqCfg)) as [-> ->].
  rewrite Hst, Hw, Hsc, Hpr, Hdup, Hsk.
  split; [done|]. split; [done|]. split; [done|]. split; [done|].
  split; [intros _; split; [done|split; [done|lia]]|lia].
Qed.


End ConnectClaims.

(* --------------------------------------------------------------------- *)
(** ** The two-tier failure of the locator *)

Section LocatorClaims.
Context {W : Type} `{!Env W} `{!connect.Deps W}.
Import connect.

(** C2 (as amended).  When no Connect control passes the check and one of
    the indicators is present, [findConnectButton] returns the error
    "connect unavailable: reason", which differs from the plain not-found
    error; the engine treats it as any other error of the step: the
    profile is marked attempted and recorded in [FailedAttempts] with
    the message, the error counter goes up, and neither the counter of
    the day nor the success records change. *)
Theorem unavailable_is_recorded_as_failed reqCfg timingCfg url rest (l : Loop W)
    w1 w2 serr w3 reason :
  RequestsSentToday (state l) < MaxPerDay reqCfg ->
  attempted (state l) url = false ->
  Navigate url (world l) = (None, w1) ->
  WaitLoad w1 = (None, w2) ->
  isProfileAvailable (Sleep (mul64 3 Second) w2) = true ->
  humanScrollProfile timingCfg (Sleep (mul64 3 Second) w2) = Returns (serr, w3) ->
  scanConnect connectSelectors w3 = None ->
  scanUnavailable unavailableReasons w3 = Some reason ->
  findConnectButton w3 = inr ("connect unavailable: " +:+ reason)
  /\ "connect unavailable: " +:+ reason <> notFoundMessage
  /\ exists l',
       iteration reqCfg timingCfg url rest l = Continue l'
       /\ FailedAttempts (state l') !! url
          = Some ("find connect button: connect unavailable: " +:+ reason)
       /\ attempted (state l') url = true
       /\ errorCount l' = errorCount l + 1
       /\ successCount l' = successCount l
       /\ RequestsSentToday (state l') = RequestsSentToday (state l)
       /\ SuccessfulSends (state l') = SuccessfulSends (state l).
Proof.
  intros Hq Hat Hnav Hwait Havail Hscroll Hscan Hind.
  assert (Hfind : findConnectButton w3 = inr ("connect unavailable: " +:+ reason)).
  { unfold findConnectButton. by rewrite Hscan, Hind. }
  split; [done|]. split.
  { intros Heq. apply (f_equal (String.get 8)) in Heq. discriminate Heq. }
  assert (Hsend : sendConnectionRequest url reqCfg timingCfg (world l)
                  = Returns
                      (Some ("find connect button: connect unavailable: " +:+ reason),
                       w3)).
  { unfold sendConnectionRequest. rewrite Hnav, Hwait, Havail. simpl negb. cbv iota.
    rewrite Hscroll, Hfind. done. }
  pose proof (iteration_pass reqCfg timingCfg url rest l) as Hp.
  destruct (iteration reqCfg timingCfg url rest l) as [l'|l'|];
    inversion Hp as [l0 Hq' Hst Hw Hsc Hsk Hec Hpr Hvi Hdu Hsf
                    |l0 Hq' Hat' Hst Hw Hsc Hsk Hec Hpr Hvi Hdu Hsf
                    |l0 e w Hq' Hat' Hsend' Hst Hsc Hsk Hec Hpr Hvi Hdu Hsf
                    |l0 w Hq' Hat' Hsend' Hst Hsc Hsk Hec Hpr Hvi Hdu Hsf
                    |Hq' Hat' Hsend']; subst;
    try lia; try congruence.
  rewrite Hsend in Hsend'. injection Hsend' as <- <-.
  exists l'. split; [done|]. rewrite Hst. simpl.
  rewrite lookup_insert_eq. split; [done|]. split; [|done].
  unfold attempted. simpl. by rewrite lookup_insert_eq.
Qed.

End LocatorClaims.

(* --------------------------------------------------------------------- *)
(** ** Quota exhaustion at entry, and failures to persist *)

Lemma completed_observations lg a b c d e :
  processed (lg ++ [connect.CampaignCompleted a b c d e]) = processed lg
  /\ visited (lg ++ [connect.CampaignCompleted a b c d e]) = visited lg
  /\ duplicates (lg ++ [connect.CampaignCompleted a b c d e]) = duplicates lg
  /\ saveFailures (lg ++ [connect.CampaignCompleted a b c d e]) = saveFailures lg.
Proof.
  unfold processed, visited, duplicates, saveFailures.
  rewrite !omap_app. simpl. by rewrite !app_nil_r.
Qed.

Lemma limit_observations lg a b :
  processed (lg ++ [connect.LimitAlreadyReached a b]) = processed lg
  /\ visited (lg ++ [connect.LimitAlreadyReached a b]) = visited lg
  /\ duplicates (lg ++ [connect.LimitAlreadyReached a b]) = duplicates lg
  /\ saveFailures (lg ++ [connect.LimitAlreadyReached a b]) = saveFailures lg.
Proof.
  unfold processed, visited, duplicates, saveFailures.
  rewrite !omap_app. simpl. by rewrite !app_nil_r.
Qed.

Lemma followup_completed_observations lg a b c d e f :
  checked (lg ++ [messaging.CampaignCompleted a b c d e f]) = checked lg
  /\ messageAttempts (lg ++ [messaging.CampaignCompleted a b c d e f])
     = messageAttempts lg
  /\ messageSaveFailures (lg ++ [messaging.CampaignCompleted a b c d e f])
     = messageSaveFailures lg.
Proof.
  unfold checked, messageAttempts, messageSaveFailures.
  rewrite !omap_app. simpl. by rewrite !app_nil_r.
Qed.

Lemma followup_limit_observations lg a b :
  checked (lg ++ [messaging.LimitAlreadyReached a b]) = checked lg
  /\ messageAttempts (lg ++ [messaging.LimitAlreadyReached a b]) = messageAttempts lg
  /\ messageSaveFailures (lg ++ [messaging.LimitAlreadyReached a b])
     = messageSaveFailures lg.
Proof.
  unfold checked, messageAttempts, messageSaveFailures.
  rewrite !omap_app. simpl. by rewrite !app_nil_r.
Qed.

(** C3 (as amended).  If the counter of the day, after the rollover, is
    already at or above the quota when a run is entered with a non-empty
    list, the run stops before the loop: no profile is visited, the state
    and the world (the store included) are left as they were, and the run
    returns the error "daily ... limit reached: sent/limit" to its
    caller.  This holds for [SendRequests] and for [SendFollowUps]. *)
Theorem quota_exhausted_at_entry :
  (forall (W : Type) (E : Env W) (D : connect.Deps W) profiles reqCfg timingCfg (w : W),
      profiles <> [] ->
      connect.MaxPerDay reqCfg <= connect.RequestsSentToday (entryState w) ->
      exists r,
        connect.SendRequests profiles reqCfg timingCfg w = Returns r
        /\ connect.ret r
           = Some (connect.limitMessage (connect.RequestsSentToday (entryState w))
                     (connect.MaxPerDay reqCfg))
        /\ connect.final r = Some (entryState w)
        /\ connect.after r = w
        /\ visited (connect.trace r) = []
        /\ processed (connect.trace r) = [])
  /\ (forall (W : Type) (E : Env W) (D : messaging.Deps W) profiles cfg timingCfg (w : W),
        profiles <> [] ->
        messaging.MaxPerDay cfg <= messaging.MessagesSentToday (entryMessageState w) ->
        exists r,
          messaging.SendFollowUps profiles cfg timingCfg w = Returns r
          /\ messaging.ret r
             = Some (messaging.limitMessage
                       (messaging.MessagesSentToday (entryMessageState w))
                       (messaging.MaxPerDay cfg))
          /\ messaging.final r = Some (entryMessageState w)
          /\ messaging.after r = w
          /\ checked (messaging.trace r) = []
          /\ messageAttempts (messaging.trace r) = []).
Proof.
  split.
  - intros W E D profiles reqCfg timingCfg w Hne Hq.
    unfold connect.SendRequests, entryState in *.
    destruct profiles as [|url rest]; [done|].
    pose proof (startState_observations w) as (Hp & Hv & _).
    destruct (connect.startState w) as [st lg]. cbn [fst snd] in *.
    rewrite (proj2 (Z.leb_le _ _) Hq). eexists. split; [reflexivity|]. simpl.
    destruct (limit_observations lg (connect.RequestsSentToday st)
                (connect.MaxPerDay reqCfg)) as (-> & -> & _).
    done.
  - intros W E D profiles cfg timingCfg w Hne Hq.
    unfold messaging.SendFollowUps, entryMessageState in *.
    destruct profiles as [|url rest]; [done|].
    pose proof (followup_startState_observations w) as (Hc & Ha & _).
    destruct (messaging.startState w) as [st lg]. cbn [fst snd] in *.
    rewrite (proj2 (Z.leb_le _ _) Hq). eexists. split; [reflexivity|]. simpl.
    destruct (followup_limit_observations lg (messaging.MessagesSentToday st)
                (messaging.MaxPerDay cfg)) as (-> & -> & _).
    done.
Qed.

(** C4 (as amended).  If writing the campaign state to the store fails
    after a target's outcome is known, the engine logs the failure and
    goes on with the next target.  With a store on which every write
    fails, no failure to persist ends a run: a run of [SendFollowUps]
    returns, and so does a run of [SendRequests] whose configured delays
    the delay generator can draw between (the pause of
    [humanScrollProfile] is the one place where the step can panic, and
    it does not depend on the store).  Of every run that returns, the
    only possible error is the limit reached at entry; every target whose
    step was invoked left one logged failure to persist; and the loop
    went through the list in order, stopping before its end only when
    the quota was reached. *)
Theorem save_failure_is_logged_not_propagated :
  (forall (W : Type) (E : Env W) (D : connect.Deps W) profiles reqCfg timingCfg (w : W),
      (forall st w', fst (connect.store_save st w') <> None) ->
      (delays_usable timingCfg ->
       exists r, connect.SendRequests profiles reqCfg timingCfg w = Returns r)
      /\ forall r,
        connect.SendRequests profiles reqCfg timingCfg w = Returns r ->
        (connect.ret r = None
         \/ connect.ret r
            = Some (connect.limitMessage (connect.RequestsSentToday (entryState w))
                      (connect.MaxPerDay reqCfg))
            /\ connect.MaxPerDay reqCfg <= connect.RequestsSentToday (entryState w))
        /\ length (saveFailures (connect.trace r)) = length (processed (connect.trace r))
        /\ exists k, (k <= length profiles)%nat
                     /\ visited (connect.trace r) = take k profiles
                     /\ ((k < length profiles)%nat ->
                         connect.MaxPerDay reqCfg
                         <= connect.RequestsSentToday (stateAfter w r)))
  /\ (forall (W : Type) (E : Env W) (D : messaging.Deps W) profiles cfg timingCfg (w : W),
        (forall st w', fst (messaging.store_save st w') <> None) ->
        exists r,
          messaging.SendFollowUps profiles cfg timingCfg w = Returns r
          /\ (messaging.ret r = None
              \/ messaging.ret r
                 = Some (messaging.limitMessage
                           (messaging.MessagesSentToday (entryMessageState w))
                           (messaging.MaxPerDay cfg))
                 /\ messaging.MaxPerDay cfg
                    <= messaging.MessagesSentToday (entryMessageState w))
          /\ length (messageSaveFailures (messaging.trace r))
             = length (messageAttempts (messaging.trace r))
          /\ exists k, (k <= length profiles)%nat
                       /\ checked (messaging.trace r) = take k profiles
                       /\ ((k < length profiles)%nat ->
                           messaging.MaxPerDay cfg
                           <= messaging.MessagesSentToday
                                (default (entryMessageState w) (messaging.final r)))).
Proof.
  split.
  - intros W E D profiles reqCfg timingCfg w Hbroken. split.
    { intros Hfit. unfold connect.SendRequests.
      destruct profiles as [|url rest]; [eauto|].
      destruct (connect.startState w) as [st lg].
      destruct (connect.MaxPerDay reqCfg <=? connect.RequestsSentToday st); [eauto|].
      destruct (loop_returns reqCfg timingCfg (url :: rest)
                  {| connect.state := st; connect.successCount := 0;
                     connect.skipCount := 0; connect.errorCount := 0;
                     connect.world := w; connect.log := lg |}) as [l' Hl].
      { intros u w'. by apply sendConnectionRequest_returns. }
      rewrite Hl. eauto. }
    intros r. unfold connect.SendRequests, stateAfter, entryState.
    destruct profiles as [|url rest].
    { intros [= <-]. simpl. split; [by left|]. split; [done|].
      exists 0%nat. split; [lia|]. split; [done|lia]. }
    pose proof (startState_observations w) as (Hp & Hv & _ & Hs).
    destruct (connect.startState w) as [st lg]. cbn [fst snd] in *.
    destruct (connect.MaxPerDay reqCfg <=? connect.RequestsSentToday st) eqn:Hq.
    { intros [= <-]. simpl.
      destruct (limit_observations lg (connect.RequestsSentToday st)
                  (connect.MaxPerDay reqCfg)) as (-> & -> & _ & ->).
      rewrite Hp, Hv, Hs. split; [right; split; [done|lia]|]. split; [done|].
      exists 0%nat. split; [lia|]. split; [done|]. intros _. lia. }
    destruct (connect.loop reqCfg timingCfg (url :: rest) _) as [l'|] eqn:Hl; [|done].
    intros [= <-]. cbn [connect.ret connect.trace connect.final default].
    destruct (completed_observations (connect.log l') (connect.successCount l')
                (connect.skipCount l') (connect.errorCount l')
                (connect.RequestsSentToday (connect.state l'))
                (connect.MaxPerDay reqCfg)) as (-> & -> & _ & ->).
    destruct (loop_stops_on_quota_only _ _ _ _ _ Hl) as (k & Hk & Hvis & Hstop).
    destruct (loop_logs_save_failures _ _ _ _ _ Hbroken Hl) as (ps & fs & Hps & Hfs & Hlen).
    cbn [connect.log] in *. rewrite Hv in Hvis. rewrite Hp in Hps. rewrite Hs in Hfs.
    rewrite Hps, Hfs, Hvis. split; [by left|]. split; [done|].
    exists k. done.
  - intros W E D profiles cfg timingCfg w Hbroken.
    unfold messaging.SendFollowUps, entryMessageState.
    destruct profiles as [|url rest].
    { eexists. split; [reflexivity|]. simpl. split; [by left|]. split; [done|].
      exists 0%nat. split; [lia|]. split; [done|lia]. }
    pose proof (followup_startState_observations w) as (Hc & Ha & Hs).
    destruct (messaging.startState w) as [st lg]. cbn [fst snd] in *.
    destruct (messaging.MaxPerDay cfg <=? messaging.MessagesSentToday st) eqn:Hq.
    { eexists. split; [reflexivity|]. simpl.
      destruct (followup_limit_observations lg (messaging.MessagesSentToday st)
                  (messaging.MaxPerDay cfg)) as (-> & -> & ->).
      rewrite Hc, Ha, Hs. split; [right; split; [done|lia]|]. split; [done|].
      exists 0%nat. split; [lia|]. split; [done|]. intros _. lia. }
    destruct (followup_loop_returns cfg timingCfg (url :: rest)
                {| messaging.state := st; messaging.successCount := 0;
                   messaging.skipCount := 0; messaging.notConnectedCount := 0;
                   messaging.errorCount := 0; messaging.world := w;
                   messaging.log := lg |}) as [l' Hl].
    rewrite Hl. eexists. split; [reflexivity|]. cbn [messaging.ret messaging.trace
      messaging.final default].
    destruct (followup_completed_observations (messaging.log l')
                (messaging.successCount l') (messaging.skipCount l')
                (messaging.notConnectedCount l') (messaging.errorCount l')
                (messaging.MessagesSentToday (messaging.state l'))
                (messaging.MaxPerDay cfg)) as (-> & -> & ->).
    destruct (followup_loop_stops_on_quota_only _ _ _ _ _ Hl) as (k & Hk & Hvis & Hstop).
    destruct (followup_loop_logs_save_failures _ _ _ _ _ Hbroken Hl)
      as (ps & fs & Hps & Hfs & Hlen).
    cbn [messaging.log] in *. rewrite Hc in Hvis. rewrite Ha in Hps. rewrite Hs in Hfs.
    rewrite Hps, Hfs, Hvis. split; [by left|]. split; [done|].
    exists k. done.
Qed.

(* --------------------------------------------------------------------- *)
(** ** The campaign engine on the simulated worlds *)


Lemma replay_sends_nothing_witness :
  exists r2,
    connect.SendRequests [ada; grace; linus] (requestConfig 2) timing
      (laterRun connectablePage true today
         (endState today
            (connect.SendRequests [ada; grace; linus] (requestConfig 2) timing
               (firstRun connectablePage true today)))) = Returns r2
    /\ connect.successful r2 = 0
    /\ processed (connect.trace r2) = [].
Proof.
  edestruct (replay_sends_nothing (requestConfig 2) timing [ada; grace; linus]
               (firstRun connectablePage true today)
               (laterRun connectablePage true today
                  (endState today
                     (connect.SendRequests [ada; grace; linus] (requestConfig 2) timing
                        (firstRun connectablePage true today)))))
    as (r2 & Hrun & _ & _ & Hsucc & Hproc & _).
  - vm_compute. reflexivity.
  - vm_compute. reflexivity.
  - vm_compute. reflexivity.
  - reflexivity.
  - exists r2. split; [exact Hrun|]. split; [exact Hsucc|exact Hproc].
Defined.

(** C5 fails as stated: after a run that stopped at the quota (three
    profiles, quota two), the third profile is not in the attempted set,
    and the replay skips nothing as a duplicate; it returns the limit
    error at once. *)
Lemma replay_counterexample :
  connect.attempted
    (endState today
       (connect.SendRequests [ada; grace; linus] (requestConfig 2) timing
          (firstRun connectablePage true today))) linus = false
  /\ exists r2,
       connect.SendRequests [ada; grace; linus] (requestConfig 2) timing
         (laterRun connectablePage true today
            (endState today
               (connect.SendRequests [ada; grace; linus] (requestConfig 2) timing
                  (firstRun connectablePage true today)))) = Returns r2
       /\ duplicates (connect.trace r2) = []
       /\ connect.skipped r2 = 0
       /\ connect.ret r2 = Some "daily connection limit reached: 2/2".
Proof.
  split; [vm_compute; reflexivity|].
  eexists. split; [vm_compute; reflexivity|]. vm_compute. done.
Qed.


Lemma unavailable_is_recorded_as_failed_witness :
  exists l',
    connect.iteration (requestConfig 5) timing ada [grace]
      {| connect.state := entryState (firstRun followingPage true today);
         connect.successCount := 0; connect.skipCount := 0; connect.errorCount := 0;
         connect.world := firstRun followingPage true today; connect.log := [] |}
    = Continue l'
    /\ connect.FailedAttempts (connect.state l') !! ada
       = Some "find connect button: connect unavailable: already following".
Proof.
  destruct (unavailable_is_recorded_as_failed (requestConfig 5) timing ada [grace]
              {| connect.state := entryState (firstRun followingPage true today);
                 connect.successCount := 0; connect.skipCount := 0;
                 connect.errorCount := 0;
                 connect.world := firstRun followingPage true today;
                 connect.log := [] |}
              (firstRun followingPage true today) (firstRun followingPage true today)
              None (firstRun followingPage true today) "already following")
    as (_ & _ & l' & Hit & Hfailed & _).
  - vm_compute. reflexivity.
  - reflexivity.
  - reflexivity.
  - reflexivity.
  - reflexivity.
  - vm_compute. reflexivity.
  - reflexivity.
  - reflexivity.
  - exists l'. split; [exact Hit|exact Hfailed].
Defined.

(** C2 fails as stated: on a page that shows Following instead of
    Connect, the locator reports "connect unavailable: already
    following", and the engine records the profile in the failed map and
    counts it as an error. *)
Lemma ineligible_counterexample :
  connect.findConnectButton (firstRun followingPage true today)
  = inr "connect unavailable: already following"
  /\ exists r,
       connect.SendRequests [ada] (requestConfig 5) timing
         (firstRun followingPage true today) = Returns r
       /\ connect.errors r = 1
       /\ connect.FailedAttempts (stateAfter (firstRun followingPage true today) r) !! ada
          = Some "find connect button: connect unavailable: already following".
Proof.
  split; [reflexivity|].
  eexists. split; [vm_compute; reflexivity|]. vm_compute. done.
Qed.

(** On a page with neither a Connect control nor an indicator the locator
    reports the plain not-found error. *)
Lemma locator_not_found_on_bare_page :
  connect.findConnectButton (firstRun barePage true today)
  = inr connect.notFoundMessage.
Proof. reflexivity. Qed.

Lemma quota_exhausted_at_entry_witness :
  exists r,
    connect.SendRequests [ada] (requestConfig 0) timing
      (firstRun connectablePage true today) = Returns r
    /\ connect.ret r = Some "daily connection limit reached: 0/0"
    /\ visited (connect.trace r) = [].
Proof.
  destruct (proj1 quota_exhausted_at_entry _ _ _ [ada] (requestConfig 0) timing
              (firstRun connectablePage true today))
    as (r & Hrun & Hret & _ & _ & Hvis & _).
  - discriminate.
  - vm_compute. discriminate.
  - exists r. split; [exact Hrun|]. split; [exact Hret|exact Hvis].
Defined.

(** C3 fails as stated: entered with the counter already at the quota,
    both engines return an error to their caller. *)
Lemma quota_exhaustion_counterexample :
  (exists r,
     connect.SendRequests [linus] (requestConfig 2) timing
       (laterRun connectablePage true today
          (endState today
             (connect.SendRequests [ada; grace] (requestConfig 2) timing
                (firstRun connectablePage true today)))) = Returns r
     /\ connect.ret r = Some "daily connection limit reached: 2/2")
  /\ (exists r,
        messaging.SendFollowUps [ada] (followUpConfig 0) timing
          (firstFollowUps true today) = Returns r
        /\ messaging.ret r = Some "daily message limit reached: 0/0").
Proof.
  split; (eexists; split; [vm_compute; reflexivity|]; vm_compute; done).
Qed.

Lemma save_failure_is_logged_not_propagated_witness :
  exists r,
    connect.SendRequests [ada; grace] (requestConfig 5) timing
      (firstRun connectablePage false today) = Returns r
    /\ length (saveFailures (connect.trace r)) = length (processed (connect.trace r)).
Proof.
  destruct (proj1 save_failure_is_logged_not_propagated _ _ _ [ada; grace]
              (requestConfig 5) timing (firstRun connectablePage false today))
    as [Hreturns Hfacts].
  - intros st w'. discriminate.
  - destruct Hreturns as [r Hrun].
    { unfold delays_usable, in_int64, min_int64, max_int64. simpl. lia. }
    exists r. split; [exact Hrun|]. exact (proj1 (proj2 (Hfacts r Hrun))).
Defined.

(** The condition on the delays is needed: with a minimum of 0 and the
    largest maximum, the pause of [humanScrollProfile] panics, and the
    run with it. *)
Lemma unusable_delays_panic :
  connect.SendRequests [ada] (requestConfig 5)
    {| MinDelayMs := 0; MaxDelayMs := max_int64 |}
    (firstRun connectablePage true today) = Panics.
Proof. vm_compute. reflexivity. Qed.

(** C4 fails as stated: with a store that rejects every write, both
    engines go through all the targets, log each failure to persist, and
    return no error. *)
Lemma save_failure_counterexample :
  (exists r,
     connect.SendRequests [ada; grace] (requestConfig 5) timing
       (firstRun connectablePage false today) = Returns r
     /\ connect.ret r = None
     /\ processed (connect.trace r) = [ada; grace]
     /\ saveFailures (connect.trace r)
        = ["save connection state: disk full"; "save connection state: disk full"])
  /\ (exists r,
        messaging.SendFollowUps [ada; grace] (followUpConfig 5) timing
          (firstFollowUps false today) = Returns r
        /\ messaging.ret r = None
        /\ messageAttempts (messaging.trace r) = [ada; grace]
        /\ messageSaveFailures (messaging.trace r)
           = ["save state: disk full"; "save state: disk full"]).
Proof.
  split; (eexists; split; [vm_compute; reflexivity|]; vm_compute; done).
Qed.

(* --------------------------------------------------------------------- *)
(** ** Discovery: the pagination loop *)

Lemma max_in_int64 a b : in_int64 a -> in_int64 b -> in_int64 (max a b).
Proof. unfold max. destruct (b <? a); done. Qed.

Lemma max_lower a b : a <= max a b.
Proof. unfold max. destruct (b <? a) eqn:E; lia. Qed.

(** The pause between pages never panics: its lower bound is at least
    2000, so the span handed to [Intn] cannot wrap. *)
Lemma pagination_pause_returns draw a b :
  in_int64 a -> in_int64 b ->
  exists d, stealth.RandomDelay draw (max 2000 a) (max 5000 b) = Some d.
Proof.
  intros Ha Hb.
  assert (Hlo : in_int64 (max 2000 a)) by (apply max_in_int64; [|done]; by vm_compute).
  assert (Hhi : in_int64 (max 5000 b)) by (apply max_in_int64; [|done]; by vm_compute).
  pose proof (max_lower 2000 a) as Hl.
  pose proof (proj1 (in_int64_bounds _) Hlo) as Hlo'.
  pose proof (proj1 (in_int64_bounds _) Hhi) as Hhi'.
  unfold stealth.RandomDelay, Intn, add64, sub64.
  set (lo := max 2000 a) in *. set (hi := max 5000 b) in *.
  destruct (lo <? 0) eqn:E0; [lia|].
  destruct (hi <? lo) eqn:E1.
  - rewrite Z.sub_diag. change (wrap64 (wrap64 0 + 1)) with 1. simpl. eauto.
  - rewrite (wrap64_id (hi - lo)) by (apply in_int64_bounds; lia).
    rewrite (wrap64_id (hi - lo + 1)) by (apply in_int64_bounds; lia).
    destruct (hi - lo + 1 <=? 0) eqn:E2; [lia|]. eauto.
Qed.

Section DiscoveryProps.
Context {W : Type} `{!Env W} `{!search.Deps W}.
Import search.
#[local] Arguments scanNext : simpl never.

Variables (maxPages : Z) (cfg : TimingConfig).

Lemma next_page_number page :
  min_int64 <= page <= maxPages -> maxPages < max_int64 -> add64 page 1 = page + 1.
Proof. intros Hp Hm. apply add64_succ. lia. Qed.

(** The loop ends, after at most as many pages as lie between the
    current page and the maximum. *)
Lemma crawl_bounded fuel (c : Crawl W) :
  maxPages < max_int64 ->
  min_int64 <= currentPage c ->
  (Z.to_nat (maxPages - currentPage c + 1) < fuel)%nat ->
  exists e, crawl fuel maxPages cfg c = Some e
            /\ (length (pagesLog (exitCrawl e))
                <= length (pagesLog c) + Z.to_nat (maxPages - currentPage c + 1))%nat.
Proof.
  intros Hmax. revert c. induction fuel as [|fuel IH]; intros c Hmin Hfuel; [lia|].
  simpl crawl. destruct (currentPage c <=? maxPages) eqn:Hle.
  2: { eexists. split; [reflexivity|]. simpl. lia. }
  destruct (extractProfileURLs (world c)) as [[found|e] w1].
  2: { eexists. split; [reflexivity|]. simpl. lia. }
  destruct (collect found (seenProfiles c) (allProfiles c) 0) as [[seen all] newCount].
  unfold hasNextPage.
  destruct (scanNext nextButtonSelectors (humanScrollResults cfg w1)).
  2: { eexists. split; [reflexivity|]. simpl. rewrite length_app. simpl. lia. }
  destruct (clickNextPage cfg (humanScrollResults cfg w1)) as [[e|] w2].
  { eexists. split; [reflexivity|]. simpl. rewrite length_app. simpl. lia. }
  rewrite next_page_number by lia.
  destruct (stealth.RandomDelay _ _ _) as [d|].
  2: { eexists. split; [reflexivity|]. simpl. rewrite length_app. simpl. lia. }
  edestruct (IH {| seenProfiles := seen; allProfiles := all;
                   currentPage := currentPage c + 1;
                   pagesLog := pagesLog c ++ [(currentPage c, newCount)];
                   world := Sleep d (humanScrollOnce cfg (Sleep (mul64 3 Second) w2)) |})
    as (e & He & Hlen); [simpl; lia | simpl; lia |].
  exists e. split; [exact He|]. simpl in Hlen. rewrite length_app in Hlen.
  simpl in Hlen. lia.
Qed.

(** As long as extraction, the Next control and the click succeed, the
    loop goes on to the maximum, whatever each page contributes. *)
Lemma crawl_to_the_maximum fuel (c : Crawl W) :
  (forall w, exists found, fst (extractProfileURLs w) = inl found) ->
  (forall w, scanNext nextButtonSelectors w = true) ->
  (forall w, fst (clickNextPage cfg w) = None) ->
  maxPages < max_int64 ->
  min_int64 <= currentPage c ->
  (Z.to_nat (maxPages - currentPage c + 1) < fuel)%nat ->
  exists c', crawl fuel maxPages cfg c = Some (LeftLoop c')
             /\ (fst <$> pagesLog c')
                = (fst <$> pagesLog c)
                  ++ seqZ (currentPage c) (maxPages - currentPage c + 1).
Proof.
  intros Hextract Hnext Hclick Hmax. revert c.
  induction fuel as [|fuel IH]; intros c Hmin Hfuel; [lia|].
  simpl crawl. destruct (currentPage c <=? maxPages) eqn:Hle.
  2: { eexists. split; [reflexivity|]. rewrite seqZ_nil by lia. by rewrite app_nil_r. }
  destruct (Hextract (world c)) as [found Hfound].
  destruct (extractProfileURLs (world c)) as [[found'|e] w1]; simpl in Hfound; [|done].
  destruct (collect found' (seenProfiles c) (allProfiles c) 0) as [[seen all] newCount].
  unfold hasNextPage. rewrite Hnext.
  specialize (Hclick (humanScrollResults cfg w1)).
  destruct (clickNextPage cfg (humanScrollResults cfg w1)) as [[e|] w2];
    simpl in Hclick; [done|].
  rewrite next_page_number by lia.
  destruct (pagination_pause_returns
              (Rand_draw (humanScrollOnce cfg (Sleep (mul64 3 Second) w2)))
              (mul64 (MinDelayMs cfg) 3) (mul64 (MaxDelayMs cfg) 3))
    as [d Hd]; [apply wrap64_range..|].
  rewrite Hd.
  edestruct (IH {| seenProfiles := seen; allProfiles := all;
                   currentPage := currentPage c + 1;
                   pagesLog := pagesLog c ++ [(currentPage c, newCount)];
                   world := Sleep d (humanScrollOnce cfg (Sleep (mul64 3 Second) w2)) |})
    as (c' & Hc & Hlog); [simpl; lia | simpl; lia |].
  exists c'. split; [exact Hc|]. rewrite Hlog. simpl.
  rewrite fmap_app. simpl. rewrite <- app_assoc. simpl.
  rewrite (seqZ_cons (currentPage c)) by lia. do 3 f_equal; lia.
Qed.

End DiscoveryProps.

Section DiscoveryClaims.
Context {W : Type} `{!Env W} `{!search.Deps W}.
Import search.
#[local] Arguments scanNext : simpl never.

(** C9 (as amended).  The pagination loop does not look at the number of
    new candidates a page yields: provided the search, the extraction,
    the Next control and the click on it succeed, [FindPeople] processes
    every page from 1 to the page maximum (10 when [MaxPages] is 0) and
    returns without error, however few new candidates (even none) the
    pages contribute.  The loop stops early only on an extraction error,
    a missing or disabled Next control, or a failed click. *)
Theorem pagination_ignores_new_count params cfg (w : W) (fuel : nat) :
  (forall w, fst (performHumanSearch params cfg w) = None) ->
  (forall w, exists found, fst (extractProfileURLs w) = inl found) ->
  (forall w, scanNext nextButtonSelectors w = true) ->
  (forall w, fst (clickNextPage cfg w) = None) ->
  0 <= (if MaxPages params =? 0 then 10 else MaxPages params) < max_int64 ->
  (Z.to_nat (if (MaxPages params =? 0)%Z then 10%Z else MaxPages params) < fuel)%nat ->
  exists f,
    FindPeople fuel params cfg w = Some f
    /\ err f = None /\ panicked f = false
    /\ is_Some (profiles f)
    /\ (fst <$> pages f)
       = seqZ 1 (if MaxPages params =? 0 then 10 else MaxPages params).
Proof.
  intros Hsearch Hextract Hnext Hclick Hmax Hfuel.
  unfold FindPeople. specialize (Hsearch w).
  destruct (performHumanSearch params cfg w) as [[e|] w1]; simpl in Hsearch; [done|].
  unfold paginate.
  remember (if MaxPages params =? 0 then 10 else MaxPages params) as maxPages
    eqn:HmaxPages.
  edestruct (crawl_to_the_maximum maxPages cfg fuel
               {| seenProfiles := match loadSeenProfiles w with
                                  | inl seen => seen
                                  | inr _ => ∅
                                  end;
                  allProfiles := []; currentPage := 1; pagesLog := [];
                  world := humanScrollOnce cfg (Sleep (mul64 3 Second) w1) |})
    as (c' & Hc & Hlog);
    [ done | done | done | lia
    | cbn [currentPage]; unfold min_int64; lia
    | cbn [currentPage]; replace (maxPages - 1 + 1) with maxPages by lia; exact Hfuel
    | ].
  rewrite Hc. destruct (saveSeenProfiles (seenProfiles c') (world c')) as [serr w2].
  eexists. split; [reflexivity|]. simpl. split; [done|]. split; [done|].
  split; [eauto|]. rewrite Hlog. simpl. f_equal. lia.
Qed.

(** The loop does stop at the first page without a usable Next control. *)
Lemma pagination_stops_without_next params cfg (w : W) fuel :
  (forall w, fst (performHumanSearch params cfg w) = None) ->
  (forall w, exists found, fst (extractProfileURLs w) = inl found) ->
  (forall w, scanNext nextButtonSelectors w = false) ->
  1 <= (if MaxPages params =? 0 then 10 else MaxPages params) ->
  exists f,
    FindPeople (S fuel) params cfg w = Some f
    /\ err f = None /\ (fst <$> pages f) = [1].
Proof.
  intros Hsearch Hextract Hnext Hmax.
  unfold FindPeople. specialize (Hsearch w).
  destruct (performHumanSearch params cfg w) as [[e|] w1]; simpl in Hsearch; [done|].
  unfold paginate. simpl crawl. cbn [currentPage world].
  destruct (1 <=? (if MaxPages params =? 0 then 10 else MaxPages params)) eqn:E; [|lia].
  destruct (Hextract (humanScrollOnce cfg (Sleep (mul64 3 Second) w1))) as [found Hf].
  destruct (extractProfileURLs _) as [[found'|e] w2]; simpl in Hf; [|done].
  destruct (collect found' _ _ 0) as [[seen all] newCount].
  unfold hasNextPage. rewrite Hnext. cbn [seenProfiles world].
  destruct (saveSeenProfiles seen (humanScrollResults cfg w2)) as [serr w3].
  eexists. split; [reflexivity|]. done.
Qed.

(** C10.  With [MaxPages] equal to 0 the pagination loop ends (eleven
    units of fuel are always enough for the model to follow it to its
    end) after having processed at most 10 result pages: the zero value
    is replaced by the cap of 10, it does not lift the limit. *)
Theorem zero_max_pages_means_ten params cfg (w : W) fuel :
  MaxPages params = 0 ->
  (10 < fuel)%nat ->
  exists f, FindPeople fuel params cfg w = Some f
            /\ (length (pages f) <= 10)%nat.
Proof.
  intros Hzero Hfuel.
  assert (Hpag : forall seen w1, exists f,
             paginate fuel params cfg seen w1 = Some f
             /\ (length (pages f) <= 10)%nat).
  { intros seen w1. unfold paginate. rewrite Hzero. simpl.
    edestruct (crawl_bounded 10 cfg fuel
                 {| seenProfiles := seen; allProfiles := []; currentPage := 1;
                    pagesLog := [];
                    world := humanScrollOnce cfg (Sleep (mul64 3 Second) w1) |})
      as (e & He & Hlen); [by vm_compute | by vm_compute | simpl; lia |].
    rewrite He. simpl in Hlen.
    destruct e as [msg c|c|c]; simpl in Hlen;
      [| destruct (saveSeenProfiles (seenProfiles c) (world c)) |];
      (eexists; split; [reflexivity|]; simpl; lia). }
  unfold FindPeople.
  destruct (performHumanSearch params cfg w) as [[e|] w1]; [|apply Hpag].
  destruct (buildSearchURL params) as [url|e'].
  2: { eexists. split; [reflexivity|]. simpl. lia. }
  destruct (Navigate url w1) as [[e'|] w2].
  { eexists. split; [reflexivity|]. simpl. lia. }
  destruct (WaitLoad w2) as [[e'|] w3]; [|apply Hpag].
  eexists. split; [reflexivity|]. simpl. lia.
Qed.

End DiscoveryClaims.

Lemma pagination_ignores_new_count_witness :
  exists f,
    search.FindPeople 20 (searchParams 3) timing firstPage = Some f
    /\ search.err f = None
    /\ (fst <$> search.pages f) = [1; 2; 3].
Proof.
  destruct (pagination_ignores_new_count (searchParams 3) timing firstPage 20)
    as (f & Hrun & Herr & _ & _ & Hpages).
  - intros w. reflexivity.
  - intros w. eexists. reflexivity.
  - intros w. reflexivity.
  - intros w. reflexivity.
  - vm_compute. split; [discriminate|reflexivity].
  - vm_compute. lia.
  - exists f. split; [exact Hrun|]. split; [exact Herr|exact Hpages].
Defined.

(** C9 fails as stated: of three result pages the second lists only
    the profile already collected from the first, so it yields zero new
    candidates; the loop nevertheless goes on to the third page, collects
    its profile, and stops there because that page has no Next control. *)
Lemma zero_new_does_not_stop_counterexample :
  exists f,
    search.FindPeople 20 (searchParams 5) timing threePages = Some f
    /\ search.pages f = [(1, 1); (2, 0); (3, 1)]
    /\ search.profiles f = Some ["/in/ada"; "/in/grace"].
Proof. eexists. split; [vm_compute; reflexivity|]. vm_compute. done. Qed.

Lemma zero_max_pages_means_ten_witness :
  exists f,
    search.FindPeople 11 (searchParams 0) timing firstPage = Some f
    /\ (length (search.pages f) <= 10)%nat.
Proof.
  apply (zero_max_pages_means_ten (searchParams 0) timing firstPage 11).
  - reflexivity.
  - lia.
Defined.

(** The cap is reached when the pages do not run out. *)
Lemma zero_max_pages_reaches_ten :
  exists f,
    search.FindPeople 11 (searchParams 0) timing firstPage = Some f
    /\ length (search.pages f) = 10%nat.
Proof. eexists. split; [vm_compute; reflexivity|]. vm_compute. done. Qed.

(* ===================================================================== *)
(** * Part III: further properties of the code *)
(* ===================================================================== *)


(* --------------------------------------------------------------------- *)
(** ** More on the connection campaign *)

Section ConnectMore.
Context {W : Type} `{!Env W} `{!connect.Deps W}.
Import connect.

Variables (reqCfg : RequestConfig) (timingCfg : TimingConfig).

Ltac one_pass url rest l Hl l1 :=
  simpl in Hl;
  let Hp := fresh "Hp" in
  pose proof (iteration_pass reqCfg timingCfg url rest l) as Hp;
  destruct (iteration reqCfg timingCfg url rest l) as [l1|l1|];
  inversion Hp as [l0 Hq Hst Hw Hsc Hsk Hec Hpr Hvi Hdu Hsf
                  |l0 Hq Hat Hst Hw Hsc Hsk Hec Hpr Hvi Hdu Hsf
                  |l0 e w0 Hq Hat Hsend Hst Hsc Hsk Hec Hpr Hvi Hdu Hsf
                  |l0 w0 Hq Hat Hsend Hst Hsc Hsk Hec Hpr Hvi Hdu Hsf
                  |Hq Hat Hsend]; subst.

(** The counters and the log of the loop agree. *)
Lemma loop_accounting profiles (l l' : Loop W) :
  loop reqCfg timingCfg profiles l = Returns l' ->
  exists ps ds,
    processed (log l') = processed (log l) ++ ps
    /\ duplicates (log l') = duplicates (log l) ++ ds
    /\ (successCount l' - successCount l) + (errorCount l' - errorCount l)
       = Z.of_nat (length ps)
    /\ skipCount l' - skipCount l = Z.of_nat (length ds)
    /\ successCount l <= successCount l'
    /\ errorCount l <= errorCount l'
    /\ (length ps + length ds <= length profiles)%nat.
Proof.
  revert l. induction profiles as [|url rest IH]; intros l Hl.
  { injection Hl as <-. exists [], []. rewrite !app_nil_r. simpl.
    repeat split; try done; lia. }
  one_pass url rest l Hl l1.
  - injection Hl as <-. exists [], []. rewrite !app_nil_r, Hpr, Hdu, Hsc, Hsk, Hec.
    simpl. repeat split; try done; lia.
  - destruct (IH _ Hl) as (ps & ds & H1 & H2 & H3 & H4 & H5 & H6 & H7).
    exists ps, (url :: ds). rewrite H1, H2, Hpr, Hdu, <- app_assoc. simpl.
    repeat split; try done; lia.
  - destruct (IH _ Hl) as (ps & ds & H1 & H2 & H3 & H4 & H5 & H6 & H7).
    exists (url :: ps), ds. rewrite H1, H2, Hpr, Hdu, <- app_assoc. simpl.
    repeat split; try done; lia.
  - destruct (IH _ Hl) as (ps & ds & H1 & H2 & H3 & H4 & H5 & H6 & H7).
    exists (url :: ps), ds. rewrite H1, H2, Hpr, Hdu, <- app_assoc. simpl.
    repeat split; try done; lia.
  - done.
Qed.


(** What the loop records, and what it leaves alone. *)
Lemma loop_records profiles (l l' : Loop W) :
  loop reqCfg timingCfg profiles l = Returns l' ->
  exists ps,
    processed (log l') = processed (log l) ++ ps
    /\ (forall url, url ∈ ps ->
          AttemptedProfiles (state l') !! url = Some true
          /\ (is_Some (SuccessfulSends (state l') !! url)
              \/ is_Some (FailedAttempts (state l') !! url)))
    /\ (forall url, url ∉ ps ->
          AttemptedProfiles (state l') !! url = AttemptedProfiles (state l) !! url
          /\ SuccessfulSends (state l') !! url = SuccessfulSends (state l) !! url
          /\ FailedAttempts (state l') !! url = FailedAttempts (state l) !! url)
    /\ (forall url, is_Some (SuccessfulSends (state l) !! url) ->
                    is_Some (SuccessfulSends (state l') !! url))
    /\ (forall url, is_Some (FailedAttempts (state l) !! url) ->
                    is_Some (FailedAttempts (state l') !! url))
    /\ (forall url, AttemptedProfiles (state l) !! url = Some true ->
                    AttemptedProfiles (state l') !! url = Some true).
Proof.
  revert l. induction profiles as [|url rest IH]; intros l Hl.
  { injection Hl as <-. exists []. rewrite app_nil_r. split; [done|].
    split; [intros u Hu; by apply elem_of_nil in Hu|done]. }
  one_pass url rest l Hl l1.
  - injection Hl as <-. exists []. rewrite app_nil_r, Hst. split; [done|].
    split; [intros u Hu; by apply elem_of_nil in Hu|done].
  - destruct (IH _ Hl) as (ps & H1 & H2 & H3 & H4 & H5 & H6). exists ps.
    rewrite Hst, Hpr in *. done.
  - destruct (IH _ Hl) as (ps & H1 & H2 & H3 & H4 & H5 & H6). exists (url :: ps).
    rewrite Hst, Hpr, <- app_assoc in *. simpl in *. split; [done|].
    assert (Ha : AttemptedProfiles (state l') !! url = Some true)
      by (apply H6; by rewrite lookup_insert_eq).
    assert (Hf : is_Some (FailedAttempts (state l') !! url))
      by (apply H5; rewrite lookup_insert_eq; eauto).
    split; [|split; [|split; [|split]]].
    + intros u [->|Hu]%elem_of_cons; [split; [done|by right]|by apply H2].
    + intros u [Hne Hu]%not_elem_of_cons. destruct (H3 u Hu) as (-> & -> & ->).
      rewrite !lookup_insert_ne by done. done.
    + done.
    + intros u Hu. apply H5. rewrite lookup_insert. case_decide; [eauto|done].
    + intros u Hu. apply H6. rewrite lookup_insert. case_decide; [done|done].
  - destruct (IH _ Hl) as (ps & H1 & H2 & H3 & H4 & H5 & H6). exists (url :: ps).
    rewrite Hst, Hpr, <- app_assoc in *. simpl in *. split; [done|].
    assert (Ha : AttemptedProfiles (state l') !! url = Some true)
      by (apply H6; by rewrite lookup_insert_eq).
    assert (Hs : is_Some (SuccessfulSends (state l') !! url))
      by (apply H4; rewrite lookup_insert_eq; eauto).
    split; [|split; [|split; [|split]]].
    + intros u [->|Hu]%elem_of_cons; [split; [done|by left]|by apply H2].
    + intros u [Hne Hu]%not_elem_of_cons. destruct (H3 u Hu) as (-> & -> & ->).
      rewrite !lookup_insert_ne by done. done.
    + intros u Hu. apply H4. rewrite lookup_insert. case_decide; [eauto|done].
    + done.
    + intros u Hu. apply H6. rewrite lookup_insert. case_decide; [done|done].
  - done.
Qed.

(** When every step fails the loop still goes through the whole list. *)
Lemma loop_all_failed profiles (l l' : Loop W) :
  (forall url w, exists e w',
      sendConnectionRequest url reqCfg timingCfg w = Returns (Some e, w')) ->
  loop reqCfg timingCfg profiles l = Returns l' ->
  RequestsSentToday (state l) < MaxPerDay reqCfg ->
  visited (log l') = visited (log l) ++ profiles
  /\ RequestsSentToday (state l') = RequestsSentToday (state l)
  /\ successCount l' = successCount l
  /\ SuccessfulSends (state l') = SuccessfulSends (state l)
  /\ exists ps, processed (log l') = processed (log l) ++ ps
                /\ forall url, url ∈ ps -> is_Some (FailedAttempts (state l') !! url).
Proof.
  intros Hfail. revert l. induction profiles as [|url rest IH]; intros l Hl Hq0.
  { injection Hl as <-. rewrite app_nil_r. repeat split; try done.
    exists []. rewrite app_nil_r. split; [done|]. intros u Hu. by apply elem_of_nil in Hu. }
  one_pass url rest l Hl l1.
  - lia.
  - destruct (IH _ Hl) as (H1 & H2 & H3 & H4 & ps & H5 & H6); [by rewrite Hst|].
    rewrite H1, H2, H3, H4, Hvi, Hst, Hsc, <- app_assoc. repeat split; try done.
    exists ps. by rewrite H5, Hpr.
  - destruct (IH _ Hl) as (H1 & H2 & H3 & H4 & ps & H5 & H6); [by rewrite Hst|].
    destruct (loop_records _ _ _ Hl) as (_ & _ & _ & _ & _ & Hkeep & _).
    rewrite H1, H2, H3, H4, Hvi, Hst, Hsc, <- app_assoc. repeat split; try done.
    exists (url :: ps). rewrite H5, Hpr, <- app_assoc. split; [done|].
    intros u [->|Hu]%elem_of_cons; [|by apply H6].
    apply Hkeep. rewrite Hst. simpl. rewrite lookup_insert_eq. eauto.
  - destruct (Hfail url (world l)) as (e & w' & Hw'). congruence.
  - done.
Qed.

(** Where no step panics, a call of [SendRequests] returns. *)
Lemma SendRequests_returns profiles (w : W) :
  (forall url w', sendConnectionRequest url reqCfg timingCfg w' <> Panics) ->
  exists r, SendRequests profiles reqCfg timingCfg w = Returns r.
Proof.
  intros Hgoes. unfold SendRequests. destruct profiles as [|url rest]; [eauto|].
  destruct (startState w) as [st lg].
  destruct (MaxPerDay reqCfg <=? RequestsSentToday st); [eauto|].
  destruct (loop_returns reqCfg timingCfg (url :: rest)
              {| state := st; successCount := 0; skipCount := 0; errorCount := 0;
                 world := w; log := lg |} Hgoes) as [l' Hl].
  rewrite Hl. eauto.
Qed.

(** The three ways a call of [SendRequests] that returns has gone. *)
Lemma SendRequests_cases profiles (w : W) r :
  SendRequests profiles reqCfg timingCfg w = Returns r ->
  (profiles = [] /\ ret r = None /\ final r = None /\ after r = w
   /\ successful r = 0 /\ skipped r = 0 /\ errors r = 0
   /\ processed (trace r) = [] /\ visited (trace r) = []
   /\ duplicates (trace r) = [])
  \/ (profiles <> []
      /\ MaxPerDay reqCfg <= RequestsSentToday (entryState w)
      /\ ret r = Some (limitMessage (RequestsSentToday (entryState w))
                         (MaxPerDay reqCfg))
      /\ final r = Some (entryState w) /\ after r = w
      /\ successful r = 0 /\ skipped r = 0 /\ errors r = 0
      /\ processed (trace r) = [] /\ visited (trace r) = []
      /\ duplicates (trace r) = [])
  \/ (profiles <> []
      /\ RequestsSentToday (entryState w) < MaxPerDay reqCfg
      /\ ret r = None
      /\ exists l l',
           loop reqCfg timingCfg profiles l = Returns l'
           /\ state l = entryState w /\ world l = w
           /\ successCount l = 0 /\ skipCount l = 0 /\ errorCount l = 0
           /\ processed (log l) = [] /\ visited (log l) = []
           /\ duplicates (log l) = []
           /\ final r = Some (state l') /\ after r = world l'
           /\ successful r = successCount l' /\ skipped r = skipCount l'
           /\ errors r = errorCount l'
           /\ processed (trace r) = processed (log l')
           /\ visited (trace r) = visited (log l')
           /\ duplicates (trace r) = duplicates (log l')).
Proof.
  unfold SendRequests, entryState. destruct profiles as [|url rest].
  { intros [= <-]. left. done. }
  pose proof (startState_observations w) as (Hp & Hv & Hd & _).
  destruct (startState w) as [st lg]. cbn [fst snd] in *.
  destruct (MaxPerDay reqCfg <=? RequestsSentToday st) eqn:Hq.
  { intros [= <-]. right. left. simpl.
    destruct (limit_observations lg (RequestsSentToday st) (MaxPerDay reqCfg))
      as (-> & -> & -> & _).
    repeat split; try done. lia. }
  destruct (loop reqCfg timingCfg (url :: rest) _) as [l'|] eqn:Hl; [|done].
  intros [= <-]. right. right.
  cbn [ret final after successful skipped errors trace].
  destruct (completed_observations (log l') (successCount l') (skipCount l')
              (errorCount l') (RequestsSentToday (state l')) (MaxPerDay reqCfg))
    as (-> & -> & -> & _).
  split; [done|]. split; [lia|]. split; [done|].
  eexists _, l'. split; [exact Hl|]. simpl. done.
Qed.

(** X1.  A state stored on an earlier day is rolled over when a run
    starts: the counter of the day restarts at 0 whatever it was, and the
    attempted, succeeded and failed records are kept.  The quota being
    positive, every run that returns has returned nil, has processed the
    first profile of the list (if not attempted before) first, and ends
    with a state that carries today's date. *)
Theorem stale_day_is_rolled_over url rest (w : W) st :
  loadConnectionState w = inl st ->
  Date st <> Now_date w ->
  0 < MaxPerDay reqCfg ->
  attempted st url = false ->
  RequestsSentToday (entryState w) = 0
  /\ AttemptedProfiles (entryState w) = AttemptedProfiles st
  /\ SuccessfulSends (entryState w) = SuccessfulSends st
  /\ FailedAttempts (entryState w) = FailedAttempts st
  /\ forall r,
       SendRequests (url :: rest) reqCfg timingCfg w = Returns r ->
       ret r = None
       /\ (exists ps, processed (trace r) = url :: ps)
       /\ Date (stateAfter w r) = Now_date w.
Proof.
  intros Hload Hdate Hpos Hat.
  assert (Hentry : entryState w
                   = {| Date := Now_date w; RequestsSentToday := 0;
                        AttemptedProfiles := AttemptedProfiles st;
                        SuccessfulSends := SuccessfulSends st;
                        FailedAttempts := FailedAttempts st |}).
  { unfold entryState, startState. rewrite Hload.
    apply String.eqb_neq in Hdate. by rewrite Hdate. }
  assert (Hzero : RequestsSentToday (entryState w) = 0) by by rewrite Hentry.
  split; [done|]. split; [by rewrite Hentry|]. split; [by rewrite Hentry|].
  split; [by rewrite Hentry|].
  intros r Hrun.
  pose proof (SendRequests_cases (url :: rest) w r Hrun) as Hcases.
  destruct Hcases as [(Hnil & _)|[(_ & Hq & _)|(_ & _ & Hret & l & l' & Hl & Hst
    & Hw & Hsc & Hsk & Hec & Hp & Hv & Hd & Hfin & Haft & Hsu & Hski & Her & Hpr & _)]];
    [done|lia|].
  rewrite Hentry in Hst. clear Hrun. split; [done|]. split.
  - simpl in Hl.
    pose proof (iteration_pass reqCfg timingCfg url rest l) as Hpass.
    destruct (iteration reqCfg timingCfg url rest l) as [l1|l1|];
      inversion Hpass as [l0 Hq' Hst' Hw' Hsc' Hsk' Hec' Hpr' Hvi' Hdu' Hsf'
                         |l0 Hq' Hat' Hst' Hw' Hsc' Hsk' Hec' Hpr' Hvi' Hdu' Hsf'
                         |l0 e w0 Hq' Hat' Hsend Hst' Hsc' Hsk' Hec' Hpr' Hvi' Hdu' Hsf'
                         |l0 w0 Hq' Hat' Hsend Hst' Hsc' Hsk' Hec' Hpr' Hvi' Hdu' Hsf'
                         |Hq' Hat' Hsend];
      subst; rewrite Hst in *; simpl in *; try lia;
      try (unfold attempted in *; simpl in *; congruence).
    + destruct (loop_accounting _ _ _ Hl) as (ps & ds & H1 & _).
      exists ps. rewrite Hpr, H1, Hpr', Hp. done.
    + destruct (loop_accounting _ _ _ Hl) as (ps & ds & H1 & _).
      exists ps. rewrite Hpr, H1, Hpr', Hp. done.
  - unfold stateAfter. rewrite Hfin. simpl.
    destruct (loop_frame _ _ _ _ _ Hl) as [-> _]. by rewrite Hst.
Qed.


(** X3.  The counts a run that returns reports agree with what it did:
    successes plus errors is the number of profiles whose step was
    invoked, the skipped count is the number of profiles passed over as
    already attempted, and together they never exceed the length of the
    list. *)
Theorem counts_match_the_log profiles (w : W) r :
  SendRequests profiles reqCfg timingCfg w = Returns r ->
  successful r + errors r = Z.of_nat (length (processed (trace r)))
  /\ skipped r = Z.of_nat (length (duplicates (trace r)))
  /\ 0 <= successful r /\ 0 <= errors r
  /\ successful r + skipped r + errors r <= Z.of_nat (length profiles).
Proof.
  intros Hrun.
  pose proof (SendRequests_cases profiles w r Hrun) as Hcases.
  destruct Hcases as [(_ & _ & _ & _ & -> & -> & -> & -> & _ & ->)
    |[(_ & _ & _ & _ & _ & -> & -> & -> & -> & _ & ->)
    |(_ & Hq & _ & l & l' & Hl & Hst & Hw & Hsc & Hsk & Hec & Hp & Hv & Hd & _ & _
      & -> & -> & -> & -> & _ & ->)]]; simpl; try lia.
  destruct (loop_accounting _ _ _ Hl) as (ps & ds & H1 & H2 & H3 & H4 & H5 & H6 & H7).
  rewrite H1, H2, Hp, Hd. simpl. rewrite Hsc, Hsk, Hec in *. lia.
Qed.

(** X4.  When a run returns, every profile whose step was invoked is
    marked as attempted and recorded as succeeded or as failed; for every
    other profile the attempted, succeeded and failed records are exactly
    what they were at entry. *)
Theorem run_records_what_it_processes profiles (w : W) r :
  SendRequests profiles reqCfg timingCfg w = Returns r ->
  (forall url, url ∈ processed (trace r) ->
     AttemptedProfiles (stateAfter w r) !! url = Some true
     /\ (is_Some (SuccessfulSends (stateAfter w r) !! url)
         \/ is_Some (FailedAttempts (stateAfter w r) !! url)))
  /\ (forall url, url ∉ processed (trace r) ->
        AttemptedProfiles (stateAfter w r) !! url
        = AttemptedProfiles (entryState w) !! url
        /\ SuccessfulSends (stateAfter w r) !! url
           = SuccessfulSends (entryState w) !! url
        /\ FailedAttempts (stateAfter w r) !! url
           = FailedAttempts (entryState w) !! url).
Proof.
  intros Hrun.
  pose proof (SendRequests_cases profiles w r Hrun) as Hcases.
  unfold stateAfter.
  destruct Hcases as [(_ & _ & -> & _ & _ & _ & _ & -> & _)
    |[(_ & _ & _ & -> & _ & _ & _ & _ & -> & _)
    |(_ & Hq & _ & l & l' & Hl & Hst & Hw & Hsc & Hsk & Hec & Hp & Hv & Hd & -> & _
      & _ & _ & _ & -> & _)]]; simpl;
    try (split; [intros u Hu; by apply elem_of_nil in Hu|done]).
  destruct (loop_records _ _ _ Hl) as (ps & H1 & H2 & H3 & _).
  rewrite Hp in H1. simpl in H1. rewrite H1, <- Hst. done.
Qed.

(** X5.  Errors of the step never stop a run: if every step fails and
    the quota is not exhausted at entry, the run still returns nil, has
    gone through the whole list in order, has recorded each processed
    profile as failed, and has left the counter of the day and the
    success records unchanged. *)
Theorem failures_do_not_stop_the_run profiles (w : W) :
  (forall url w', exists e w'',
      sendConnectionRequest url reqCfg timingCfg w' = Returns (Some e, w'')) ->
  RequestsSentToday (entryState w) < MaxPerDay reqCfg ->
  exists r,
    SendRequests profiles reqCfg timingCfg w = Returns r
    /\ ret r = None
    /\ visited (trace r) = profiles
    /\ successful r = 0
    /\ RequestsSentToday (stateAfter w r) = RequestsSentToday (entryState w)
    /\ SuccessfulSends (stateAfter w r) = SuccessfulSends (entryState w)
    /\ forall url, url ∈ processed (trace r) ->
                   is_Some (FailedAttempts (stateAfter w r) !! url).
Proof.
  intros Hfail Hq0.
  destruct (SendRequests_returns profiles w) as [r Hrun].
  { intros u w' Hpanic. destruct (Hfail u w') as (e & w'' & Hw''). congruence. }
  pose proof (SendRequests_cases profiles w r Hrun) as Hcases.
  exists r. split; [done|]. unfold stateAfter.
  destruct Hcases as [(-> & -> & -> & _ & -> & _ & _ & -> & -> & _)
    |[(_ & Hq & _)
    |(_ & Hq & -> & l & l' & Hl & Hst & Hw & Hsc & Hsk & Hec & Hp & Hv & Hd & -> & _
      & -> & _ & _ & -> & -> & _)]]; simpl; [|lia|].
  { repeat split; try done. intros u Hu. by apply elem_of_nil in Hu. }
  destruct (loop_all_failed _ _ _ Hfail Hl) as (H1 & H2 & H3 & H4 & ps & H5 & H6);
    [by rewrite Hst|].
  rewrite H1, H2, H3, H4, H5, Hv, Hp, Hst, Hsc. simpl. done.
Qed.

End ConnectMore.

Section LocatorMore.
Context {W : Type} `{!Env W} `{!connect.Deps W}.
Import connect.

Lemma scanConnect_found sels (w : W) btn :
  scanConnect sels w = Some btn ->
  exists sel, sel ∈ sels /\ Element sel w = Some btn /\ saysConnect btn = true.
Proof.
  induction sels as [|sel sels IH]; simpl; [done|].
  destruct (Element sel w) as [el|] eqn:Hel.
  2: { intros H'. destruct (IH H') as (s & Hs & Hs'). exists s.
       split; [by apply list_elem_of_further|done]. }
  unfold saysConnect in *.
  destruct (match el_text el with Some text => _ | None => false end) eqn:Ht.
  { intros [= <-]. exists sel. split; [apply list_elem_of_here|]. split; [done|].
    by rewrite Ht. }
  destruct (match el_attr el "aria-label" with Some (Some a) => _ | _ => false end) eqn:Ha.
  { intros [= <-]. exists sel. split; [apply list_elem_of_here|]. split; [done|].
    by rewrite Ht, Ha. }
  intros H'. destruct (IH H') as (s & Hs & Hs'). exists s.
  split; [by apply list_elem_of_further|done].
Qed.

Lemma scanConnect_none sels (w : W) :
  scanConnect sels w = None ->
  forall sel el, sel ∈ sels -> Element sel w = Some el -> saysConnect el = false.
Proof.
  induction sels as [|sel sels IH]; simpl; intros Hscan s el Hs Hel.
  { by apply elem_of_nil in Hs. }
  destruct (Element sel w) as [el'|] eqn:Hel'.
  2: { apply elem_of_cons in Hs as [->|Hs]; [congruence|by eapply IH]. }
  unfold saysConnect in *.
  destruct (match el_text el' with Some text => _ | None => false end) eqn:Ht; [done|].
  destruct (match el_attr el' "aria-label" with Some (Some a) => _ | _ => false end)
    eqn:Ha; [done|].
  apply elem_of_cons in Hs as [->|Hs]; [|by eapply IH].
  rewrite Hel' in Hel. injection Hel as <-. by rewrite Ht, Ha.
Qed.

(** X6.  [findConnectButton] never hands back an element that does not
    say "connect": a returned button is the element of one of the Connect
    selectors and passes the check on its text or aria-label; and when an
    error is returned, no element found by any Connect selector passes
    that check. *)
Theorem found_button_says_connect (w : W) :
  match findConnectButton w with
  | inl btn =>
      exists sel, sel ∈ connectSelectors /\ Element sel w = Some btn
                  /\ saysConnect btn = true
  | inr e =>
      (forall sel el, sel ∈ connectSelectors -> Element sel w = Some el ->
                      saysConnect el = false)
      /\ (e = notFoundMessage
          \/ exists reason, e = "connect unavailable: " +:+ reason
                            /\ reason ∈ (snd <$> unavailableReasons))
  end.
Proof.
  unfold findConnectButton.
  destruct (scanConnect connectSelectors w) as [btn|] eqn:Hscan.
  { by apply scanConnect_found. }
  assert (Hreason : forall checks reason,
            scanUnavailable checks w = Some reason -> reason ∈ (snd <$> checks)).
  { induction checks as [|[s rsn] checks IH]; simpl; [done|]. intros reason.
    destruct (Element s w).
    - intros [= <-]. apply list_elem_of_here.
    - intros H'. apply list_elem_of_further. by apply IH. }
  destruct (scanUnavailable unavailableReasons w) as [reason|] eqn:Hun.
  - split; [by apply scanConnect_none|]. right. exists reason. split; [done|].
    by apply Hreason.
  - split; [by apply scanConnect_none|]. by left.
Qed.

End LocatorMore.


Lemma stale_day_is_rolled_over_witness :
  connect.RequestsSentToday
    (entryState (laterRun connectablePage true today staleState)) = 0
  /\ exists r ps,
       connect.SendRequests [grace; linus] (requestConfig 2) timing
         (laterRun connectablePage true today staleState) = Returns r
       /\ processed (connect.trace r) = grace :: ps.
Proof.
  destruct (stale_day_is_rolled_over (requestConfig 2) timing grace [linus]
              (laterRun connectablePage true today staleState) staleState)
    as (Hzero & _ & _ & _ & Hrun).
  - reflexivity.
  - vm_compute. discriminate.
  - simpl. lia.
  - vm_compute. reflexivity.
  - split; [exact Hzero|].
    destruct (connect.SendRequests [grace; linus] (requestConfig 2) timing
                (laterRun connectablePage true today staleState)) as [r|] eqn:Hr.
    + destruct (Hrun r eq_refl) as (_ & (ps & Hps) & _).
      exists r, ps. split; [reflexivity|exact Hps].
    + vm_compute in Hr. discriminate Hr.
Defined.


Lemma counts_match_the_log_witness :
  exists r,
    connect.SendRequests [ada; ada; grace] (requestConfig 5) timing
      (firstRun connectablePage true today) = Returns r
    /\ connect.successful r + connect.errors r
       = Z.of_nat (length (processed (connect.trace r)))
    /\ connect.skipped r = Z.of_nat (length (duplicates (connect.trace r))).
Proof.
  destruct (connect.SendRequests [ada; ada; grace] (requestConfig 5) timing
              (firstRun connectablePage true today)) as [r|] eqn:Hr.
  - exists r. split; [reflexivity|].
    destruct (counts_match_the_log (requestConfig 5) timing [ada; ada; grace]
                (firstRun connectablePage true today) r Hr) as (Hsum & Hskip & _).
    split; [exact Hsum|exact Hskip].
  - vm_compute in Hr. discriminate Hr.
Defined.

Lemma run_records_what_it_processes_witness :
  exists r,
    connect.SendRequests [ada; grace; linus] (requestConfig 2) timing
      (firstRun connectablePage true today) = Returns r
    /\ forall url, url ∈ processed (connect.trace r) ->
         connect.AttemptedProfiles
           (stateAfter (firstRun connectablePage true today) r) !! url = Some true.
Proof.
  destruct (connect.SendRequests [ada; grace; linus] (requestConfig 2) timing
              (firstRun connectablePage true today)) as [r|] eqn:Hr.
  - exists r. split; [reflexivity|]. intros url Hurl.
    exact (proj1 (proj1 (run_records_what_it_processes (requestConfig 2) timing
                           [ada; grace; linus]
                           (firstRun connectablePage true today) r Hr) url Hurl)).
  - vm_compute in Hr. discriminate Hr.
Defined.

Lemma failures_do_not_stop_the_run_witness :
  exists r,
    connect.SendRequests [ada; grace; linus] (requestConfig 2) timing
      (firstRun followingPage true today) = Returns r
    /\ connect.ret r = None
    /\ visited (connect.trace r) = [ada; grace; linus]
    /\ connect.successful r = 0.
Proof.
  destruct (failures_do_not_stop_the_run (requestConfig 2) timing [ada; grace; linus]
              (firstRun followingPage true today))
    as (r & Hrun & Hret & Hvis & Hsucc & _).
  - intros url w'. eexists _, w'. vm_compute. reflexivity.
  - vm_compute. reflexivity.
  - exists r. split; [exact Hrun|]. split; [exact Hret|]. split; [exact Hvis|exact Hsucc].
Defined.

Section MessagingMore.
Context {W : Type} `{!Env W} `{!messaging.Deps W}.
Import messaging.

Variables (cfg : FollowUpConfig) (timingCfg : TimingConfig).

Ltac sent_log_facts :=
  unfold messageAttempts, sentMessages;
  rewrite ?omap_app; simpl; rewrite ?app_nil_r; try reflexivity.

(** What one pass through the body of the follow-up loop does to the
    state and to the log. *)
Lemma iteration_followup_step url rest (l : Loop W) :
  match iteration cfg timingCfg url rest l with
  | Break l' =>
      MaxPerDay cfg <= MessagesSentToday (state l)
      /\ state l' = state l
      /\ messageAttempts (log l') = messageAttempts (log l)
      /\ sentMessages (log l') = sentMessages (log l)
  | Continue l' =>
      MessagesSentToday (state l) < MaxPerDay cfg
      /\ Date (state l') = Date (state l)
      /\ ((state l' = state l
           /\ messageAttempts (log l') = messageAttempts (log l)
           /\ sentMessages (log l') = sentMessages (log l))
          \/ (messaged (state l) url = false
              /\ messageAttempts (log l') = messageAttempts (log l) ++ [url]
              /\ exists record,
                   MessagedProfiles (state l')
                   = <[url := record]> (MessagedProfiles (state l))
                   /\ ((Success record = false
                        /\ MessagesSentToday (state l') = MessagesSentToday (state l)
                        /\ sentMessages (log l') = sentMessages (log l))
                       \/ (Success record = true
                           /\ MessageSent record = MessageTemplate cfg
                           /\ MessagesSentToday (state l')
                              = add64 (MessagesSentToday (state l)) 1
                           /\ sentMessages (log l') = sentMessages (log l) ++ [url]))))
  | Panic => False
  end.
Proof.
  unfold iteration.
  destruct (MaxPerDay cfg <=? MessagesSentToday (state l)) eqn:Hlim.
  { simpl. split; [lia|]. split; [done|]. split; sent_log_facts. }
  destruct (messaged (state l) url) eqn:Hm.
  { simpl. split; [lia|]. split; [done|]. left. split; [done|]. split; sent_log_facts. }
  destruct (checkIfConnected url (world l)) as [[b [e|]] w] eqn:Hcheck.
  { destruct b; simpl; (split; [lia|]); (split; [done|]); left; (split; [done|]);
      split; sent_log_facts. }
  destruct b.
  2: { simpl. split; [lia|]. split; [done|]. left. split; [done|]. split; sent_log_facts. }
  destruct (sendFollowUpMessage url cfg timingCfg w) as [[e|] w1] eqn:Hsend;
    cbn [state world log successCount skipCount notConnectedCount errorCount];
    destruct (saveMessageState _ w1) as [[serr|] w2] eqn:Hsave;
    destruct (followup_pacing_returns cfg w2) as [d Hd];
    destruct rest; rewrite ?Hd; cbn [state log Date MessagesSentToday MessagedProfiles];
    (split; [lia|]); (split; [done|]); right; (split; [done|]);
    (split; [sent_log_facts|]); eexists; (split; [reflexivity|]).
  1-4: left; split; [done|]; split; [done|]; sent_log_facts.
  all: right; split; [done|]; split; [done|]; split; [done|]; sent_log_facts.
Qed.

Lemma messaged_insert_ne (st st' : MessageState) url record u :
  MessagedProfiles st' = <[url := record]> (MessagedProfiles st) ->
  u <> url -> messaged st' u = messaged st u.
Proof. intros Heq Hne. unfold messaged. by rewrite Heq, lookup_insert_ne. Qed.

Lemma messaged_insert_eq (st st' : MessageState) url record :
  MessagedProfiles st' = <[url := record]> (MessagedProfiles st) ->
  messaged st' url = Success record.
Proof. intros Heq. unfold messaged. by rewrite Heq, lookup_insert_eq. Qed.

(** The sends of the loop: who was tried, who was reached, and what the
    records say afterwards. *)
Lemma followup_loop_sends profiles (l l' : Loop W) :
  loop cfg timingCfg profiles l = Returns l' ->
  Date (state l') = Date (state l)
  /\ exists ats ss,
       messageAttempts (log l') = messageAttempts (log l) ++ ats
       /\ sentMessages (log l') = sentMessages (log l) ++ ss
       /\ NoDup ss
       /\ (forall u, u ∈ ss -> u ∈ ats)
       /\ (forall u, u ∈ ats -> u ∈ profiles /\ messaged (state l) u = false
                                /\ is_Some (MessagedProfiles (state l') !! u))
       /\ (forall u, u ∈ ats -> (messaged (state l') u = true <-> u ∈ ss))
       /\ (forall u, u ∉ ats ->
             MessagedProfiles (state l') !! u = MessagedProfiles (state l) !! u)
       /\ (in_int64 (MessagesSentToday (state l)) -> MaxPerDay cfg <= max_int64 ->
           MessagesSentToday (state l')
           = MessagesSentToday (state l) + Z.of_nat (length ss)
           /\ MessagesSentToday (state l')
              <= Z.max (MessagesSentToday (state l)) (MaxPerDay cfg)).
Proof.
  revert l. induction profiles as [|url rest IH]; intros l Hl; simpl in Hl.
  { injection Hl as <-. split; [done|]. exists [], []. rewrite !app_nil_r.
    split; [done|]. split; [done|]. split; [constructor|].
    split; [done|]. split; [intros u Hu; by apply elem_of_nil in Hu|].
    split; [intros u Hu; by apply elem_of_nil in Hu|]. split; [done|].
    intros _ _. simpl. lia. }
  pose proof (iteration_followup_step url rest l) as Hstep.
  destruct (iteration cfg timingCfg url rest l) as [l1|l1|]; [| |done].
  { destruct Hstep as (Hq & Hst & Hma & Hss). injection Hl as <-.
    rewrite Hst. split; [done|]. exists [], []. rewrite !app_nil_r.
    split; [done|]. split; [done|]. split; [constructor|].
    split; [done|]. split; [intros u Hu; by apply elem_of_nil in Hu|].
    split; [intros u Hu; by apply elem_of_nil in Hu|]. split; [done|].
    intros _ _. simpl. lia. }
  destruct Hstep as (Hq & Hdate & Hstep).
  destruct (IH _ Hl) as (Hd' & ats & ss & Ha & Hs & Hnd & Hsub & Hats & Hiff & Hframe & Hcnt).
  split; [by rewrite Hd', Hdate|].
  destruct Hstep as [(Hst & Hma & Hsm)|(Hm & Hma & record & Hmap & Hrec)].
  { rewrite Hst in *. exists ats, ss. rewrite Ha, Hs, Hma, Hsm.
    split; [done|]. split; [done|]. split; [done|]. split; [done|].
    split; [|done].
    intros u Hu. destruct (Hats u Hu) as (H1 & H2 & H3).
    split; [by apply list_elem_of_further|done]. }
  assert (Hframe' : forall u, u ∉ url :: ats ->
            MessagedProfiles (state l') !! u = MessagedProfiles (state l) !! u).
  { intros u Hu. rewrite Hframe.
    - rewrite Hmap, lookup_insert_ne; [done|]. intros ->. apply Hu, list_elem_of_here.
    - intros Hin. by apply Hu, list_elem_of_further. }
  assert (Hats' : forall u, u ∈ url :: ats ->
            u ∈ url :: rest /\ messaged (state l) u = false
            /\ is_Some (MessagedProfiles (state l') !! u)).
  { intros u Hu. destruct (decide (u ∈ ats)) as [Hin|Hnin].
    - destruct (Hats u Hin) as (H1 & H2 & H3).
      split; [by apply list_elem_of_further|]. split; [|done].
      destruct (decide (u = url)) as [->|Hne]; [done|].
      by rewrite <- (messaged_insert_ne _ _ _ _ _ Hmap Hne).
    - apply elem_of_cons in Hu as [->|Hu]; [|done].
      split; [apply list_elem_of_here|]. split; [done|].
      rewrite (Hframe _ Hnin), Hmap, lookup_insert_eq. eauto. }
  destruct Hrec as [(Hfalse & Hsent & Hsm)|(Htrue & _ & Hsent & Hsm)].
  - exists (url :: ats), ss. rewrite Ha, Hs, Hma, Hsm, <- app_assoc.
    split; [done|]. split; [done|]. split; [done|].
    split; [intros u Hu; by apply list_elem_of_further, Hsub|].
    split; [done|]. split; [|split; [done|by rewrite <- Hsent]].
    intros u Hu. destruct (decide (u ∈ ats)) as [Hin|Hnin]; [by apply Hiff|].
    apply elem_of_cons in Hu as [->|Hu]; [|done].
    split.
    + unfold messaged. rewrite (Hframe _ Hnin), Hmap, lookup_insert_eq, Hfalse. done.
    + intros Hin. exfalso. by apply Hnin, Hsub.
  - assert (Hurl : url ∉ ats).
    { intros Hin. destruct (Hats _ Hin) as (_ & H2 & _).
      rewrite (messaged_insert_eq _ _ _ _ Hmap), Htrue in H2. done. }
    assert (Hdone : messaged (state l') url = true).
    { unfold messaged. rewrite (Hframe _ Hurl), Hmap, lookup_insert_eq. done. }
    exists (url :: ats), (url :: ss). rewrite Ha, Hs, Hma, Hsm, <- !app_assoc.
    split; [done|]. split; [done|].
    split; [constructor; [intros Hin; by apply Hurl, Hsub|done]|].
    split.
    { intros u [->|Hu]%elem_of_cons; [apply list_elem_of_here|].
      by apply list_elem_of_further, Hsub. }
    split; [done|]. split.
    { intros u Hu. destruct (decide (u = url)) as [->|Hne].
      - split; [intros _; apply list_elem_of_here|done].
      - apply elem_of_cons in Hu as [->|Hu]; [done|].
        rewrite (Hiff u Hu). split; [by apply list_elem_of_further|].
        by intros [->|?]%elem_of_cons. }
    split; [done|].
    intros Hin Hmax. pose proof (proj1 (in_int64_bounds _) Hin) as Hin'.
    assert (Hsucc : MessagesSentToday (state l1) = MessagesSentToday (state l) + 1).
    { rewrite Hsent. apply add64_succ. unfold min_int64, max_int64 in *. lia. }
    destruct Hcnt as [H1 H2]; [|done|].
    { apply in_int64_bounds. unfold max_int64 in *. lia. }
    rewrite H1, Hsucc. simpl length. lia.
Qed.

(** The ways a call of [SendFollowUps] goes. *)
Lemma SendFollowUps_cases profiles (w : W) :
  exists r,
    SendFollowUps profiles cfg timingCfg w = Returns r
    /\ ((final r = None /\ messageAttempts (trace r) = []
         /\ sentMessages (trace r) = [])
        \/ (final r = Some (entryMessageState w) /\ messageAttempts (trace r) = []
            /\ sentMessages (trace r) = [])
        \/ (exists l l',
              loop cfg timingCfg profiles l = Returns l'
              /\ state l = entryMessageState w
              /\ messageAttempts (log l) = [] /\ sentMessages (log l) = []
              /\ final r = Some (state l')
              /\ messageAttempts (trace r) = messageAttempts (log l')
              /\ sentMessages (trace r) = sentMessages (log l'))).
Proof.
  unfold SendFollowUps, entryMessageState. destruct profiles as [|url rest].
  { eexists. split; [reflexivity|]. left. done. }
  assert (Hstart : messageAttempts (snd (startState w)) = []
                   /\ sentMessages (snd (startState w)) = []).
  { unfold startState.
    destruct (loadMessageState w) as [st|e];
      destruct (negb (String.eqb (Date _) (Now_date w))); done. }
  destruct Hstart as [Ha Hs].
  destruct (startState w) as [st lg]. cbn [fst snd] in *.
  destruct (MaxPerDay cfg <=? MessagesSentToday st) eqn:Hq.
  { eexists. split; [reflexivity|]. right. left. cbn [final trace].
    split; [done|]. unfold messageAttempts, sentMessages in *.
    rewrite !omap_app, Ha, Hs. done. }
  destruct (followup_loop_returns cfg timingCfg (url :: rest)
              {| state := st; successCount := 0; skipCount := 0;
                 notConnectedCount := 0; errorCount := 0; world := w; log := lg |})
    as [l' Hl].
  rewrite Hl. eexists. split; [reflexivity|]. right. right.
  eexists _, l'. split; [exact Hl|]. cbn [state log final trace].
  split; [done|]. split; [done|]. split; [done|]. split; [done|].
  unfold messageAttempts, sentMessages. rewrite !omap_app. simpl.
  by rewrite !app_nil_r.
Qed.

(** X7.  No profile gets two follow-ups.  The profiles a run sends a
    message to are pairwise distinct and none of them was on record as
    successfully messaged at entry; a profile that was on record as
    successfully messaged is not tried at all and its record is left as
    it was. *)
Theorem no_second_follow_up profiles (w : W) :
  exists r,
    SendFollowUps profiles cfg timingCfg w = Returns r
    /\ NoDup (sentMessages (trace r))
    /\ (forall url, url ∈ sentMessages (trace r) ->
          messaged (entryMessageState w) url = false
          /\ messaged (messageStateAfter w r) url = true)
    /\ (forall url, messaged (entryMessageState w) url = true ->
          (url ∉ messageAttempts (trace r))
          /\ MessagedProfiles (messageStateAfter w r) !! url
             = MessagedProfiles (entryMessageState w) !! url).
Proof.
  destruct (SendFollowUps_cases profiles w) as (r & Hrun & Hcases).
  exists r. split; [done|]. unfold messageStateAfter.
  destruct Hcases as [(-> & -> & ->)|[(-> & -> & ->)
    |(l & l' & Hl & Hst & Ha0 & Hs0 & -> & -> & ->)]]; simpl;
    try (split; [constructor|]; split;
         [intros u Hu; by apply elem_of_nil in Hu
         |intros u _; split; [by intros Hu%elem_of_nil|done]]).
  destruct (followup_loop_sends _ _ _ Hl)
    as (_ & ats & ss & Ha & Hs & Hnd & Hsub & Hats & Hiff & Hframe & _).
  rewrite Ha, Hs, Ha0, Hs0, <- Hst. simpl.
  split; [done|]. split.
  - intros u Hu. split; [by apply Hats, Hsub|]. by apply Hiff; [apply Hsub|].
  - intros u Hu.
    assert (Hnot : u ∉ ats).
    { intros Hin. destruct (Hats _ Hin) as (_ & H2 & _). congruence. }
    split; [done|by apply Hframe].
Qed.

(** The counter of a run of the follow-up campaign. *)
Lemma followup_run_counter profiles (w : W) :
  in_int64 (MessagesSentToday (entryMessageState w)) ->
  MaxPerDay cfg <= max_int64 ->
  exists r,
    SendFollowUps profiles cfg timingCfg w = Returns r
    /\ MessagesSentToday (messageStateAfter w r)
       = MessagesSentToday (entryMessageState w)
         + Z.of_nat (length (sentMessages (trace r)))
    /\ MessagesSentToday (messageStateAfter w r)
       <= Z.max (MessagesSentToday (entryMessageState w)) (MaxPerDay cfg)
    /\ Date (messageStateAfter w r) = Date (entryMessageState w).
Proof.
  intros Hin Hmax.
  destruct (SendFollowUps_cases profiles w) as (r & Hrun & Hcases).
  exists r. split; [done|]. unfold messageStateAfter.
  destruct Hcases as [(-> & _ & ->)|[(-> & _ & ->)
    |(l & l' & Hl & Hst & Ha0 & Hs0 & -> & _ & ->)]]; simpl;
    try (split; [lia|]; split; [lia|done]).
  destruct (followup_loop_sends _ _ _ Hl)
    as (Hdate & ats & ss & Ha & Hs & _ & _ & _ & _ & _ & Hcnt).
  rewrite Hst in *. destruct (Hcnt Hin Hmax) as [H1 H2].
  rewrite Hs, Hs0. simpl. done.
Qed.

(** X8.  The counter of the day is raised by one for each message sent
    and by nothing else, so it never passes the larger of its value at
    entry and [MaxPerDay]; the date of the state is not changed by the
    loop. *)
Theorem follow_ups_stay_within_quota profiles (w : W) :
  in_int64 (MessagesSentToday (entryMessageState w)) ->
  MaxPerDay cfg <= max_int64 ->
  exists r,
    SendFollowUps profiles cfg timingCfg w = Returns r
    /\ MessagesSentToday (messageStateAfter w r)
       = MessagesSentToday (entryMessageState w)
         + Z.of_nat (length (sentMessages (trace r)))
    /\ MessagesSentToday (messageStateAfter w r)
       <= Z.max (MessagesSentToday (entryMessageState w)) (MaxPerDay cfg)
    /\ Date (messageStateAfter w r) = Date (entryMessageState w).
Proof. apply followup_run_counter. Qed.

(** X9.  Every profile a send was tried on ends the run with a record,
    and that record counts as messaged exactly when a send to it
    succeeded: a failed send leaves [Success = false], so a later run
    tries the profile again.  Profiles no send was tried on (already
    messaged, not connected, check failed, quota reached) keep the record
    they had, or none. *)
Theorem failed_follow_ups_stay_open profiles (w : W) :
  exists r,
    SendFollowUps profiles cfg timingCfg w = Returns r
    /\ (forall url, url ∈ messageAttempts (trace r) ->
          url ∈ profiles
          /\ is_Some (MessagedProfiles (messageStateAfter w r) !! url)
          /\ (messaged (messageStateAfter w r) url = true
              <-> url ∈ sentMessages (trace r)))
    /\ (forall url, url ∉ messageAttempts (trace r) ->
          MessagedProfiles (messageStateAfter w r) !! url
          = MessagedProfiles (entryMessageState w) !! url).
Proof.
  destruct (SendFollowUps_cases profiles w) as (r & Hrun & Hcases).
  exists r. split; [done|]. unfold messageStateAfter.
  destruct Hcases as [(-> & -> & ->)|[(-> & -> & ->)
    |(l & l' & Hl & Hst & Ha0 & Hs0 & -> & -> & ->)]]; simpl;
    try (split; [intros u Hu; by apply elem_of_nil in Hu|done]).
  destruct (followup_loop_sends _ _ _ Hl)
    as (_ & ats & ss & Ha & Hs & Hnd & Hsub & Hats & Hiff & Hframe & _).
  rewrite Ha, Hs, Ha0, Hs0, <- Hst. simpl. split; [|done].
  intros u Hu. destruct (Hats u Hu) as (H1 & _ & H3). split; [done|].
  split; [done|]. by apply Hiff.
Qed.

(** X10.  [checkIfConnected] answers true only when the profile page,
    loaded without error, shows under one of the Message selectors an
    element whose text or aria-label contains "message" (in any case);
    an answer of true never comes with an error. *)
Theorem connected_means_message_button url (w w' : W) e :
  checkIfConnected url w = (true, e, w') ->
  e = None
  /\ exists sel elem, sel ∈ messageButtonSelectors
                      /\ Element sel w' = Some elem
                      /\ saysMessage elem = true.
Proof.
  unfold checkIfConnected.
  destruct (Navigate url w) as [[e1|] w1]; [intros [=]|].
  destruct (WaitLoad w1) as [[e2|] w2]; [intros [=]|].
  intros [= Hex <- <-]. split; [done|].
  assert (Hgen : forall sels,
            existsb (fun sel => match Element sel (Sleep (mul64 3 Second) w2) with
                                | Some elem => saysMessage elem
                                | None => false
                                end) sels = true ->
            exists sel elem, sel ∈ sels
                             /\ Element sel (Sleep (mul64 3 Second) w2) = Some elem
                             /\ saysMessage elem = true).
  { intros sels Hsels. apply existsb_exists in Hsels as (sel & Hin & Hsel).
    destruct (Element sel (Sleep (mul64 3 Second) w2)) as [elem|] eqn:Hel; [|done].
    exists sel, elem. split; [by apply list_elem_of_In|done]. }
  exact (Hgen messageButtonSelectors Hex).
Qed.

End MessagingMore.

Lemma follow_ups_stay_within_quota_witness :
  exists r,
    messaging.SendFollowUps [ada; grace; linus] (followUpConfig 2) timing
      (firstFollowUps true today) = Returns r
    /\ messaging.MessagesSentToday (messageStateAfter (firstFollowUps true today) r)
       <= Z.max (messaging.MessagesSentToday
                   (entryMessageState (firstFollowUps true today))) 2.
Proof.
  destruct (follow_ups_stay_within_quota (followUpConfig 2) timing [ada; grace; linus]
              (firstFollowUps true today))
    as (r & Hrun & _ & Hle & _).
  - vm_compute. split; discriminate.
  - vm_compute. discriminate.
  - exists r. split; [exact Hrun|exact Hle].
Defined.

Lemma connected_means_message_button_witness :
  exists sel elem,
    sel ∈ messaging.messageButtonSelectors
    /\ Element sel (Sleep (mul64 3 Second) (firstFollowUps true today)) = Some elem
    /\ messaging.saysMessage elem = true.
Proof.
  destruct (connected_means_message_button ada (firstFollowUps true today)
              (Sleep (mul64 3 Second) (firstFollowUps true today)) None)
    as (_ & Hfound).
  - reflexivity.
  - exact Hfound.
Defined.

Section DiscoveryMore.
Context {W : Type} `{!Env W} `{!search.Deps W}.
Import search.

#[local] Arguments scanNext : simpl never.

Lemma newLogged_app pl1 pl2 : newLogged (pl1 ++ pl2) = newLogged pl1 + newLogged pl2.
Proof.
  unfold newLogged. rewrite fmap_app. induction (snd <$> pl1) as [|x xs IH]; simpl; lia.
Qed.

Lemma isSeen_insert seen url u :
  isSeen (<[url := true]> seen) u = true <-> isSeen seen u = true \/ u = url.
Proof.
  unfold isSeen. destruct (decide (u = url)) as [->|Hne].
  - rewrite lookup_insert_eq. simpl. split; [by right|done].
  - rewrite lookup_insert_ne by done. split; [by left|]. by intros [?|?].
Qed.

(** The de-duplication of one page. *)
Lemma collect_spec found seen all newCount :
  exists new,
    collect found seen all newCount
    = (foldr (fun u s => <[u := true]> s) seen (reverse new), all ++ new,
       newCount + Z.of_nat (length new))
    /\ NoDup new
    /\ (forall u, u ∈ new ->
          u <> EmptyString /\ isSeen seen u = false
          /\ u ∈ (normalizeProfileURL <$> found))
    /\ (forall u, isSeen (foldr (fun u s => <[u := true]> s) seen (reverse new)) u = true
                  <-> isSeen seen u = true \/ u ∈ new)
    /\ (forall p, p ∈ found -> normalizeProfileURL p <> EmptyString ->
          isSeen (foldr (fun u s => <[u := true]> s) seen (reverse new))
            (normalizeProfileURL p) = true).
Proof.
  revert seen all newCount.
  induction found as [|p found IH]; intros seen all newCount; simpl.
  { exists []. simpl. rewrite app_nil_r, Z.add_0_r. split; [done|].
    split; [constructor|]. split; [intros u Hu; by apply elem_of_nil in Hu|].
    split.
    - intros u. split; [by left|]. intros [?|Hu]; [done|by apply elem_of_nil in Hu].
    - intros q Hq. by apply elem_of_nil in Hq. }
  destruct (String.eqb (normalizeProfileURL p) EmptyString) eqn:Hempty.
  { destruct (IH seen all newCount) as (new & -> & Hnd & Hnew & Hseen & Hall).
    exists new. split; [done|]. split; [done|]. split.
    - intros u Hu. destruct (Hnew u Hu) as (H1 & H2 & H3).
      split; [done|]. split; [done|]. by apply list_elem_of_further.
    - split; [done|]. intros q [->|Hq]%elem_of_cons Hne; [|by apply Hall].
      apply String.eqb_eq in Hempty. done. }
  destruct (default false (seen !! normalizeProfileURL p)) eqn:Hs.
  { destruct (IH seen all newCount) as (new & -> & Hnd & Hnew & Hseen & Hall).
    exists new. split; [done|]. split; [done|]. split.
    - intros u Hu. destruct (Hnew u Hu) as (H1 & H2 & H3).
      split; [done|]. split; [done|]. by apply list_elem_of_further.
    - split; [done|]. intros q [->|Hq]%elem_of_cons Hne; [|by apply Hall].
      apply Hseen. by left. }
  set (url := normalizeProfileURL p) in *.
  destruct (IH (<[url := true]> seen) (all ++ [url]) (newCount + 1))
    as (new & -> & Hnd & Hnew & Hseen & Hall).
  assert (Hfresh : url ∉ new).
  { intros Hin. destruct (Hnew _ Hin) as (_ & H2 & _).
    unfold isSeen in H2. by rewrite lookup_insert_eq in H2. }
  exists (url :: new). rewrite reverse_cons, foldr_app. simpl.
  rewrite <- app_assoc. simpl. split; [f_equal; lia|].
  split; [by constructor|]. split.
  { intros u [->|Hu]%elem_of_cons.
    - apply String.eqb_neq in Hempty. split; [done|]. split; [done|].
      apply list_elem_of_here.
    - destruct (Hnew u Hu) as (H1 & H2 & H3). split; [done|]. split.
      + destruct (isSeen seen u) eqn:Hu'; [|done].
        assert (isSeen (<[url := true]> seen) u = true) by (apply isSeen_insert; by left).
        congruence.
      + by apply list_elem_of_further. }
  split.
  { intros u. rewrite Hseen, isSeen_insert, elem_of_cons. tauto. }
  intros q [->|Hq]%elem_of_cons Hne; [|by apply Hall].
  apply Hseen. left. apply isSeen_insert. by right.
Qed.

(** What the pagination loop has collected when it is left, however it
    is left. *)
Lemma crawl_collects fuel maxPages cfg (c : Crawl W) e :
  crawl fuel maxPages cfg c = Some e ->
  exists new pl,
    allProfiles (exitCrawl e) = allProfiles c ++ new
    /\ pagesLog (exitCrawl e) = pagesLog c ++ pl
    /\ NoDup new
    /\ (forall u, u ∈ new -> u <> EmptyString /\ isSeen (seenProfiles c) u = false)
    /\ (forall u, isSeen (seenProfiles (exitCrawl e)) u = true ->
                  isSeen (seenProfiles c) u = true \/ u ∈ new)
    /\ (forall u, isSeen (seenProfiles c) u = true ->
                  isSeen (seenProfiles (exitCrawl e)) u = true)
    /\ ((forall e', e <> ReturnedError e' (exitCrawl e)) ->
        newLogged pl = Z.of_nat (length new)
        /\ forall u, u ∈ new -> isSeen (seenProfiles (exitCrawl e)) u = true).
Proof.
  revert c. induction fuel as [|fuel IH]; intros c; [done|].
  assert (Hnone : forall c0 : Crawl W,
            exists new pl,
              allProfiles c0 = allProfiles c0 ++ new
              /\ pagesLog c0 = pagesLog c0 ++ pl
              /\ NoDup new
              /\ (forall u, u ∈ new ->
                    u <> EmptyString /\ isSeen (seenProfiles c0) u = false)
              /\ (forall u, isSeen (seenProfiles c0) u = true ->
                            isSeen (seenProfiles c0) u = true \/ u ∈ new)
              /\ (forall u, isSeen (seenProfiles c0) u = true ->
                            isSeen (seenProfiles c0) u = true)
              /\ newLogged pl = Z.of_nat (length new)
              /\ forall u, u ∈ new -> isSeen (seenProfiles c0) u = true).
  { intros c0. exists [], []. rewrite !app_nil_r. split; [done|]. split; [done|].
    split; [constructor|]. split; [intros u Hu; by apply elem_of_nil in Hu|].
    split; [by left|]. split; [done|]. split; [done|].
    intros u Hu; by apply elem_of_nil in Hu. }
  simpl crawl. destruct (currentPage c <=? maxPages) eqn:Hle.
  2: { intros [= <-]. simpl.
       destruct (Hnone c) as (new & pl & H1 & H2 & H3 & H4 & H5 & H6 & H7).
       exists new, pl. done. }
  destruct (extractProfileURLs (world c)) as [[found|err] w1].
  2: { intros [= <-]. simpl.
       destruct (Hnone c) as (new & pl & H1 & H2 & H3 & H4 & H5 & H6 & H7).
       exists new, pl. simpl in *. split; [done|]. split; [done|]. split; [done|].
       split; [done|]. split; [done|]. split; [done|]. intros Hne.
       exfalso. by eapply Hne. }
  destruct (collect_spec found (seenProfiles c) (allProfiles c) 0)
    as (new & -> & Hnd & Hnew & Hseen & _).
  set (seen := foldr (fun u s => <[u := true]> s) (seenProfiles c) (reverse new)) in *.
  assert (Hstop :
            exists new0 pl,
              allProfiles c ++ new = allProfiles c ++ new0
              /\ pagesLog c ++ [(currentPage c, 0 + Z.of_nat (length new))]
                 = pagesLog c ++ pl
              /\ NoDup new0
              /\ (forall u, u ∈ new0 ->
                    u <> EmptyString /\ isSeen (seenProfiles c) u = false)
              /\ (forall u, isSeen seen u = true ->
                            isSeen (seenProfiles c) u = true \/ u ∈ new0)
              /\ (forall u, isSeen (seenProfiles c) u = true -> isSeen seen u = true)
              /\ newLogged pl = Z.of_nat (length new0)
              /\ forall u, u ∈ new0 -> isSeen seen u = true).
  { exists new, [(currentPage c, 0 + Z.of_nat (length new))].
    split; [done|]. split; [done|]. split; [done|]. split.
    { intros u Hu. destruct (Hnew u Hu) as (? & ? & _). done. }
    split; [intros u; by rewrite Hseen|]. split; [intros u Hu; apply Hseen; by left|].
    split; [unfold newLogged; simpl; lia|].
    intros u Hu. apply Hseen. by right. }
  destruct Hstop as (new0 & pl0 & Hs1 & Hs2 & Hs3 & Hs4 & Hs5 & Hs6 & Hs7).
  unfold hasNextPage.
  destruct (scanNext nextButtonSelectors (humanScrollResults cfg w1)).
  2: { intros [= <-]. simpl.
    exists new0, pl0. done. }
  destruct (clickNextPage cfg (humanScrollResults cfg w1)) as [[err|] w2].
  { intros [= <-]. simpl.
    exists new0, pl0. done. }
  destruct (stealth.RandomDelay _ _ _) as [d|].
  2: { intros [= <-]. simpl.
    exists new0, pl0. done. }
  intros Hrest. destruct (IH _ Hrest)
    as (new1 & pl1 & H1 & H2 & H3 & H4 & H5 & H6 & H7).
  simpl in H1, H2, H4, H5, H6.
  exists (new ++ new1), ([(currentPage c, 0 + Z.of_nat (length new))] ++ pl1).
  rewrite H1, H2, <- !app_assoc. split; [done|]. split; [done|].
  assert (Hdisj : forall u, u ∈ new -> u ∉ new1).
  { intros u Hu Hu1. destruct (H4 u Hu1) as [_ Hfalse].
    assert (isSeen seen u = true) by (apply Hseen; by right). congruence. }
  split; [apply NoDup_app; done|]. split.
  { intros u [Hu|Hu]%elem_of_app.
    - destruct (Hnew u Hu) as (? & ? & _). done.
    - destruct (H4 u Hu) as [Hne Hfalse]. split; [done|].
      destruct (isSeen (seenProfiles c) u) eqn:Hs; [|done].
      assert (isSeen seen u = true) by (apply Hseen; by left). congruence. }
  split.
  { intros u Hu. destruct (H5 u Hu) as [Hs|Hin].
    - apply Hseen in Hs as [?|?]; [by left|right; apply elem_of_app; by left].
    - right. apply elem_of_app. by right. }
  split; [intros u Hu; apply H6, Hseen; by left|].
  intros Hne. destruct (H7 Hne) as [Hsum Hin].
  rewrite newLogged_app, Hsum, length_app. split; [unfold newLogged; simpl; lia|].
  intros u [Hu|Hu]%elem_of_app; [|by apply Hin].
  apply H6, Hseen. by right.
Qed.

Lemma paginate_collects fuel params cfg seen (w : W) f ps :
  paginate fuel params cfg seen w = Some f ->
  profiles f = Some ps ->
  err f = None /\ panicked f = false
  /\ NoDup ps
  /\ (forall u, u ∈ ps -> u <> EmptyString /\ isSeen seen u = false)
  /\ Z.of_nat (length ps) = newLogged (pages f)
  /\ exists seen' w',
       after f = snd (saveSeenProfiles seen' w')
       /\ forall u, isSeen seen' u = true <-> isSeen seen u = true \/ u ∈ ps.
Proof.
  unfold paginate.
  destruct (crawl fuel _ cfg _) as [[e c|c|c]|] eqn:Hcrawl;
    [by intros [= <-]| |by intros [= <-]|done].
  destruct (crawl_collects _ _ _ _ _ Hcrawl)
    as (new & pl & H1 & H2 & H3 & H4 & H5 & H6 & H7).
  simpl in H1, H2, H4, H5, H6, H7.
  destruct H7 as [Hsum Hin]; [done|].
  destruct (saveSeenProfiles (seenProfiles c) (world c)) as [serr w'] eqn:Hsave.
  intros [= <-] [= <-]. simpl. rewrite H1, H2. simpl.
  split; [done|]. split; [done|]. split; [done|]. split; [done|].
  split; [done|]. exists (seenProfiles c), (world c). rewrite Hsave.
  split; [done|]. intros u. split; [apply H5|].
  intros [Hu|Hu]; [by apply H6|by apply Hin].
Qed.

(** X11.  What [FindPeople] returns is new and free of repetitions: the
    returned profiles are pairwise distinct, none is the empty string,
    none was marked seen in the set the search started from, and their
    number is the total of the new-profile counts logged for the pages. *)
Theorem found_profiles_are_new fuel params cfg (w : W) f ps :
  FindPeople fuel params cfg w = Some f ->
  profiles f = Some ps ->
  NoDup ps
  /\ (forall url, url ∈ ps -> url <> EmptyString /\ isSeen (seenAtEntry w) url = false)
  /\ Z.of_nat (length ps) = newLogged (pages f).
Proof.
  unfold FindPeople, seenAtEntry. intros Hrun Hps.
  assert (Hpag : exists w', paginate fuel params cfg
                              match loadSeenProfiles w with
                              | inl seen => seen
                              | inr _ => ∅
                              end w' = Some f).
  { destruct (performHumanSearch params cfg w) as [[e|] w1]; [|eauto].
    destruct (buildSearchURL params) as [url|e']; [|injection Hrun as <-; done].
    destruct (Navigate url w1) as [[e2|] w2]; [injection Hrun as <-; done|].
    destruct (WaitLoad w2) as [[e3|] w3]; [injection Hrun as <-; done|eauto]. }
  destruct Hpag as [w' Hpag].
  destruct (paginate_collects _ _ _ _ _ _ _ Hpag Hps) as (_ & _ & H1 & H2 & H3 & _).
  done.
Qed.

(** X12.  A search that returns profiles hands to [saveSeenProfiles] the
    seen set it started from enlarged by exactly the returned profiles;
    a search that returns an error or panics returns no profiles. *)
Theorem seen_set_grows_by_the_result fuel params cfg (w : W) f :
  FindPeople fuel params cfg w = Some f ->
  match profiles f with
  | Some ps =>
      err f = None /\ panicked f = false
      /\ exists seen' w',
           after f = snd (saveSeenProfiles seen' w')
           /\ forall url, isSeen seen' url = true
                          <-> isSeen (seenAtEntry w) url = true \/ url ∈ ps
  | None => err f <> None \/ panicked f = true
  end.
Proof.
  unfold FindPeople, seenAtEntry. intros Hrun.
  assert (Hpag : (profiles f = None /\ err f <> None)
                 \/ exists w', paginate fuel params cfg
                                 match loadSeenProfiles w with
                                 | inl seen => seen
                                 | inr _ => ∅
                                 end w' = Some f).
  { destruct (performHumanSearch params cfg w) as [[e|] w1]; [|eauto].
    destruct (buildSearchURL params) as [url|e']; [|injection Hrun as <-; by left].
    destruct (Navigate url w1) as [[e2|] w2]; [injection Hrun as <-; by left|].
    destruct (WaitLoad w2) as [[e3|] w3]; [injection Hrun as <-; by left|eauto]. }
  destruct Hpag as [[-> Herr]|[w' Hpag]]; [by left|].
  destruct (profiles f) as [ps|] eqn:Hps.
  - destruct (paginate_collects _ _ _ _ _ _ _ Hpag Hps) as (H1 & H2 & _ & _ & _ & H3).
    done.
  - unfold paginate in Hpag.
    destruct (crawl fuel _ cfg _) as [[e c|c|c]|]; [| | |done].
    + injection Hpag as <-. by left.
    + destruct (saveSeenProfiles _ _). injection Hpag as <-. done.
    + injection Hpag as <-. by right.
Qed.

(** X24.  [MaxPages] is a budget: when it is not 0, the search returns
    (fuel above that number is always enough for the model) after
    having processed at most [MaxPages] result pages.  A negative value
    is not rejected: the loop is not entered at all, and a search that
    gets as far as the results returns no profiles and no error. *)
Theorem page_budget_is_kept params cfg (w : W) fuel :
  MaxPages params <> 0 ->
  MaxPages params < max_int64 ->
  (Z.to_nat (MaxPages params) < fuel)%nat ->
  exists f,
    FindPeople fuel params cfg w = Some f
    /\ (length (pages f) <= Z.to_nat (MaxPages params))%nat
    /\ (MaxPages params < 0 -> err f = None -> profiles f = Some []).
Proof.
  intros Hnz Hmax Hfuel. apply Z.eqb_neq in Hnz.
  assert (Hpag : forall seen w1, exists f,
             paginate fuel params cfg seen w1 = Some f
             /\ (length (pages f) <= Z.to_nat (MaxPages params))%nat
             /\ (MaxPages params < 0 -> err f = None -> profiles f = Some [])).
  { intros seen w1. unfold paginate. rewrite Hnz.
    destruct fuel as [|fuel]; [lia|].
    destruct (Z_lt_le_dec (MaxPages params) 1) as [Hneg|Hpos].
    { simpl crawl. cbn [currentPage].
      destruct (1 <=? MaxPages params) eqn:E; [lia|].
      destruct (saveSeenProfiles _ _) as [serr w2].
      eexists. split; [reflexivity|]. simpl. split; [lia|done]. }
    edestruct (crawl_bounded (MaxPages params) cfg (S fuel)
                 {| seenProfiles := seen; allProfiles := []; currentPage := 1;
                    pagesLog := [];
                    world := humanScrollOnce cfg (Sleep (mul64 3 Second) w1) |})
      as (e & He & Hlen);
      [done | by vm_compute
      | cbn [currentPage]; replace (MaxPages params - 1 + 1) with (MaxPages params)
          by lia; exact Hfuel |].
    rewrite He. cbn [currentPage pagesLog] in Hlen.
    replace (MaxPages params - 1 + 1) with (MaxPages params) in Hlen by lia.
    destruct e as [msg c|c|c]; simpl in Hlen;
      [| destruct (saveSeenProfiles (seenProfiles c) (world c)) |];
      (eexists; split; [reflexivity|]; simpl; split; [lia|intros; lia]). }
  unfold FindPeople.
  destruct (performHumanSearch params cfg w) as [[e|] w1]; [|apply Hpag].
  destruct (buildSearchURL params) as [url|e'].
  2: { eexists. split; [reflexivity|]. simpl. split; [lia|done]. }
  destruct (Navigate url w1) as [[e'|] w2].
  { eexists. split; [reflexivity|]. simpl. split; [lia|done]. }
  destruct (WaitLoad w2) as [[e'|] w3]; [|apply Hpag].
  eexists. split; [reflexivity|]. simpl. split; [lia|done].
Qed.

End DiscoveryMore.

Lemma found_profiles_are_new_witness :
  exists f,
    search.FindPeople 20 (searchParams 3) timing threePages = Some f
    /\ search.profiles f = Some ["/in/ada"; "/in/grace"]
    /\ NoDup ["/in/ada"; "/in/grace"]
    /\ 2 = newLogged (search.pages f).
Proof.
  eexists. split; [vm_compute; reflexivity|]. split; [reflexivity|].
  edestruct (found_profiles_are_new 20 (searchParams 3) timing threePages)
    as (Hnd & _ & Hlen).
  - vm_compute. reflexivity.
  - reflexivity.
  - split; [exact Hnd|exact Hlen].
Defined.

Lemma seen_set_grows_by_the_result_witness :
  exists f ps,
    search.FindPeople 20 (searchParams 3) timing threePages = Some f
    /\ search.profiles f = Some ps
    /\ exists seen' w',
         search.after f = snd (search.saveSeenProfiles seen' w')
         /\ forall url, isSeen seen' url = true
                        <-> isSeen (seenAtEntry threePages) url = true \/ url ∈ ps.
Proof.
  destruct (search.FindPeople 20 (searchParams 3) timing threePages) as [f|] eqn:Hrun;
    [|vm_compute in Hrun; discriminate Hrun].
  pose proof (seen_set_grows_by_the_result 20 (searchParams 3) timing threePages f Hrun)
    as Hgrow.
  destruct (search.profiles f) as [ps|] eqn:Hps.
  - destruct Hgrow as (_ & _ & Hsaved). exists f, ps.
    split; [reflexivity|]. split; [exact Hps|exact Hsaved].
  - exfalso. vm_compute in Hrun. injection Hrun as Hf. subst f.
    discriminate Hps.
Defined.

Lemma page_budget_is_kept_witness :
  exists f,
    search.FindPeople 1 (searchParams (-1)) timing threePages = Some f
    /\ search.profiles f = Some [].
Proof.
  destruct (page_budget_is_kept (searchParams (-1)) timing threePages 1)
    as (f & Hrun & _ & Hneg).
  - discriminate.
  - vm_compute. reflexivity.
  - simpl. lia.
  - exists f. split; [exact Hrun|]. apply Hneg; [simpl; lia|].
    vm_compute in Hrun. injection Hrun as <-. reflexivity.
Defined.

Section Pauses.

(** A delay whose lower bound is positive never panics. *)
Lemma RandomDelay_returns draw minMs maxMs :
  in_int64 minMs -> in_int64 maxMs -> 0 < minMs ->
  exists d, stealth.RandomDelay draw minMs maxMs = Some d.
Proof.
  intros Hlo Hhi Hpos.
  pose proof (proj1 (in_int64_bounds _) Hlo) as Hlo'.
  pose proof (proj1 (in_int64_bounds _) Hhi) as Hhi'.
  unfold stealth.RandomDelay, Intn, add64, sub64.
  destruct (minMs <? 0) eqn:E; [lia|].
  assert (Hi : forall z, -9223372036854775808 <= z <= 9223372036854775807 ->
                         wrap64 z = z).
  { intros z Hz. apply wrap64_id, in_int64_bounds. lia. }
  destruct (maxMs <? minMs) eqn:E'.
  - rewrite Z.sub_diag. rewrite (Hi 0) by lia. simpl. eauto.
  - rewrite (Hi (maxMs - minMs)) by lia. rewrite (Hi (maxMs - minMs + 1)) by lia.
    destruct (maxMs - minMs + 1 <=? 0) eqn:E''; [lia|]. eauto.
Qed.

Lemma max_is_Zmax a b : max a b = Z.max a b.
Proof. unfold max. destruct (b <? a) eqn:E; lia. Qed.

Lemma quot_in_int64 m k : in_int64 m -> 0 < k -> in_int64 (Z.quot m k).
Proof.
  intros Hm Hk. pose proof (proj1 (in_int64_bounds _) Hm) as Hm'.
  apply in_int64_bounds. Z.to_euclidean_division_equations. nia.
Qed.

Lemma clamp_id lo hi : 0 <= lo <= hi -> clamp_min lo = lo /\ clamp_max lo hi = hi.
Proof.
  intros H. unfold clamp_max, clamp_min.
  destruct (lo <? 0) eqn:E; [lia|]. destruct (hi <? lo) eqn:E'; lia.
Qed.

(** [ShortPause] never panics. *)
Lemma ShortPause_returns draw cfg :
  in_int64 (MinDelayMs cfg) -> exists d, timing.ShortPause draw cfg = Returns d.
Proof.
  intros Hm. unfold timing.ShortPause.
  destruct (RandomDelay_returns draw (max 40 (Z.quot (MinDelayMs cfg) 6))
              (max 80 (Z.quot (MinDelayMs cfg) 4))) as [d ->]; [..|eauto].
  - apply max_in_int64; [by vm_compute|]. by apply quot_in_int64.
  - apply max_in_int64; [by vm_compute|]. by apply quot_in_int64.
  - pose proof (max_lower 40 (Z.quot (MinDelayMs cfg) 6)). lia.
Qed.

(** X13.  [ShortPause] never panics, whatever the configured delays;
    with a generator that keeps its contract, and a minimum delay small
    enough for the result to fit a [time.Duration], the pause lasts
    between [max(40, MinDelayMs/6)] and [max(80, MinDelayMs/4)]
    milliseconds, so never less than 40. *)
Theorem ShortPause_is_short draw cfg :
  in_int64 (MinDelayMs cfg) ->
  exists d,
    timing.ShortPause draw cfg = Returns d
    /\ (draw_in_range draw ->
        Z.quot (MinDelayMs cfg) 4 <= max_duration_ms ->
        within_ms (max 40 (Z.quot (MinDelayMs cfg) 6))
          (max 80 (Z.quot (MinDelayMs cfg) 4)) d
        /\ 40 * Millisecond <= d).
Proof.
  intros Hm. unfold timing.ShortPause.
  set (lo := max 40 (Z.quot (MinDelayMs cfg) 6)).
  set (hi := max 80 (Z.quot (MinDelayMs cfg) 4)).
  assert (Hlo : in_int64 lo).
  { apply max_in_int64; [by vm_compute|]. by apply quot_in_int64. }
  assert (Hhi : in_int64 hi).
  { apply max_in_int64; [by vm_compute|]. by apply quot_in_int64. }
  assert (Hpos : 40 <= lo) by apply max_lower.
  destruct (RandomDelay_returns draw lo hi Hlo Hhi ltac:(lia)) as [d Hd].
  rewrite Hd. exists d. split; [done|]. intros Hdraw Hfit.
  assert (Hle : lo <= hi).
  { unfold lo, hi. rewrite !max_is_Zmax.
    Z.to_euclidean_division_equations. nia. }
  destruct (clamp_id lo hi ltac:(lia)) as [Hcl Hch].
  destruct (stealth_RandomDelay_bounded draw lo hi Hdraw) as (d' & Hd' & Hin).
  { rewrite Hch. unfold hi. rewrite max_is_Zmax. rewrite max_duration_ms_val in *. lia. }
  rewrite Hd in Hd'. injection Hd' as <-. rewrite Hcl, Hch in Hin.
  split; [done|]. unfold within_ms, Millisecond in *. lia.
Qed.

(** X14.  [ThinkPause] never panics, whatever the configured delays;
    with a generator that keeps its contract and delays that fit a
    [time.Duration], it lasts at least 400 ms and at least
    [MinDelayMs] ms, and at most the larger of [MaxDelayMs] and that
    floor plus 400 ms. *)
Theorem ThinkPause_is_long draw cfg :
  in_int64 (MinDelayMs cfg) ->
  in_int64 (MaxDelayMs cfg) ->
  exists d,
    timing.ThinkPause draw cfg = Returns d
    /\ (draw_in_range draw ->
        MinDelayMs cfg <= max_duration_ms - 400 ->
        MaxDelayMs cfg <= max_duration_ms ->
        within_ms (Z.max (MinDelayMs cfg) 400)
          (Z.max (MaxDelayMs cfg) (Z.max (MinDelayMs cfg) 400 + 400)) d
        /\ 400 * Millisecond <= d).
Proof.
  intros Hm HM. unfold timing.ThinkPause.
  set (base := max (MinDelayMs cfg) 400).
  set (upper := max (MaxDelayMs cfg) (add64 base 400)).
  assert (Hbase : in_int64 base) by (apply max_in_int64; [done|by vm_compute]).
  assert (Hupper : in_int64 upper) by (apply max_in_int64; [done|apply wrap64_range]).
  assert (Hpos : 400 <= base) by (unfold base; rewrite max_is_Zmax; lia).
  destruct (RandomDelay_returns draw base upper Hbase Hupper ltac:(lia)) as [d Hd].
  rewrite Hd. exists d. split; [done|]. intros Hdraw Hfit HfitM.
  rewrite max_duration_ms_val in *.
  assert (Hb : base = Z.max (MinDelayMs cfg) 400) by apply max_is_Zmax.
  assert (Hu : upper = Z.max (MaxDelayMs cfg) (base + 400)).
  { unfold upper. rewrite max_is_Zmax. unfold add64. rewrite wrap64_id; [done|].
    apply in_int64_bounds. lia. }
  destruct (clamp_id base upper ltac:(lia)) as [Hcl Hch].
  destruct (stealth_RandomDelay_bounded draw base upper Hdraw) as (d' & Hd' & Hin).
  { rewrite Hch, max_duration_ms_val. lia. }
  rewrite Hd in Hd'. injection Hd' as <-. rewrite Hcl, Hch, Hu, Hb in Hin.
  split; [done|]. unfold within_ms, Millisecond in *. lia.
Qed.

End Pauses.

Lemma ShortPause_is_short_witness :
  exists d, timing.ShortPause (fun _ => 0) timing = Returns d
            /\ 40 * Millisecond <= d.
Proof.
  destruct (ShortPause_is_short (fun _ => 0) timing) as (d & Hd & Hin).
  - vm_compute. split; discriminate.
  - exists d. split; [exact Hd|]. apply Hin.
    + intros n Hn. lia.
    + vm_compute. discriminate.
Defined.

Lemma ThinkPause_is_long_witness :
  exists d, timing.ThinkPause (fun _ => 0) timing = Returns d
            /\ 400 * Millisecond <= d.
Proof.
  destruct (ThinkPause_is_long (fun _ => 0) timing) as (d & Hd & Hin).
  - vm_compute. split; discriminate.
  - vm_compute. split; discriminate.
  - exists d. split; [exact Hd|]. apply Hin.
    + intros n Hn. lia.
    + vm_compute. discriminate.
    + vm_compute. discriminate.
Defined.

Section Typing.
Import typing.

#[local] Arguments pause : simpl never.
#[local] Arguments randomNearbyRune : simpl never.
#[local] Arguments timing.ShortPause : simpl never.

Variables (k : Keyboard) (c : Chance) (cfg : TimingConfig).
Hypothesis Hmin : in_int64 (MinDelayMs cfg).
Hypothesis Hmax : in_int64 (MaxDelayMs cfg).
Hypothesis Hintn : forall i n, 0 < n -> 0 <= intn c i n < n.

Lemma pause_goes lo a hi b (t : Typing) :
  0 < lo -> 0 < hi -> in_int64 a -> in_int64 b -> in_int64 lo -> in_int64 hi ->
  exists d, pause c (max lo a) (max hi b) t
            = Goes {| gen := gen t; slept := S (slept t);
                      events := events t ++ [Slept d] |}.
Proof.
  intros Hlo Hhi Ha Hb Hlo' Hhi'. unfold pause.
  destruct (RandomDelay_returns (delays c (slept t)) (max lo a) (max hi b))
    as [d ->]; [by apply max_in_int64|by apply max_in_int64| |eauto].
  pose proof (max_lower lo a). lia.
Qed.

Lemma randomNearbyRune_returns r ch :
  exists wrong r', randomNearbyRune c r ch = Returns (wrong, r').
Proof.
  unfold randomNearbyRune. change (Z.of_nat (length neighbors)) with 10.
  destruct ((97 <=? ch) && (ch <=? 122) && (0 <? 10)); [|eauto].
  unfold Intn. change (10 <=? 0) with false. cbv beta iota.
  pose proof (Hintn (stealth.cursor r) 10 ltac:(lia)) as Hi.
  destruct (intn c (stealth.cursor r) 10 <? 0) eqn:E; [lia|].
  destruct (neighbors !! Z.to_nat (intn c (stealth.cursor r) 10)) as [w|] eqn:Hw;
    [by eexists _, _|].
  apply lookup_ge_None in Hw. simpl in Hw. lia.
Qed.

Lemma strike_typo s wrong ch d1 d2 d3 :
  foldl strike s [Typed wrong; Slept d1; Backspace; Slept d2; Typed ch; Slept d3]
  = s ++ [ch].
Proof. simpl. by rewrite removelast_last. Qed.

(** What one pass through the body of the loop leaves behind. *)
Lemma keystroke_spec ch (t : Typing) :
  match keystroke k c cfg ch t with
  | Goes t' =>
      exists new, events t' = events t ++ new
                  /\ (forall s, foldl strike s new = s ++ [ch])
                  /\ (1 <= length (filter isKey new) <= 3)%nat
  | Fails e t' =>
      exists new, events t' = events t ++ new
                  /\ ((forall s, foldl strike s new = s)
                      \/ exists wrong, forall s, foldl strike s new = s ++ [wrong])
                  /\ (length (filter isKey new) <= 2)%nat
  | Crashes => False
  end.
Proof.
  assert (H5m : in_int64 (Z.quot (MinDelayMs cfg) 5)) by by apply quot_in_int64.
  assert (H5M : in_int64 (Z.quot (MaxDelayMs cfg) 5)) by by apply quot_in_int64.
  assert (H4m : in_int64 (Z.quot (MinDelayMs cfg) 4)) by by apply quot_in_int64.
  assert (H4M : in_int64 (Z.quot (MaxDelayMs cfg) 4)) by by apply quot_in_int64.
  assert (Hc : forall z, -100 <= z <= 100 -> in_int64 z).
  { intros z Hz. apply in_int64_bounds. lia. }
  assert (Htail : forall t1 pre,
            events t1 = events t ++ pre ->
            (forall s, foldl strike s pre = s) ->
            (length (filter isKey pre) <= 2)%nat ->
            match andThen (type k ch t1) (fun t =>
                    andThen (pause c (max 35 (Z.quot (MinDelayMs cfg) 4))
                               (max 95 (Z.quot (MaxDelayMs cfg) 4)) t)
                      (fun t => rhythm c cfg t)) with
            | Goes t' =>
                exists new, events t' = events t ++ new
                            /\ (forall s, foldl strike s new = s ++ [ch])
                            /\ (1 <= length (filter isKey new) <= 3)%nat
            | Fails e t' =>
                exists new, events t' = events t ++ new
                            /\ ((forall s, foldl strike s new = s)
                                \/ exists wrong,
                                     forall s, foldl strike s new = s ++ [wrong])
                            /\ (length (filter isKey new) <= 2)%nat
            | Crashes => False
            end).
  { intros t1 pre Hev Hnet Hlen. unfold type.
    destruct (KeyType k (events t1) ch) as [e|]; simpl.
    { exists pre. split; [done|]. split; [by left|done]. }
    destruct (pause_goes 35 (Z.quot (MinDelayMs cfg) 4) 95 (Z.quot (MaxDelayMs cfg) 4)
                {| gen := gen t1; slept := slept t1;
                   events := events t1 ++ [Typed ch] |})
      as [d Hd]; [lia|lia|done|done|apply Hc; lia|apply Hc; lia|].
    rewrite Hd. simpl. unfold rhythm. simpl.
    assert (Hkeys : forall tl, filter isKey tl = [] ->
              (1 <= length (filter isKey (pre ++ Typed ch :: tl)) <= 3)%nat).
    { intros tl Htl. rewrite filter_app, length_app, filter_cons. simpl.
      rewrite Htl. simpl. lia. }
    destruct (_ <? 0.12)%float.
    - destruct (ShortPause_returns (delays c (S (slept t1))) cfg Hmin) as [d' ->].
      simpl. exists (pre ++ [Typed ch; Slept d; Slept d']).
      rewrite Hev, <- !app_assoc. simpl. split; [done|]. split.
      + intros s. by rewrite foldl_app, Hnet.
      + by apply Hkeys.
    - simpl. exists (pre ++ [Typed ch; Slept d]).
      rewrite Hev, <- !app_assoc. simpl. split; [done|]. split.
      + intros s. by rewrite foldl_app, Hnet.
      + by apply Hkeys. }
  unfold keystroke, typo. simpl.
  destruct (_ <? 0.05)%float.
  2: { simpl. apply (Htail _ []); simpl; [by rewrite app_nil_r|done|lia]. }
  destruct (randomNearbyRune_returns
              {| stealth.stream := stealth.stream (gen t);
                 stealth.cursor := S (stealth.cursor (gen t)) |} ch)
    as (wrong & r' & ->).
  unfold type at 1. simpl.
  destruct (KeyType k (events t) wrong) as [e|]; simpl.
  { exists []. rewrite app_nil_r. split; [done|]. split; [by left|simpl; lia]. }
  destruct (pause_goes 25 (Z.quot (MinDelayMs cfg) 5) 60 (Z.quot (MaxDelayMs cfg) 5)
              {| gen := r'; slept := slept t; events := events t ++ [Typed wrong] |})
    as [d1 Hd1]; [lia|lia|done|done|apply Hc; lia|apply Hc; lia|].
  rewrite Hd1. simpl. unfold backspace. simpl.
  destruct (Press k _) as [e|]; simpl.
  { exists [Typed wrong; Slept d1]. rewrite <- app_assoc. split; [done|].
    split; [right; exists wrong; done|simpl; lia]. }
  destruct (pause_goes 25 (Z.quot (MinDelayMs cfg) 5) 60 (Z.quot (MaxDelayMs cfg) 5)
              {| gen := r'; slept := S (slept t);
                 events := ((events t ++ [Typed wrong]) ++ [Slept d1]) ++ [Backspace] |})
    as [d2 Hd2]; [lia|lia|done|done|apply Hc; lia|apply Hc; lia|].
  rewrite Hd2. simpl.
  apply (Htail _ [Typed wrong; Slept d1; Backspace; Slept d2]).
  - simpl. by rewrite <- !app_assoc.
  - intros s. simpl. by rewrite removelast_last.
  - simpl. lia.
Qed.

(** What the whole loop leaves behind. *)
Lemma typeAll_spec text (t : Typing) :
  match typeAll k c cfg text t with
  | Goes t' =>
      exists new, events t' = events t ++ new
                  /\ (forall s, foldl strike s new = s ++ text)
                  /\ (length text <= length (filter isKey new) <= 3 * length text)%nat
  | Fails e t' =>
      exists new typed stray,
        events t' = events t ++ new
        /\ (forall s, foldl strike s new = s ++ typed ++ stray)
        /\ typed `prefix_of` text
        /\ (length typed < length text)%nat
        /\ (length stray <= 1)%nat
        /\ (length (filter isKey new) < 3 * length text)%nat
  | Crashes => False
  end.
Proof.
  revert t. induction text as [|ch text IH]; intros t; simpl.
  { exists []. rewrite app_nil_r. split; [done|]. split; [|simpl; lia].
    intros s. by rewrite app_nil_r. }
  pose proof (keystroke_spec ch t) as Hk.
  destruct (keystroke k c cfg ch t) as [e t1|t1|]; simpl; [| |done].
  { destruct Hk as (new & Hev & Hnet & Hlen).
    destruct Hnet as [Hnet|[wrong Hnet]].
    - exists new, [], []. split; [done|]. split; [intros s; by rewrite Hnet, app_nil_r|].
      split; [apply prefix_nil|]. simpl. lia.
    - exists new, [], [wrong]. split; [done|]. split; [done|].
      split; [apply prefix_nil|]. simpl. lia. }
  destruct Hk as (new & Hev & Hnet & Hlen).
  specialize (IH t1). destruct (typeAll k c cfg text t1) as [e t2|t2|]; [| |done].
  - destruct IH as (new' & typed & stray & Hev' & Hnet' & Hpre & Hlt & Hst & Hlen').
    exists (new ++ new'), (ch :: typed), stray.
    rewrite Hev', Hev, <- app_assoc. split; [done|]. split.
    { intros s. rewrite foldl_app, Hnet, Hnet', <- app_assoc. done. }
    split; [by apply prefix_cons|]. rewrite filter_app, length_app. simpl. lia.
  - destruct IH as (new' & Hev' & Hnet' & Hlen').
    exists (new ++ new'). rewrite Hev', Hev, <- app_assoc. split; [done|]. split.
    { intros s. rewrite foldl_app, Hnet, Hnet', <- app_assoc. done. }
    rewrite filter_app, length_app. lia.
Qed.

Lemma andThen_no_fail (s : Step) (f : Typing -> Step) :
  (forall e t, s <> Fails e t) ->
  (forall t e t', f t <> Fails e t') ->
  forall e t', andThen s f <> Fails e t'.
Proof. intros Hs Hf e t'. destruct s; simpl; [by eapply Hs|apply Hf|done]. Qed.

Lemma pause_no_fail lo hi (t : Typing) e t' : pause c lo hi t <> Fails e t'.
Proof. unfold pause. by destruct (stealth.RandomDelay _ _ _). Qed.

(** A keyboard that accepts every key never makes the loop return. *)
Lemma typeAll_willing text (t : Typing) e t' :
  (forall evs ch, KeyType k evs ch = None) ->
  (forall evs, Press k evs = None) ->
  typeAll k c cfg text t <> Fails e t'.
Proof.
  intros Hty Hpr. revert t e t'.
  assert (Htype : forall ch t e t', type k ch t <> Fails e t').
  { intros ch t e t'. unfold type. by rewrite Hty. }
  assert (Hback : forall t e t', backspace k t <> Fails e t').
  { intros t e t'. unfold backspace. by rewrite Hpr. }
  assert (Hrhythm : forall t e t', rhythm c cfg t <> Fails e t').
  { intros t e t'. unfold rhythm. simpl. destruct (_ <? _)%float; [|done].
    by destruct (timing.ShortPause _ _). }
  assert (Htypo : forall ch t e t', typo k c cfg ch t <> Fails e t').
  { intros ch t e t'. unfold typo. simpl. destruct (_ <? _)%float; [|done].
    destruct (randomNearbyRune _ _ _) as [[wrong r']|]; [|done].
    apply andThen_no_fail; [intros; apply Htype|]. intros t1.
    apply andThen_no_fail; [intros; apply pause_no_fail|]. intros t2.
    apply andThen_no_fail; [intros; apply Hback|]. intros t3 e3 t3'.
    apply pause_no_fail. }
  induction text as [|ch text IH]; intros t e t'; simpl; [done|].
  apply andThen_no_fail; [|apply IH]. intros e1 t1. unfold keystroke.
  apply andThen_no_fail; [intros; apply Htypo|]. intros t2.
  apply andThen_no_fail; [intros; apply Htype|]. intros t3.
  apply andThen_no_fail; [intros; apply pause_no_fail|]. apply Hrhythm.
Qed.

End Typing.

(** X15.  [TypeHuman] never panics, and when it returns nil the field
    holds exactly the text: every typo was removed again, and between
    one and three keys were pressed per character.  With an element
    that scrolls and clicks without error and a keyboard that accepts
    every key, it does return nil. *)
Theorem typed_text_is_in_the_field el r c text cfg :
  in_int64 (MinDelayMs cfg) ->
  in_int64 (MaxDelayMs cfg) ->
  (forall i n, 0 < n -> 0 <= typing.intn c i n < n) ->
  exists tr e,
    typing.TypeHuman el r c text cfg = Returns (tr, e)
    /\ (e = None ->
        typing.fieldAfter tr = text
        /\ (length text <= length (filter typing.isKey tr) <= 3 * length text)%nat)
    /\ (typing.ScrollIntoView el = None -> typing.Click el = None ->
        (forall evs ch, typing.KeyType (typing.kb el) evs ch = None) ->
        (forall evs, typing.Press (typing.kb el) evs = None) ->
        e = None).
Proof.
  intros Hmin Hmax Hintn. unfold typing.TypeHuman.
  destruct (typing.ScrollIntoView el) as [e|]; [by eexists _, _|].
  destruct (typing.Click el) as [e|]; [by eexists _, _|].
  pose proof (typeAll_spec (typing.kb el) c cfg Hmin Hmax Hintn text
                {| typing.gen := r; typing.slept := 0; typing.events := [] |}) as Hall.
  destruct (typing.typeAll _ _ _ _ _) as [e t|t|] eqn:Hrun; [| |done].
  - eexists _, _. split; [done|]. split; [done|]. intros _ _ Hty Hpr.
    exfalso. by eapply typeAll_willing.
  - destruct Hall as (new & Hev & Hnet & Hlen). simpl in Hev. subst new.
    eexists _, _. split; [done|]. split; [|done]. intros _.
    split; [apply (Hnet [])|done].
Qed.

(** X16.  When [TypeHuman] returns an error, what is left in the field
    is a beginning of the text, followed by at most one stray character:
    the typo that was typed when Backspace, or the key before it,
    failed. *)
Theorem failed_typing_leaves_a_prefix el r c text cfg tr e :
  in_int64 (MinDelayMs cfg) ->
  in_int64 (MaxDelayMs cfg) ->
  (forall i n, 0 < n -> 0 <= typing.intn c i n < n) ->
  typing.TypeHuman el r c text cfg = Returns (tr, Some e) ->
  exists typed stray,
    typing.fieldAfter tr = typed ++ stray
    /\ typed `prefix_of` text
    /\ (length stray <= 1)%nat
    /\ (length (filter typing.isKey tr) <= 3 * length text)%nat.
Proof.
  intros Hmin Hmax Hintn. unfold typing.TypeHuman.
  assert (Hnone : exists typed stray : list Z,
            typing.fieldAfter [] = typed ++ stray /\ typed `prefix_of` text
            /\ (length stray <= 1)%nat
            /\ (length (filter typing.isKey []) <= 3 * length text)%nat).
  { exists [], []. split; [done|]. split; [apply prefix_nil|]. simpl. lia. }
  destruct (typing.ScrollIntoView el) as [e1|]; [by intros [= <- <-]|].
  destruct (typing.Click el) as [e1|]; [by intros [= <- <-]|].
  pose proof (typeAll_spec (typing.kb el) c cfg Hmin Hmax Hintn text
                {| typing.gen := r; typing.slept := 0; typing.events := [] |}) as Hall.
  destruct (typing.typeAll _ _ _ _ _) as [e1 t|t|]; [|done|done].
  intros [= <- <-].
  destruct Hall as (new & typed & stray & Hev & Hnet & Hpre & Hlt & Hst & Hlen).
  simpl in Hev. subst new. exists typed, stray.
  split; [apply (Hnet [])|]. split; [done|]. split; [done|lia].
Qed.

Lemma typed_text_is_in_the_field_witness :
  exists tr,
    typing.TypeHuman (typing.field typing.willing)
      (stealth.scripted [0.01%float]) typing.lowest [104; 105] timing
    = Returns (tr, None)
    /\ typing.fieldAfter tr = [104; 105].
Proof.
  destruct (typed_text_is_in_the_field (typing.field typing.willing)
              (stealth.scripted [0.01%float]) typing.lowest [104; 105] timing)
    as (tr & e & Hrun & Hnil & Hwilling).
  - vm_compute. split; discriminate.
  - vm_compute. split; discriminate.
  - intros i n Hn. simpl. lia.
  - assert (He : e = None).
    { apply Hwilling; [reflexivity|reflexivity|intros; reflexivity|intros; reflexivity]. }
    subst e. exists tr. split; [exact Hrun|]. exact (proj1 (Hnil eq_refl)).
Defined.

Lemma failed_typing_leaves_a_prefix_witness :
  exists typed stray,
    [97] = typed ++ stray
    /\ typed `prefix_of` [104; 105]
    /\ (length stray <= 1)%nat.
Proof.
  destruct (failed_typing_leaves_a_prefix (typing.field (typing.failingAfter 1 "detached"))
              (stealth.scripted [0.01%float]) typing.lowest [104; 105] timing
              [typing.Typed 97;
               typing.Slept (mul64 160 Millisecond)] "detached")
    as (typed & stray & Hfield & Hpre & Hlen & _).
  - vm_compute. split; discriminate.
  - vm_compute. split; discriminate.
  - intros i n Hn. simpl. lia.
  - vm_compute. reflexivity.
  - exists typed, stray. split; [exact Hfield|]. split; [exact Hpre|exact Hlen].
Defined.

Section MotionMore.
Import stealth.

Lemma curvePoints_length n i steps fromX fromY toX toY cp1x cp1y cp2x cp2y r :
  length (curvePoints n i steps fromX fromY toX toY cp1x cp1y cp2x cp2y r) = n.
Proof.
  revert i r. induction n as [|n IH]; intros i r; [done|].
  cbn [curvePoints].
  destruct (randRange r (-3)%float 3%float) as [jx r1].
  destruct (randRange r1 (-3)%float 3%float) as [jy r2].
  simpl. by rewrite IH.
Qed.

Lemma curveSteps_bounds dist : 25 <= curveSteps dist <= 220.
Proof.
  unfold curveSteps.
  destruct (add64 (int_of_float64 (dist / 8)) 20 <? 25) eqn:Hlow.
  - change (220 <? 25) with false. simpl. lia.
  - destruct (220 <? add64 (int_of_float64 (dist / 8)) 20) eqn:Hhigh; lia.
Qed.

(** X23.  The path of [MoveMouseHuman] is neither too coarse nor too
    long.  With [dist] the distance the function measures between the
    two points, and a mouse that moves through every point it is handed:
    when [dist < 2] the pointer makes one move, to the target; otherwise
    it goes through [steps] sampled points and then the final one, where
    [steps] is [int(dist/8) + 20] brought into the range from 25 to 220,
    so through 26 to 221 positions, whatever the draws. *)
Theorem mouse_path_length m r fromX fromY toX toY :
  (forall points, MoveAlong m points = (points, None)) ->
  ((moveDistance fromX fromY toX toY <? 2)%float = true ->
   fst (MoveMouseHuman m r fromX fromY toX toY) = [target toX toY])
  /\ ((moveDistance fromX fromY toX toY <? 2)%float = false ->
      length (fst (MoveMouseHuman m r fromX fromY toX toY))
      = S (Z.to_nat (curveSteps (moveDistance fromX fromY toX toY)))
      /\ 25 <= curveSteps (moveDistance fromX fromY toX toY) <= 220
      /\ (26 <= length (fst (MoveMouseHuman m r fromX fromY toX toY)) <= 221)%nat).
Proof.
  intros Hreplay.
  assert (Hlen : (moveDistance fromX fromY toX toY <? 2)%float = false ->
                 length (fst (MoveMouseHuman m r fromX fromY toX toY))
                 = S (Z.to_nat (curveSteps (moveDistance fromX fromY toX toY)))).
  { unfold MoveMouseHuman, moveDistance, curveSteps. cbv zeta. intros ->.
    repeat match goal with
           | |- context [randRange ?g ?a ?b] =>
               let v := fresh "v" in
               let g' := fresh "g" in
               destruct (randRange g a b) as [v g']
           end.
    destruct (overshoot _ toX toY) as [[tx ty] r5].
    rewrite Hreplay. simpl fst. rewrite length_app, curvePoints_length. simpl.
    apply Nat.add_1_r. }
  split.
  - unfold MoveMouseHuman, moveDistance. cbv zeta. intros ->. done.
  - intros Hfar. pose proof (curveSteps_bounds (moveDistance fromX fromY toX toY)) as Hb.
    rewrite (Hlen Hfar). split; [done|]. split; [done|]. lia.
Qed.

End MotionMore.

Lemma mouse_path_length_witness :
  fst (stealth.MoveMouseHuman stealth.replayMouse (stealth.scripted []) 0 0 1 1)
  = [stealth.target 1 1]
  /\ length (fst (stealth.MoveMouseHuman stealth.replayMouse
                    (stealth.scripted []) 0 0 100 100)) = 38%nat.
Proof.
  split.
  - apply (mouse_path_length stealth.replayMouse (stealth.scripted []) 0 0 1 1).
    + intros points. reflexivity.
    + vm_compute. reflexivity.
  - destruct (mouse_path_length stealth.replayMouse (stealth.scripted []) 0 0 100 100)
      as [_ Hfar].
    + intros points. reflexivity.
    + destruct Hfar as (Hlen & _ & _); [vm_compute; reflexivity|].
      rewrite Hlen. vm_compute. reflexivity.
Defined.

Section Scrolling.
Import scrolling.




End Scrolling.


(** The offset handed to the wheel is the binary64 value nearest to the
    step, which for a large step is not the step itself. *)
Lemma float64_rounds_large_steps :
  stealth.int_of_float64 (stealth.float64 (2 ^ 53 + 3)) = 2 ^ 53 + 4.
Proof. vm_compute. reflexivity. Qed.

Section Navigation.
Context {W : Type} `{!Env W} `{!navigate.Deps W}.
Import navigate patterns.

Lemma navigation_RandomDelay_returns nano a b :
  exists d, navigation.RandomDelay nano (max 2000 (mul64 a 2)) (max 5000 (mul64 b 2))
            = Some d.
Proof.
  set (lo := max 2000 (mul64 a 2)). set (hi := max 5000 (mul64 b 2)).
  assert (Hlo : in_int64 lo) by (apply max_in_int64; [by vm_compute|apply wrap64_range]).
  assert (Hhi : in_int64 hi) by (apply max_in_int64; [by vm_compute|apply wrap64_range]).
  pose proof (max_lower 2000 (mul64 a 2)) as Hl. fold lo in Hl.
  pose proof (proj1 (in_int64_bounds _) Hlo) as Hlo'.
  pose proof (proj1 (in_int64_bounds _) Hhi) as Hhi'.
  unfold navigation.RandomDelay, add64, sub64.
  destruct (lo <? 0) eqn:E; [lia|].
  assert (Hi : forall z, -9223372036854775808 <= z <= 9223372036854775807 ->
                         wrap64 z = z).
  { intros z Hz. apply wrap64_id, in_int64_bounds. lia. }
  destruct (hi <? lo) eqn:E'.
  - rewrite Z.sub_diag, (Hi 0) by lia. simpl. eauto.
  - rewrite (Hi (hi - lo)) by lia. rewrite (Hi (hi - lo + 1)) by lia.
    destruct (hi - lo + 1 =? 0) eqn:E''; [lia|]. eauto.
Qed.

Lemma tried_app lg1 lg2 : triedTabs (lg1 ++ lg2) = triedTabs lg1 ++ triedTabs lg2.
Proof. apply omap_app. Qed.

Lemma reached_app lg1 lg2 : reachedTabs (lg1 ++ lg2) = reachedTabs lg1 ++ reachedTabs lg2.
Proof. apply omap_app. Qed.

Lemma missed_app lg1 lg2 : missedTabs (lg1 ++ lg2) = missedTabs lg1 ++ missedTabs lg2.
Proof. apply omap_app. Qed.

(** The custom action and the scroll add nothing to the tabs tried,
    reached or missed. *)
Lemma interact_log (tabAction : TabWithAction W) cfg (w : W) lg :
  triedTabs (snd (interact tabAction cfg w lg)) = triedTabs lg
  /\ reachedTabs (snd (interact tabAction cfg w lg)) = reachedTabs lg
  /\ missedTabs (snd (interact tabAction cfg w lg)) = missedTabs lg.
Proof.
  unfold interact.
  destruct (CustomAction tabAction) as [action|];
    [destruct (action cfg w) as [[e|] w1]|];
    (destruct (0 <? ScrollTime tabAction);
     [destruct (ScrollCurrentTab _ _ _) as [[e'|] w2]|]); simpl;
    rewrite ?tried_app, ?reached_app, ?missed_app; simpl; rewrite ?app_nil_r; done.
Qed.

(** The loop of [ExecutePattern] goes through all the tabs. *)
Lemma tour_spec tabs cfg (t : Tour W) :
  exists t',
    tour tabs cfg t = Returns t'
    /\ triedTabs (log t') = triedTabs (log t) ++ (Tab <$> tabs)
    /\ exists reached missed,
         reachedTabs (log t') = reachedTabs (log t) ++ reached
         /\ missedTabs (log t') = missedTabs (log t) ++ missed
         /\ successCount t' = successCount t + Z.of_nat (length reached)
         /\ failCount t' = failCount t + Z.of_nat (length missed)
         /\ (length reached + length missed = length tabs)%nat.
Proof.
  revert t. induction tabs as [|tabAction rest IH]; intros t; simpl.
  { exists t. split; [done|]. rewrite app_nil_r. split; [done|].
    exists [], []. rewrite !app_nil_r. simpl. split; [done|]. split; [done|]. lia. }
  destruct (NavigateToTab (Tab tabAction) cfg (world t)) as [[e|] w1].
  { destruct (IH {| successCount := successCount t; failCount := failCount t + 1;
                    world := w1;
                    log := (log t ++ [AttemptingNavigation (Tab tabAction)])
                           ++ [NavigationFailed (Tab tabAction) e] |})
      as (t' & Hrun & Htried & reached & missed & Hr & Hm & Hs & Hf & Hlen).
    exists t'. split; [done|]. simpl in *.
    rewrite !tried_app in Htried. rewrite !reached_app in Hr. rewrite !missed_app in Hm.
    simpl in *. rewrite !app_nil_r in *. rewrite <- !app_assoc in *. simpl in *.
    split; [done|]. exists reached, (Tab tabAction :: missed).
    split; [done|]. split; [done|]. simpl. lia. }
  pose proof (interact_log tabAction cfg w1
                ((log t ++ [AttemptingNavigation (Tab tabAction)])
                 ++ [NavigationSuccessful (Tab tabAction)])) as (Hit & Hir & Him).
  destruct (interact tabAction cfg w1 _) as [w2 lg2]. simpl in Hit, Hir, Him.
  rewrite !tried_app in Hit. rewrite !reached_app in Hir. rewrite !missed_app in Him.
  simpl in Hit, Hir, Him. rewrite !app_nil_r in *. rewrite <- ?app_assoc in *.
  assert (Hnext : forall w3,
            exists t',
              tour rest cfg {| successCount := successCount t + 1;
                               failCount := failCount t; world := w3; log := lg2 |}
              = Returns t'
              /\ triedTabs (log t')
                 = triedTabs (log t) ++ Tab tabAction :: (Tab <$> rest)
              /\ exists reached missed,
                   reachedTabs (log t') = reachedTabs (log t) ++ reached
                   /\ missedTabs (log t') = missedTabs (log t) ++ missed
                   /\ successCount t' = successCount t + Z.of_nat (length reached)
                   /\ failCount t' = failCount t + Z.of_nat (length missed)
                   /\ (length reached + length missed = S (length rest))%nat).
  { intros w3.
    destruct (IH {| successCount := successCount t + 1; failCount := failCount t;
                    world := w3; log := lg2 |})
      as (t' & Hrun & Htried & reached & missed & Hr & Hm & Hs & Hf & Hlen).
    exists t'. split; [done|]. simpl in *. rewrite Htried, Hit, <- app_assoc.
    split; [done|]. exists (Tab tabAction :: reached), missed.
    rewrite Hr, Hir, Hm, Him, <- ?app_assoc. simpl.
    split; [done|]. split; [done|]. split; [lia|]. split; [lia|lia]. }
  destruct rest as [|next rest]; [apply Hnext|].
  destruct (PauseAfter tabAction =? 0); [|apply Hnext].
  destruct (navigation_RandomDelay_returns (UnixNano w2) (MinDelayMs cfg) (MaxDelayMs cfg))
    as [d ->].
  apply Hnext.
Qed.

(** X17.  [ExecutePattern] never panics and tries every tab of the
    pattern, once and in order, whatever fails on the way; each tab is
    either reached or missed; and the call returns an error exactly
    when the pattern has tabs and none of them was reached.  Failures
    of custom actions and of scrolling never make it return an error. *)
Theorem ExecutePattern_tries_every_tab (pattern : NavigationPattern W) cfg (w : W) :
  exists o,
    ExecutePattern pattern cfg w = Returns o
    /\ triedTabs (trace o) = Tab <$> Tabs pattern
    /\ (length (reachedTabs (trace o)) + length (missedTabs (trace o))
        = length (Tabs pattern))%nat
    /\ (err o <> None <-> Tabs pattern <> [] /\ reachedTabs (trace o) = []).
Proof.
  unfold ExecutePattern.
  destruct (tour_spec (Tabs pattern) cfg
              {| successCount := 0; failCount := 0; world := w; log := [] |})
    as (t' & -> & Htried & reached & missed & Hr & Hm & Hs & Hf & Hlen).
  simpl in *. eexists. split; [reflexivity|]. simpl.
  rewrite Htried, Hr, Hm. split; [done|]. split; [done|].
  rewrite Hs, Hf.
  assert (Hnil : reached = [] <-> length reached = 0%nat)
    by (split; [by intros ->|apply length_zero_iff_nil]).
  assert (Htabs : Tabs pattern <> [] <-> length (Tabs pattern) <> 0%nat).
  { split; [intros Hne Hz; by apply Hne, length_zero_iff_nil|].
    intros Hne Heq. by rewrite Heq in Hne. }
  destruct (0 + Z.of_nat (length reached) =? 0) eqn:E1;
    destruct (0 <? 0 + Z.of_nat (length missed)) eqn:E2; simpl.
  - split; [intros _|done]. split; [apply Htabs; lia|apply Hnil; lia].
  - split; [done|]. intros [Ht%Htabs Hr'%Hnil]. lia.
  - split; [done|]. intros [Ht%Htabs Hr'%Hnil]. lia.
  - split; [done|]. intros [Ht%Htabs Hr'%Hnil]. lia.
Qed.

(** X18.  [NavigateSequence] never panics and stops at the first tab it
    cannot navigate to: the tabs tried are a beginning of the list,
    the whole list when nil is returned, and otherwise ending with the
    tab named in the error. *)
Theorem NavigateSequence_stops_at_first_failure tabs cfg (w : W) :
  exists o k,
    NavigateSequence tabs cfg w [] = Returns o
    /\ triedTabs (trace o) = take k tabs
    /\ match err o with
       | None => take k tabs = tabs
       | Some e =>
           exists tab e', last (take k tabs) = Some tab
                          /\ e = "failed to navigate to " +:+ tab
                                 +:+ ": " +:+ e'
       end.
Proof.
  assert (Hgen : forall lg,
            exists o k,
              NavigateSequence tabs cfg w lg = Returns o
              /\ triedTabs (trace o) = triedTabs lg ++ take k tabs
              /\ match err o with
                 | None => take k tabs = tabs
                 | Some e =>
                     exists tab e', last (take k tabs) = Some tab
                                    /\ e = "failed to navigate to " +:+ tab
                                           +:+ ": " +:+ e'
                 end).
  { revert w. induction tabs as [|tab rest IH]; intros w lg; simpl.
    { eexists _, 0%nat. split; [reflexivity|]. simpl. by rewrite app_nil_r. }
    destruct (NavigateToTab tab cfg w) as [[e|] w1].
    { eexists _, 1%nat. split; [reflexivity|]. simpl. rewrite tried_app, take_0.
      split; [done|]. eexists tab, e. done. }
    assert (Hnext : forall w2,
              exists o k,
                NavigateSequence rest cfg w2 (lg ++ [NavigatingInSequence tab])
                = Returns o
                /\ triedTabs (trace o) = triedTabs lg ++ take k (tab :: rest)
                /\ match err o with
                   | None => take k (tab :: rest) = tab :: rest
                   | Some e =>
                       exists tab' e', last (take k (tab :: rest)) = Some tab'
                                       /\ e = "failed to navigate to "
                                              +:+ tab' +:+ ": " +:+ e'
                   end).
    { intros w2. destruct (IH w2 (lg ++ [NavigatingInSequence tab]))
        as (o & k & Hrun & Htried & Herr).
      exists o, (S k). split; [done|]. rewrite Htried, tried_app, <- app_assoc. simpl.
      split; [done|]. destruct (err o) as [e|].
      - destruct Herr as (tab' & e' & Hlast & He). exists tab', e'. split; [|done].
        destruct (take k rest) as [|x xs] eqn:Htake; [done|].
        by rewrite last_cons, Hlast.
      - by rewrite Herr. }
    destruct rest as [|next rest]; [apply Hnext|].
    destruct (pagination_pause_returns (Rand_draw w1) (mul64 (MinDelayMs cfg) 2)
                (mul64 (MaxDelayMs cfg) 2)) as [d Hd]; [apply wrap64_range..|].
    rewrite Hd. apply Hnext. }
  destruct (Hgen []) as (o & k & Hrun & Htried & Herr). by exists o, k.
Qed.

(** The keys of [tabURLs]. *)
Lemma tabURLs_keys tab :
  is_Some (tabURLs tab)
  <-> tab ∈ [TabFeed; TabMyNetwork; TabJobs; TabMessaging; TabNotifications; TabMe].
Proof.
  split.
  - unfold tabURLs.
    destruct (String.eqb_spec tab TabFeed) as [->|?]; [set_solver|].
    destruct (String.eqb_spec tab TabMyNetwork) as [->|?]; [set_solver|].
    destruct (String.eqb_spec tab TabJobs) as [->|?]; [set_solver|].
    destruct (String.eqb_spec tab TabMessaging) as [->|?]; [set_solver|].
    destruct (String.eqb_spec tab TabNotifications) as [->|?]; [set_solver|].
    destruct (String.eqb_spec tab TabMe) as [->|?]; [set_solver|].
    by intros [? ?].
  - intros Hin. repeat (apply elem_of_cons in Hin as [->|Hin]; [by eexists|]).
    by apply elem_of_nil in Hin.
Qed.

(** A tab without a URL has no selectors either. *)
Lemma tabSelectors_keys tab : tabURLs tab = None -> tabSelectors tab = None.
Proof.
  unfold tabURLs, tabSelectors.
  repeat (destruct (String.eqb tab _); [done|]). done.
Qed.

(** X19.  A tab is a string, and only six of them have a URL in
    [tabURLs]: feed, mynetwork, jobs, messaging, notifications and me.
    The search tab has neither selectors nor a URL, like every string
    that is not one of the six.  Navigating to a tab without a URL fails,
    unless the page already shows it, with the error "both click and
    direct navigation failed for <tab>: no URL defined for tab: <tab>",
    and without touching the page.  A tab with a URL is reached whenever
    [Navigate] and [WaitLoad] succeed, even if no navigation element can
    be clicked. *)
Theorem tab_without_url_is_not_reached tab cfg (w : W) :
  (is_Some (tabURLs tab)
   <-> tab ∈ [TabFeed; TabMyNetwork; TabJobs; TabMessaging; TabNotifications; TabMe])
  /\ tabURLs TabSearch = None /\ tabSelectors TabSearch = None
  /\ (tabURLs tab = None ->
      isOnTab tab w = false ->
      NavigateToTab tab cfg w
      = (Some ("both click and direct navigation failed for " +:+ tab
               +:+ ": no URL defined for tab: " +:+ tab), w))
  /\ (is_Some (tabURLs tab) ->
      (forall url w', fst (Navigate url w') = None) ->
      (forall w', fst (WaitLoad w') = None) ->
      fst (NavigateToTab tab cfg w) = None).
Proof.
  split; [apply tabURLs_keys|]. split; [done|]. split; [done|]. split.
  { intros Hurl Hoff. unfold NavigateToTab, clickNavigationTab, navigateToTabURL.
    by rewrite Hoff, (tabSelectors_keys tab Hurl), Hurl. }
  intros [url Hurl] Hnav Hload.
  unfold NavigateToTab, settle. destruct (isOnTab tab w); [done|].
  destruct (clickNavigationTab tab cfg w) as [[e|] w1]; [|done].
  unfold navigateToTabURL. rewrite Hurl.
  pose proof (Hnav url w1) as Hn. destruct (Navigate url w1) as [[e1|] w2]; [done|].
  pose proof (Hload w2) as Hl. destruct (WaitLoad w2) as [[e2|] w3]; done.
Qed.

End Navigation.

Lemma tab_without_url_is_not_reached_witness :
  fst (navigate.NavigateToTab navigate.TabSearch timing (kiosk true)) <> None
  /\ fst (navigate.NavigateToTab "premium" timing (kiosk true)) <> None
  /\ fst (navigate.NavigateToTab navigate.TabJobs timing (kiosk true)) = None.
Proof.
  destruct (tab_without_url_is_not_reached navigate.TabSearch timing (kiosk true))
    as (_ & _ & _ & Hsearch & _).
  destruct (tab_without_url_is_not_reached "premium" timing (kiosk true))
    as (_ & _ & _ & Hpremium & _).
  destruct (tab_without_url_is_not_reached navigate.TabJobs timing (kiosk true))
    as (_ & _ & _ & _ & Hjobs).
  split; [|split].
  - rewrite Hsearch; [discriminate|reflexivity|vm_compute; reflexivity].
  - rewrite Hpremium; [discriminate|reflexivity|vm_compute; reflexivity].
  - apply Hjobs; [vm_compute; eauto|intros url w'; reflexivity|intros w'; reflexivity].
Defined.

Section Configuration.

(** X20.  A configuration that passes [validate] is returned with its
    browser, timing and limits settings unchanged, and these can be used
    without a panic, the random sources keeping their contracts: picking
    the user agent stays within the list, and drawing a delay between the
    configured bounds returns.  [validate] puts no upper bound on the
    delays: the delay drawn lies between [MinDelayMs] and [MaxDelayMs]
    milliseconds when [MaxDelayMs] is at most 9223372036854, the most
    milliseconds a [time.Duration] holds, and may be anything beyond
    that. *)
Theorem validated_configuration_is_usable c c' entropy draw :
  config.validate c = inl c' ->
  draw_in_range draw ->
  match entropy with
  | Some n => 0 <= n < 2 ^ 64
  | None => True
  end ->
  in_int64 (Z.of_nat (length (config.UserAgents (config.Browser c)))) ->
  in_int64 (MinDelayMs (config.Timing c)) ->
  in_int64 (MaxDelayMs (config.Timing c)) ->
  config.Browser c' = config.Browser c
  /\ config.Timing c' = config.Timing c
  /\ config.Limits c' = config.Limits c
  /\ (exists ua, session.userAgent entropy draw c' = Returns ua
                 /\ ua ∈ config.UserAgents (config.Browser c))
  /\ (exists d, stealth.RandomDelay draw (MinDelayMs (config.Timing c'))
                  (MaxDelayMs (config.Timing c')) = Some d
                /\ (MaxDelayMs (config.Timing c) <= max_duration_ms ->
                    within_ms (MinDelayMs (config.Timing c))
                      (MaxDelayMs (config.Timing c)) d)).
Proof.
  unfold config.validate. intros Hval Hdraw Hent Hlen Hmin Hmax.
  destruct (length (config.UserAgents (config.Browser c)) =? 0)%nat eqn:Hua; [done|].
  destruct (config.MinViewport (config.Browser c) <=? 0) eqn:Hv1; [done|].
  destruct (config.MaxViewport (config.Browser c)
            <=? config.MinViewport (config.Browser c)) eqn:Hv2; [done|].
  destruct (MinDelayMs (config.Timing c) <=? 0) eqn:Ht1; [done|].
  destruct (MaxDelayMs (config.Timing c) <=? 0) eqn:Ht2; [done|].
  simpl in Hval.
  destruct (MaxDelayMs (config.Timing c) <? MinDelayMs (config.Timing c)) eqn:Ht3;
    [done|].
  destruct (config.DailyConnections (config.Limits c) <=? 0) eqn:Hl; [done|].
  injection Hval as <-. simpl. split; [done|]. split; [done|]. split; [done|].
  apply Nat.eqb_neq in Hua. split.
  - unfold session.userAgent, session.randomInt. simpl.
    set (agents := config.UserAgents (config.Browser c)) in *.
    set (len := Z.of_nat (length agents)) in *.
    pose proof (proj1 (in_int64_bounds _) Hlen) as Hlen'.
    assert (Hpick : forall i, 0 <= i < len ->
              exists ua, (if i <? 0 then Panics
                          else match agents !! Z.to_nat i with
                               | Some ua => Returns ua
                               | None => Panics
                               end) = Returns ua /\ ua ∈ agents).
    { intros i Hi. destruct (i <? 0) eqn:E; [lia|].
      destruct (agents !! Z.to_nat i) as [ua|] eqn:Hua'.
      - exists ua. split; [done|]. by eapply list_elem_of_lookup_2.
      - apply lookup_ge_None in Hua'. lia. }
    destruct (len <=? 1) eqn:Hone; [apply Hpick; lia|].
    destruct entropy as [n|].
    + pose proof (Z.mod_pos_bound n len ltac:(lia)) as Hmod.
      rewrite wrap64_id by (apply in_int64_bounds; lia). by apply Hpick.
    + unfold Intn. destruct (len <=? 0) eqn:E; [lia|]. apply Hpick, Hdraw. lia.
  - destruct (RandomDelay_returns draw (MinDelayMs (config.Timing c))
                (MaxDelayMs (config.Timing c)) Hmin Hmax ltac:(lia)) as [d Hd].
    exists d. split; [done|]. intros Hfit.
    destruct (clamp_id (MinDelayMs (config.Timing c))
                (MaxDelayMs (config.Timing c)) ltac:(lia)) as [Hlo Hhi].
    destruct (stealth_RandomDelay_bounded draw (MinDelayMs (config.Timing c))
                (MaxDelayMs (config.Timing c)) Hdraw) as (d' & Hd' & Hin).
    + by rewrite Hhi.
    + rewrite Hlo, Hhi in Hin. congruence.
Qed.

End Configuration.

Lemma validated_configuration_is_usable_witness :
  exists ua,
    session.userAgent (Some 18446744073709551615) (fun _ => 0)
      (match config.validate cautious with
       | inl c' => c'
       | inr _ => cautious
       end) = Returns ua
    /\ ua ∈ config.UserAgents (config.Browser cautious).
Proof.
  destruct (validated_configuration_is_usable cautious
              (match config.validate cautious with
               | inl c' => c'
               | inr _ => cautious
               end)
              (Some 18446744073709551615) (fun _ => 0))
    as (_ & _ & _ & (ua & Hua & Hin) & _).
  - vm_compute. reflexivity.
  - intros n Hn. lia.
  - simpl. lia.
  - vm_compute. split; discriminate.
  - vm_compute. split; discriminate.
  - vm_compute. split; discriminate.
  - exists ua. split; [exact Hua|exact Hin].
Defined.

(** [validate] accepts delays of ten thousand million seconds, and the
    delay drawn between them is negative. *)
Lemma validate_does_not_bound_delays :
  config.validate sluggish = inl sluggish
  /\ stealth.RandomDelay (fun _ => 0) (MinDelayMs (config.Timing sluggish))
       (MaxDelayMs (config.Timing sluggish)) = Some (-8446744073709551616).
Proof. split; vm_compute; reflexivity. Qed.

Section Driver.
Context {W : Type} `{!Env W} `{!connect.Deps W}.



End Driver.

Section FollowUpDriver.
Context {W : Type} `{!Env W} `{!messaging.Deps W}.

(** X22.  [runFollowUpMessaging] does not call the engine for an empty
    list; otherwise the run it starts returns, with the cap of 5
    messages a day: the counter of the day grows by the number of
    messages sent and does not pass the larger of 5 and its value at
    entry. *)
Theorem follow_up_driver_cap_is_five profiles cfg (w : W) :
  in_int64 (messaging.MessagesSentToday (entryMessageState w)) ->
  match session.runFollowUpMessaging profiles cfg w with
  | None => profiles = []
  | Some run =>
      profiles <> []
      /\ exists r,
           run = Returns r
           /\ messaging.MessagesSentToday (messageStateAfter w r)
              = messaging.MessagesSentToday (entryMessageState w)
                + Z.of_nat (length (sentMessages (messaging.trace r)))
           /\ messaging.MessagesSentToday (messageStateAfter w r)
              <= Z.max (messaging.MessagesSentToday (entryMessageState w)) 5
  end.
Proof.
  intros Hin. unfold session.runFollowUpMessaging.
  destruct profiles as [|url rest]; [done|]. split; [done|].
  destruct (followup_run_counter session.msgCfg (config.Timing cfg)
              (url :: rest) w Hin) as (r & Hrun & Hcnt & Hle & _); [by vm_compute|].
  exists r. done.
Qed.

End FollowUpDriver.


Lemma follow_up_driver_cap_is_five_witness :
  exists r,
    session.runFollowUpMessaging dozen cautious (firstFollowUps true today)
    = Some (Returns r)
    /\ messaging.MessagesSentToday (messageStateAfter (firstFollowUps true today) r) <= 5.
Proof.
  pose proof (follow_up_driver_cap_is_five dozen cautious (firstFollowUps true today))
    as Hcap.
  change (session.runFollowUpMessaging dozen cautious (firstFollowUps true today))
    with (Some (messaging.SendFollowUps dozen session.msgCfg timing
                  (firstFollowUps true today))) in *.
  destruct Hcap as (_ & r & Hrun & _ & Hle).
  - vm_compute. split; discriminate.
  - exists r. split; [by rewrite Hrun|exact Hle].
Defined.

Section Storage.
Context {D : Type} `{!storage.FileSystem D}.
Import storage.

Lemma ensureDir_set (f : FileStore) (d : D) :
  BaseDir f <> EmptyString -> snd (fst (ensureDir f d)) = f.
Proof.
  intros Hset. apply String.eqb_neq in Hset. unfold ensureDir. rewrite Hset.
  by destruct (MkdirAll (BaseDir f) d).
Qed.

(** X26.  What [Save] has written, [Load] reads back.  On a file system
    where a file just written reads as written and making a directory
    disturbs no file, after a [Save] that returned nil the store has a
    directory ("data" if none was given) and a [Load] of the same key
    returns the data, unless its own directory check fails.  Only the
    base name of a key is used, so any other non-empty key with the same
    base name reads the same data. *)
Theorem saved_state_is_loaded_back (f f1 : FileStore) key key' data (d d1 : D) :
  (forall path data d d', WriteFile path data d = (None, d') ->
                          ReadFile path d' = inl data) ->
  (forall dir d d', MkdirAll dir d = (None, d') ->
                    forall path, ReadFile path d' = ReadFile path d) ->
  Save f key data d = (None, f1, d1) ->
  Base key' = Base key ->
  key' <> EmptyString ->
  key <> EmptyString
  /\ BaseDir f1 = (if String.eqb (BaseDir f) EmptyString then "data" else BaseDir f)
  /\ exists d2,
       Load f1 key' d1 = (inl data, f1, d2)
       \/ exists e, Load f1 key' d1 = (inr (Failed ("ensure dir: " +:+ e)), f1, d2).
Proof.
  intros Hrw Hmk Hsave Hbase Hkey'. unfold Save, ensureDir in Hsave.
  set (f0 := if String.eqb (BaseDir f) EmptyString then {| BaseDir := "data" |} else f)
    in *.
  destruct (MkdirAll (BaseDir f0) d) as [[e|] d0] eqn:Hmkdir; [done|].
  destruct (String.eqb key EmptyString) eqn:Hkey; [done|].
  destruct (WriteFile (pathFor f0 key) data d0) as [[e|] d0'] eqn:Hwrite; [done|].
  injection Hsave as <- <-. apply String.eqb_neq in Hkey. split; [done|].
  assert (Hdir : BaseDir f0
                 = if String.eqb (BaseDir f) EmptyString then "data" else BaseDir f).
  { unfold f0. by destruct (String.eqb (BaseDir f) EmptyString). }
  split; [done|].
  assert (Hset : String.eqb (BaseDir f0) EmptyString = false).
  { rewrite Hdir. by destruct (String.eqb (BaseDir f) EmptyString) eqn:E. }
  unfold Load, ensureDir. rewrite Hset.
  destruct (MkdirAll (BaseDir f0) d0') as [[e|] d2] eqn:Hagain.
  { exists d2. right. by exists e. }
  exists d2. left. apply String.eqb_neq in Hkey'. rewrite Hkey'.
  assert (Hpath : pathFor f0 key' = pathFor f0 key) by (unfold pathFor; by rewrite Hbase).
  by rewrite Hpath, (Hmk _ _ _ Hagain), (Hrw _ _ _ _ Hwrite).
Qed.

(** X27.  [Delete] returns nil exactly when the key is not empty and
    [os.Remove] either succeeds or finds no file; so it returns nil
    whether or not there was a file.  What it has deleted, [Load]
    reports as [ErrNotFound], for a store that has its directory and
    unless the directory check of [Load] fails.  The file system is one
    where a path just removed, or found missing, does not read, and
    making a directory disturbs no file. *)
Theorem deleted_state_is_not_found (f : FileStore) key (d : D) :
  (forall path d e d', Remove path d = (e, d') ->
                       e = None \/ e = Some NotExist ->
                       ReadFile path d' = inr NotExist) ->
  (forall dir d d', MkdirAll dir d = (None, d') ->
                    forall path, ReadFile path d' = ReadFile path d) ->
  (fst (Delete f key d) = None
   <-> key <> EmptyString
       /\ (fst (Remove (pathFor f key) d) = None
           \/ fst (Remove (pathFor f key) d) = Some NotExist))
  /\ (key <> EmptyString ->
      fst (Remove (pathFor f key) d) = None
      \/ fst (Remove (pathFor f key) d) = Some NotExist ->
      exists d1,
        Delete f key d = (None, d1)
        /\ (BaseDir f <> EmptyString ->
            exists d2,
              Load f key d1 = (inr ErrNotFound, f, d2)
              \/ exists e,
                   Load f key d1 = (inr (Failed ("ensure dir: " +:+ e)), f, d2))).
Proof.
  intros Hrm Hmk. split.
  { unfold Delete. destruct (String.eqb_spec key EmptyString) as [->|Hkey].
    - simpl. split; [done|]. by intros [? _].
    - destruct (Remove (pathFor f key) d) as [[[|e]|] d'] eqn:Hremove; simpl.
      + split; [intros _; split; [done|by right]|done].
      + split; [done|]. by intros [_ [?|?]].
      + split; [intros _; split; [done|by left]|done]. }
  intros Hkey Hremoved. unfold Delete.
  apply String.eqb_neq in Hkey. rewrite Hkey.
  destruct (Remove (pathFor f key) d) as [e d1] eqn:Hremove. simpl in Hremoved.
  assert (Hgone : ReadFile (pathFor f key) d1 = inr NotExist)
    by (eapply Hrm; [exact Hremove|exact Hremoved]).
  exists d1. split.
  { destruct Hremoved as [->| ->]; done. }
  intros Hset. apply String.eqb_neq in Hset. unfold Load, ensureDir. rewrite Hset.
  destruct (MkdirAll (BaseDir f) d1) as [[e'|] d2] eqn:Hagain.
  { exists d2. right. by exists e'. }
  exists d2. left. by rewrite Hkey, (Hmk _ _ _ Hagain), Hgone.
Qed.

End Storage.

(** The disk in memory is such a file system. *)
Lemma MemDisk_read_after_write path data (d d' : list (string * list Z)) :
  storage.WriteFile path data d = (None, d') -> storage.ReadFile path d' = inl data.
Proof.
  cbn [storage.WriteFile storage.ReadFile MemDisk_FileSystem].
  intros [= <-]. unfold readDisk. simpl. by rewrite String.eqb_refl.
Qed.

Lemma MemDisk_mkdir_keeps_files dir (d d' : list (string * list Z)) :
  storage.MkdirAll dir d = (None, d') ->
  forall path, storage.ReadFile path d' = storage.ReadFile path d.
Proof. cbn [storage.MkdirAll MemDisk_FileSystem]. by intros [= <-]. Qed.

Lemma MemDisk_removed_is_gone path (d : list (string * list Z)) e d' :
  storage.Remove path d = (e, d') ->
  e = None \/ e = Some storage.NotExist ->
  storage.ReadFile path d' = inr storage.NotExist.
Proof.
  cbn [storage.Remove storage.ReadFile MemDisk_FileSystem].
  destruct (readDisk path d) eqn:Hlook; intros [= <- <-] _; [|by rewrite Hlook].
  assert (Hgone : readDisk path
                    (filter (fun file => negb (String.eqb (fst file) path)) d) = None).
  { clear Hlook. unfold readDisk. induction d as [|[p data] d IH]; [done|].
    rewrite filter_cons. simpl. destruct (String.eqb p path) eqn:E; simpl; [done|].
    by rewrite E. }
  by rewrite Hgone.
Qed.

Lemma saved_state_is_loaded_back_witness :
  exists f1 d1 d2,
    storage.Save freshStore "connection_state" [123; 125] [] = (None, f1, d1)
    /\ storage.BaseDir f1 = "data"
    /\ storage.Load f1 "connection_state" d1 = (inl [123; 125], f1, d2).
Proof.
  destruct (saved_state_is_loaded_back freshStore {| storage.BaseDir := "data" |}
              "connection_state" "connection_state" [123; 125] []
              [("data/connection_state.json", [123; 125])])
    as (_ & Hdir & d2 & [Hload|[e Hload]]).
  - exact MemDisk_read_after_write.
  - exact MemDisk_mkdir_keeps_files.
  - reflexivity.
  - reflexivity.
  - discriminate.
  - exists {| storage.BaseDir := "data" |},
      [("data/connection_state.json", [123; 125])], d2.
    split; [reflexivity|]. split; [exact Hdir|exact Hload].
  - exfalso. vm_compute in Hload. discriminate Hload.
Defined.

Lemma deleted_state_is_not_found_witness :
  exists d1 d2,
    storage.Delete {| storage.BaseDir := "data" |} "connection_state"
      [("data/connection_state.json", [123; 125])] = (None, d1)
    /\ storage.Load {| storage.BaseDir := "data" |} "connection_state" d1
       = (inr storage.ErrNotFound, {| storage.BaseDir := "data" |}, d2).
Proof.
  destruct (deleted_state_is_not_found {| storage.BaseDir := "data" |}
              "connection_state" [("data/connection_state.json", [123; 125])])
    as [_ Hdeleted].
  - exact MemDisk_removed_is_gone.
  - exact MemDisk_mkdir_keeps_files.
  - destruct Hdeleted as (d1 & Hdel & Hload).
    + discriminate.
    + left. reflexivity.
    + destruct Hload as (d2 & [Hload|[e Hload]]).
      * discriminate.
      * exists d1, d2. split; [exact Hdel|exact Hload].
      * exfalso. injection Hdel as <-. vm_compute in Hload. discriminate Hload.
Defined.
